(** * BerylliumSwallow: the curses client ([client_curses.py])

    A shallow embedding of the schema-driven table renderer ([Buffer.renew]),
    the justifiers, the scroll and refresh operations of [Buffer], the two
    live views and the command editor of [main], followed by the properties
    that the design document states about them.

    Conventions of the embedding.
    - A Python [str] is a [string] with one [ascii] per code point; the model
      therefore covers text over U+0000..U+00FF (this includes the half-minute
      mark U+00BD that [process_time] appends).
    - A Python [int] is a [Z].
    - A naive [datetime] is the number of microseconds since
      0001-01-01T00:00:00, which is the scale on which [datetime] subtraction
      works; a [timedelta] is a number of microseconds.
    - Exceptions are values of [exn]; code that can raise returns [result].
    - Methods that mutate [self] take the buffer and return the buffer
      after the call, together with the exception that ended the call early,
      if any. *)

From Stdlib Require Import ZArith String Ascii List Bool Lia DecimalString.
Import ListNotations.
Open Scope string_scope.
Open Scope Z_scope.

(** ** Exceptions and results *)

Inductive exn : Type :=
| KeyError
| IndexError
| TypeError
| AttributeError
| ValueError
| ProviderError.   (* whatever the data provider raises *)

Inductive result (A : Type) : Type :=
| Ok (a : A)
| Raise (e : exn).
Arguments Ok {A} a.
Arguments Raise {A} e.

Definition bind {A B : Type} (r : result A) (k : A -> result B) : result B :=
  match r with
  | Ok a => k a
  | Raise e => Raise e
  end.

Notation "x <- c ;; k" := (bind c (fun x => k))
  (at level 61, c at next level, right associativity).
Notation "' p <- c ;; k" := (bind c (fun p => k))
  (at level 61, p pattern, c at next level, right associativity).

(** [collect f l] runs [f] over [l] the way a [for] loop that appends to a
    list does: it yields the results appended before the first exception,
    and that exception. *)
Fixpoint collect {A B : Type} (f : A -> result B) (l : list A)
  : list B * option exn :=
  match l with
  | [] => ([], None)
  | x :: l' =>
      match f x with
      | Raise e => ([], Some e)
      | Ok y => let '(ys, e) := collect f l' in (y :: ys, e)
      end
  end.

(** A loop whose partial result is dropped when it raises. *)
Fixpoint for_each {A B : Type} (f : A -> result B) (l : list A)
  : result (list B) :=
  match l with
  | [] => Ok []
  | x :: l' => y <- f x ;; ys <- for_each f l' ;; Ok (y :: ys)
  end.

(** Proof steps for statements about concrete runs: take a conjunction
    apart, and settle a closed equation or inequation by evaluation. *)
Ltac conjunctions := repeat match goal with |- _ /\ _ => split end.

Ltac evaluate := vm_compute; first [reflexivity | discriminate].

(** ** Python strings *)

Module PyStr.

Definition len (s : string) : Z := Z.of_nat (String.length s).

Fixpoint spaces (n : nat) : string :=
  match n with
  | O => ""
  | S n' => String " " (spaces n')
  end.

Fixpoint take (n : nat) (s : string) : string :=
  match n, s with
  | S n', String c s' => String c (take n' s')
  | _, _ => ""
  end.

Fixpoint drop (n : nat) (s : string) : string :=
  match n, s with
  | S n', String _ s' => drop n' s'
  | _, _ => s
  end.

(** Slice bounds: a negative bound counts from the end, and every bound
    is clamped to [0, len]. *)
Definition clamp_index (n i : Z) : nat :=
  Z.to_nat (if i <? 0 then Z.max (i + n) 0 else Z.min i n).

(** [s[:i]] *)
Definition slice_to (s : string) (i : Z) : string :=
  take (clamp_index (len s) i) s.

(** [s[i:]] *)
Definition slice_from (s : string) (i : Z) : string :=
  drop (clamp_index (len s) i) s.

(** [s.ljust(w)], [s.rjust(w)], [s.center(w)]: a string already [w] long
    or longer comes back unchanged. *)
Definition ljust (s : string) (w : Z) : string :=
  s ++ spaces (Z.to_nat (w - len s)).

Definition rjust (s : string) (w : Z) : string :=
  spaces (Z.to_nat (w - len s)) ++ s.

Definition center (s : string) (w : Z) : string :=
  let marg := w - len s in
  if marg <=? 0 then s
  else
    let left := marg / 2 + Z.land (Z.land marg w) 1 in
    spaces (Z.to_nat left) ++ s ++ spaces (Z.to_nat (marg - left)).

(** [s[0]] and [s[-1]] of a string, when it has them. *)
Definition first_char (s : string) : option ascii :=
  match s with
  | "" => None
  | String c _ => Some c
  end.

Fixpoint last_char (s : string) : option ascii :=
  match s with
  | "" => None
  | String c "" => Some c
  | String _ s' => last_char s'
  end.

Definition code (c : ascii) : Z := Z.of_N (N_of_ascii c).

Definition between (lo hi x : Z) : bool := (lo <=? x) && (x <=? hi).

(** [c.isalpha()] for a code point below U+0100. *)
Definition isalpha_char (c : ascii) : bool :=
  let n := code c in
  between 65 90 n || between 97 122 n
  || (n =? 170) || (n =? 181) || (n =? 186)
  || between 192 214 n || between 216 246 n || between 248 255 n.

(** [c.isnumeric()] for a code point below U+0100. *)
Definition isnumeric_char (c : ascii) : bool :=
  let n := code c in
  between 48 57 n || (n =? 178) || (n =? 179) || (n =? 185)
  || between 188 190 n.

Definition isdigit_char (c : ascii) : bool := between 48 57 (code c).

(** [s.lower()] and [s.upper()] on the ASCII letters; the other code points
    are left alone. The editor only ever applies them to the compose
    string, whose characters lie in ' '..'~'. *)
Definition lower_char (c : ascii) : ascii :=
  let n := code c in
  if between 65 90 n then ascii_of_N (Z.to_N (n + 32)) else c.

Definition upper_char (c : ascii) : ascii :=
  let n := code c in
  if between 97 122 n then ascii_of_N (Z.to_N (n - 32)) else c.

Fixpoint map_chars (f : ascii -> ascii) (s : string) : string :=
  match s with
  | "" => ""
  | String c s' => String (f c) (map_chars f s')
  end.

Definition lower : string -> string := map_chars lower_char.
Definition upper : string -> string := map_chars upper_char.

(** [s.startswith(p)] *)
Definition startswith (s p : string) : bool := String.prefix p s.

(** [sub in s] *)
Fixpoint contains (sub s : string) : bool :=
  String.prefix sub s
  || match s with
     | "" => false
     | String _ s' => contains sub s'
     end.

(** [s.split(sep)] for a one-character separator: one field more than
    there are separators. *)
Fixpoint split_aux (sep : ascii) (s : string) (field : string)
  : list string :=
  match s with
  | "" => [field]
  | String c s' =>
      if Ascii.eqb c sep then field :: split_aux sep s' ""
      else split_aux sep s' (field ++ String c "")
  end.

Definition split (sep : ascii) (s : string) : list string :=
  split_aux sep s "".

(** [str(n)] of an integer. *)
Definition of_int (z : Z) : string := NilZero.string_of_int (Z.to_int z).

(** [format(n, "02")] and the like: decimal, left-padded with zeros. *)
Fixpoint zeros (n : nat) : string :=
  match n with
  | O => ""
  | S n' => String "0" (zeros n')
  end.

Definition zero_padded (width : Z) (z : Z) : string :=
  let s := of_int z in zeros (Z.to_nat (width - len s)) ++ s.

End PyStr.

(** ** Python values *)

(** The function objects that the schemas of this program put in a justify
    slot ([str.ljust] is the renderer's fallback, [str.center] completes the
    family). *)
Inductive justify_fn : Type :=
| str_ljust
| str_rjust
| str_center
| platform_justify_fn.

(** What a slot of a schema tuple or a field of a row can hold. *)
Inductive atom : Type :=
| ANone
| AStr (s : string)
| AInt (z : Z)
| AFun (f : justify_fn).

(** Values: atoms, tuples of atoms (leaf descriptors and inherited-defaults
    tuples of a schema) and dicts with string keys (interior schema nodes,
    rows and their groups), kept as association lists in insertion order. *)
Inductive pyval : Type :=
| VAtom (a : atom)
| VTuple (t : list atom)
| VDict (d : list (string * pyval)).

Definition VNone : pyval := VAtom ANone.
Definition VStr (s : string) : pyval := VAtom (AStr s).
Definition VInt (z : Z) : pyval := VAtom (AInt z).

Module Py.

Definition justify_fn_eqb (f g : justify_fn) : bool :=
  match f, g with
  | str_ljust, str_ljust
  | str_rjust, str_rjust
  | str_center, str_center
  | platform_justify_fn, platform_justify_fn => true
  | _, _ => false
  end.

(** [a == b] *)
Definition atom_eqb (a b : atom) : bool :=
  match a, b with
  | ANone, ANone => true
  | AStr s, AStr t => String.eqb s t
  | AInt x, AInt y => x =? y
  | AFun f, AFun g => justify_fn_eqb f g
  | _, _ => false
  end.

Fixpoint atoms_eqb (s t : list atom) : bool :=
  match s, t with
  | [], [] => true
  | a :: s', b :: t' => atom_eqb a b && atoms_eqb s' t'
  | _, _ => false
  end.

(** [a == b]; the dicts of a row are [OrderedDict]s, which compare in
    order. *)
Fixpoint eqb (a b : pyval) : bool :=
  match a, b with
  | VAtom x, VAtom y => atom_eqb x y
  | VTuple s, VTuple t => atoms_eqb s t
  | VDict d, VDict e =>
      (fix items (d e : list (string * pyval)) : bool :=
         match d, e with
         | [], [] => true
         | (k, v) :: d', (k', v') :: e' =>
             String.eqb k k' && eqb v v' && items d' e'
         | _, _ => false
         end) d e
  | _, _ => false
  end.

(** Truth value of an object: [None], [""], [0], [()] and [{}] are false. *)
Definition atom_truthy (a : atom) : bool :=
  match a with
  | ANone => false
  | AStr s => negb (String.eqb s "")
  | AInt z => negb (z =? 0)
  | AFun _ => true
  end.

Definition truthy (v : pyval) : bool :=
  match v with
  | VAtom a => atom_truthy a
  | VTuple [] => false
  | VTuple _ => true
  | VDict [] => false
  | VDict _ => true
  end.

(** [a or b] *)
Definition atom_or (a b : atom) : atom := if atom_truthy a then a else b.
Definition or_ (a b : pyval) : pyval := if truthy a then a else b.

(** Dict lookup: the first binding of the key. *)
Fixpoint lookup (d : list (string * pyval)) (k : string) : option pyval :=
  match d with
  | [] => None
  | (k', v) :: d' => if String.eqb k' k then Some v else lookup d' k
  end.

(** [v[k]] for a string key [k]. *)
Definition getitem (v : pyval) (k : string) : result pyval :=
  match v with
  | VDict d =>
      match lookup d k with
      | Some x => Ok x
      | None => Raise KeyError
      end
  | _ => Raise TypeError
  end.

(** [v[i]] for a literal index [i >= 0], on the values a schema walk can
    end at. *)
Definition index (v : pyval) (i : nat) : result atom :=
  match v with
  | VTuple t =>
      match nth_error t i with
      | Some a => Ok a
      | None => Raise IndexError
      end
  | VAtom (AStr s) =>
      match String.get i s with
      | Some c => Ok (AStr (String c ""))
      | None => Raise IndexError
      end
  | VDict _ => Raise KeyError
  | VAtom _ => Raise TypeError
  end.

(** [len(v)] *)
Definition len (v : pyval) : result Z :=
  match v with
  | VTuple t => Ok (Z.of_nat (List.length t))
  | VDict d => Ok (Z.of_nat (List.length d))
  | VAtom (AStr s) => Ok (PyStr.len s)
  | VAtom _ => Raise TypeError
  end.

(** [sub in v] *)
Definition contains (sub : string) (v : pyval) : result bool :=
  match v with
  | VAtom (AStr s) => Ok (PyStr.contains sub s)
  | VTuple t => Ok (existsb (atom_eqb (AStr sub)) t)
  | VDict d => Ok (match lookup d sub with Some _ => true | None => false end)
  | VAtom _ => Raise TypeError
  end.

End Py.

(** Colour pairs that [main] initialises, with the roles its comments give
    them. *)
Definition COLOR_DEFAULT : Z := 0.
Definition COLOR_LIVE_DATA : Z := 3.      (* aqua on default: live data *)
Definition COLOR_DEEMPHASIS : Z := 5.     (* light grey: body de-emphasis *)
Definition COLOR_BODY_MAIN : Z := 6.      (* bright white: body main *)
Definition COLOR_EMPHASIS : Z := 7.       (* bright yellow: characteristic *)

(** A rendered cell: its text and its colour pair. *)
Definition cell : Type := string * atom.

(** Dates and times. *)
Definition datetime : Type := Z.
Definition timedelta : Type := Z.

Record date : Type := mkDate { year : Z; month : Z; day : Z }.

Module Time.

Definition MICROS_PER_SECOND : Z := 1000000.
Definition MICROS_PER_DAY : Z := 86400 * 1000000.

(** [timedelta(minutes=m)] *)
Definition minutes (m : Z) : timedelta := m * 60 * MICROS_PER_SECOND.

(** The normalised fields of a [timedelta]: [days] carries the sign,
    [0 <= seconds < 86400] and [0 <= microseconds < 1000000]. *)
Definition days (d : timedelta) : Z := d / MICROS_PER_DAY.
Definition seconds (d : timedelta) : Z :=
  (d mod MICROS_PER_DAY) / MICROS_PER_SECOND.
Definition microseconds (d : timedelta) : Z := d mod MICROS_PER_SECOND.

Definition is_leap (y : Z) : bool :=
  (y mod 4 =? 0) && (negb (y mod 100 =? 0) || (y mod 400 =? 0)).

Definition days_in_month (y m : Z) : Z :=
  if m =? 2 then (if is_leap y then 29 else 28)
  else if (m =? 4) || (m =? 6) || (m =? 9) || (m =? 11) then 30
  else 31.

(** Days of the year before the first of month [m]. *)
Definition days_before_month (y m : Z) : Z :=
  let table := [0; 31; 59; 90; 120; 151; 181; 212; 243; 273; 304; 334] in
  nth (Z.to_nat (m - 1)) table 0
  + (if (2 <? m) && is_leap y then 1 else 0).

(** The calendar date of a proleptic Gregorian day number (day 1 is
    0001-01-01), as [date.fromordinal] computes it. *)
Definition ord2ymd (ordinal : Z) : date :=
  let n := ordinal - 1 in
  let n400 := n / 146097 in
  let n := n mod 146097 in
  let n100 := n / 36524 in
  let n := n mod 36524 in
  let n4 := n / 1461 in
  let n := n mod 1461 in
  let n1 := n / 365 in
  let n := n mod 365 in
  let y := n400 * 400 + 1 + n100 * 100 + n4 * 4 + n1 in
  if (n1 =? 4) || (n100 =? 4) then mkDate (y - 1) 12 31
  else
    let m := Z.shiftr (n + 50) 5 in
    let preceding := days_before_month y m in
    let '(m, preceding) :=
      if n <? preceding
      then (m - 1, preceding - days_in_month y (m - 1))
      else (m, preceding) in
    mkDate y m (n - preceding + 1).

(** ["{:%Y-%m-%d}".format(d)] *)
Definition format_date (d : date) : string :=
  PyStr.zero_padded 4 (year d) ++ "-" ++ PyStr.zero_padded 2 (month d)
  ++ "-" ++ PyStr.zero_padded 2 (day d).

(** ["{:%Y-%m-%d %H:%M:%S}".format(t)] *)
Definition format_datetime (t : datetime) : string :=
  let secs := (t mod MICROS_PER_DAY) / MICROS_PER_SECOND in
  format_date (ord2ymd (t / MICROS_PER_DAY + 1)) ++ " "
  ++ PyStr.zero_padded 2 (secs / 3600) ++ ":"
  ++ PyStr.zero_padded 2 ((secs / 60) mod 60) ++ ":"
  ++ PyStr.zero_padded 2 (secs mod 60).

Definition all_digits (s : string) : bool :=
  forallb PyStr.isdigit_char (list_ascii_of_string s).

(** [int(s)] of a string of decimal digits. *)
Definition int_of_digits (s : string) : Z :=
  fold_left (fun acc c => acc * 10 + (PyStr.code c - 48))
            (list_ascii_of_string s) 0.

(** [datetime.strptime(s, "%Y-%m-%d").date()]. The format compiles to
    [\d\d\d\d-(1[0-2]|0[1-9]|[1-9])-(3[0-1]|[1-2]\d|0[1-9]|[1-9]| [1-9])],
    which must match all of [s]; then the date must exist. Every failure
    is a [ValueError]. *)
Definition strptime_date (s : string) : result date :=
  match PyStr.split "-" s with
  | [y; m; d] =>
      let d := match d with
               | String " " d' => if PyStr.len d' =? 1 then d' else "-"
               | _ => d
               end in
      if (PyStr.len y =? 4) && all_digits y
         && PyStr.between 1 2 (PyStr.len m) && all_digits m
         && PyStr.between 1 2 (PyStr.len d) && all_digits d
      then
        let y := int_of_digits y in
        let m := int_of_digits m in
        let d := int_of_digits d in
        if PyStr.between 1 12 m && (1 <=? y)
           && PyStr.between 1 (days_in_month y m) d
        then Ok (mkDate y m d)
        else Raise ValueError
      else Raise ValueError
  | _ => Raise ValueError
  end.

End Time.

(** [class Data]: a schema and the rows that follow it. *)
Module Data.
Record t : Type := make { schema : pyval; data : list pyval }.
End Data.

(** The three kinds of buffer, with the parameters a live view keeps. *)
Inductive view : Type :=
| TextView
| BoardView (dt_start : datetime) (duration : Z) (location_code : string)
| ServiceView (date_start : date) (service_code : string).

(** [class Buffer]. The two [*_outstanding] attributes come into being with
    the first [invalidate], which every constructor reaches through
    [renew]. *)
Record Buffer : Type := mkBuffer {
  view_of : view;
  data : Data.t;
  format : list string;
  title : string;
  line_offset : Z;
  lines : list (list cell);
  col_names : list cell;
  last_refreshed : datetime;
  headers_outstanding : bool;
  body_outstanding : bool
}.

Definition set_data (b : Buffer) (d : Data.t) : Buffer :=
  mkBuffer (view_of b) d (format b) (title b) (line_offset b) (lines b)
           (col_names b) (last_refreshed b) (headers_outstanding b)
           (body_outstanding b).

Definition set_title (b : Buffer) (t : string) : Buffer :=
  mkBuffer (view_of b) (data b) (format b) t (line_offset b) (lines b)
           (col_names b) (last_refreshed b) (headers_outstanding b)
           (body_outstanding b).

Definition set_line_offset (b : Buffer) (n : Z) : Buffer :=
  mkBuffer (view_of b) (data b) (format b) (title b) n (lines b)
           (col_names b) (last_refreshed b) (headers_outstanding b)
           (body_outstanding b).

Definition set_lines (b : Buffer) (l : list (list cell)) : Buffer :=
  mkBuffer (view_of b) (data b) (format b) (title b) (line_offset b) l
           (col_names b) (last_refreshed b) (headers_outstanding b)
           (body_outstanding b).

Definition set_col_names (b : Buffer) (c : list cell) : Buffer :=
  mkBuffer (view_of b) (data b) (format b) (title b) (line_offset b) (lines b)
           c (last_refreshed b) (headers_outstanding b) (body_outstanding b).

Definition set_last_refreshed (b : Buffer) (t : datetime) : Buffer :=
  mkBuffer (view_of b) (data b) (format b) (title b) (line_offset b) (lines b)
           (col_names b) t (headers_outstanding b) (body_outstanding b).

Definition set_outstanding (b : Buffer) (h o : bool) : Buffer :=
  mkBuffer (view_of b) (data b) (format b) (title b) (line_offset b) (lines b)
           (col_names b) (last_refreshed b) h o.

(** What [get_board] asks of the world outside at one moment. First the
    POSIX time of a naive local time, [int(dt.timestamp())], which depends
    on the time zone of the machine and raises for a time that it cannot
    place. Then the database: what the query of the board view answers for
    a location and the two ends of a time span, and what the query of the
    service view answers, the rows already in the nested shape that
    [get_board] gives them. *)
Record Provider : Type := mkProvider {
  posix_timestamp : datetime -> result Z;
  query_board : string -> Z -> Z -> result (list pyval);
  query_service : date -> string -> result (list pyval)
}.

(** [l[i]] of a list. *)
Definition list_index {A : Type} (l : list A) (i : nat) : result A :=
  match nth_error l i with
  | Some a => Ok a
  | None => Raise IndexError
  end.

Definition finish {A : Type} (r : A * option exn) : result A :=
  match r with
  | (a, None) => Ok a
  | (_, Some e) => Raise e
  end.

(** ** Schemas of the two live views ([get_board]) *)

Definition leaf (l : list atom) : pyval := VTuple l.

Definition time_schema_short : list (string * pyval) :=
  [ ("iso", leaf [ANone; AInt 19]); ("short", leaf [ANone; AInt 4]) ].

Definition time_schema : list (string * pyval) :=
  [ ("iso", leaf [ANone; AInt 19]); ("short", leaf [ANone; AInt 5]) ].

Definition location_schema : list (string * pyval) :=
  [ ("name", leaf [ANone; AInt 30]);
    ("tiploc", leaf [ANone; AInt 7]);
    ("crs", leaf [ANone; AInt 3]) ].

Definition service_schema : pyval :=
  VDict
    [ ("uid", leaf [AStr "UID"; AInt 6; AFun str_rjust]);
      ("atoc_code", leaf [AStr "o."; AInt 2]);
      ("power_type", leaf [AStr "pw."; AInt 3]);
      ("category", leaf [AStr "c."; AInt 2]);
      ("signalling_id", leaf [AStr "sig."; AInt 4]);
      ("actual_signalling_id", leaf [AStr "rt.s"; AInt 4; ANone; AInt 3]);
      ("current_variation", leaf [AStr "v."; AInt 3; AFun str_rjust; AInt 3]);
      ("operating_characteristics", leaf [AStr "oc."; AInt 4]) ].

Definition platform_leaf : pyval :=
  leaf [AStr "pt."; AInt 3; AFun platform_justify_fn].

Definition Board_schema : pyval :=
  VDict
    [ ("service", service_schema);
      ("trust_arrival", VDict [ ("platform", platform_leaf) ]);
      ("trust_departure", VDict [ ("platform", platform_leaf) ]);
      ("platform", platform_leaf);
      ("arrival_scheduled",
        VDict (("_", VTuple [AStr "arrival"]) :: time_schema));
      ("departure_scheduled",
        VDict (("_", VTuple [AStr "departure"]) :: time_schema));
      ("pass_scheduled", VDict (("_", VTuple [AStr "pass"]) :: time_schema));
      ("arrival_actual",
        VDict (("_", VTuple [AStr "arrival"; ANone; ANone; AInt 3])
               :: time_schema_short));
      ("departure_actual",
        VDict (("_", VTuple [AStr "departure"; ANone; ANone; AInt 3])
               :: time_schema_short));
      ("origin", VDict (("_", VTuple [AStr "origin"]) :: location_schema));
      ("destination",
        VDict (("_", VTuple [AStr "destination"]) :: location_schema)) ].

Definition Service_schema : pyval :=
  VDict
    [ ("service", service_schema);
      ("trust_arrival",
        VDict [ ("platform", platform_leaf);
                ("source", leaf [AStr "source"; AInt 1]) ]);
      ("trust_departure",
        VDict [ ("platform", platform_leaf);
                ("source", leaf [AStr "source"; AInt 1]) ]);
      ("platform", platform_leaf);
      ("activity", leaf [AStr "activity"; AInt 12]);
      ("arrival_scheduled",
        VDict (("_", VTuple [AStr "arrival"]) :: time_schema));
      ("departure_scheduled",
        VDict (("_", VTuple [AStr "departure"]) :: time_schema));
      ("pass_scheduled", VDict (("_", VTuple [AStr "pass"]) :: time_schema));
      ("arrival_actual",
        VDict (("_", VTuple [AStr "arrival"; ANone; ANone; AInt 3])
               :: time_schema_short));
      ("departure_actual",
        VDict (("_", VTuple [AStr "departure"; ANone; ANone; AInt 3])
               :: time_schema_short));
      ("here", VDict (("_", VTuple [AStr "location"]) :: location_schema));
      ("origin", VDict (("_", VTuple [AStr "origin"]) :: location_schema));
      ("destination",
        VDict (("_", VTuple [AStr "destination"]) :: location_schema)) ].

Definition Board_format : list string :=
  [ "service/uid"; "service/atoc_code"; "service/category";
    "service/power_type"; "service/operating_characteristics";
    "service/signalling_id"; "arrival_scheduled/short";
    "departure_scheduled/short"; "pass_scheduled/short"; "platform";
    "service/current_variation"; "arrival_actual/short";
    "departure_actual/short"; "origin/name"; "destination/name" ].

Definition Service_format : list string :=
  [ "activity"; "arrival_scheduled/short"; "departure_scheduled/short";
    "pass_scheduled/short"; "service/current_variation";
    "arrival_actual/short"; "trust_arrival/source"; "departure_actual/short";
    "trust_departure/source"; "platform"; "here/tiploc"; "here/name" ].

(** Key codes of curses. *)
Definition KEY_DOWN : Z := 258.
Definition KEY_UP : Z := 259.
Definition KEY_LEFT : Z := 260.
Definition KEY_RIGHT : Z := 261.
Definition KEY_BACKSPACE : Z := 263.
Definition KEY_DC : Z := 330.         (* 0x14A *)
Definition KEY_ENTER : Z := 343.
Definition KEY_RESIZE : Z := 410.

(** [chr(k)] *)
Definition chr (k : Z) : string := String (ascii_of_N (Z.to_N k)) "".
(** [ord(c)] *)
Definition ord (c : ascii) : Z := PyStr.code c.

Section Client.

(** [str()] of a dict, a tuple or a function object. The text depends on
    the interpreter (and, for a function, on its address), so it is left
    open; the renderer only asks for it when a display path stops at a
    group of a row. *)
Variable opaque_repr : pyval -> string.

(** [str(v)] *)
Definition py_str (v : pyval) : string :=
  match v with
  | VAtom ANone => "None"
  | VAtom (AStr s) => s
  | VAtom (AInt z) => PyStr.of_int z
  | _ => opaque_repr v
  end.

(** ** Justifiers *)

(** [def platform_justify(str, length)] *)
Definition platform_justify (str : pyval) (length : atom) : result string :=
  if negb (Py.atom_eqb length (AInt 3)) then Raise ValueError
  else if negb (Py.truthy str) then Ok "   "
  else
    n <- Py.len str ;;
    if n =? 1 then Ok (" " ++ py_str str ++ " ")
    else
      match str with
      | VAtom (AStr s) =>
          match PyStr.last_char s, PyStr.first_char s with
          | Some l, Some f =>
              if PyStr.isalpha_char l && PyStr.isnumeric_char f
              then Ok (PyStr.rjust s 3)
              else Ok (PyStr.ljust s 3)
          | _, _ => Raise IndexError
          end
      | VTuple _ => Raise AttributeError   (* no str methods on a tuple *)
      | VDict _ => Raise KeyError          (* str[-1] on a dict *)
      | VAtom _ => Raise TypeError
      end.

(** A method of [str] called through the class, [str.ljust(text, width)]:
    the text has to be a [str] and the width an [int]. *)
Definition str_method (f : string -> Z -> string) (text : pyval)
           (width : atom) : result string :=
  match text, width with
  | VAtom (AStr s), AInt w => Ok (f s w)
  | _, _ => Raise TypeError
  end.

(** [justify(text, pad)] for whatever sits in the justify slot. *)
Definition call_justify (justify : atom) (text : pyval) (pad : atom)
  : result string :=
  match justify with
  | AFun str_ljust => str_method PyStr.ljust text pad
  | AFun str_rjust => str_method PyStr.rjust text pad
  | AFun str_center => str_method PyStr.center text pad
  | AFun platform_justify_fn => platform_justify text pad
  | _ => Raise TypeError                    (* not callable *)
  end.

(** ** Schema walk of [Buffer.renew] *)

(** The four inherited attributes: name, pad, justify, colour. *)
Definition inherited : Type := atom * atom * atom * atom.

Definition nothing_inherited : inherited := (ANone, ANone, ANone, ANone).

(** [[a or b for a,b in zip(inherited,
      (current_schema.get("_",()) + (None,None,None,None))[:4])]] *)
Definition inherit (inh : inherited) (current_schema : pyval)
  : result inherited :=
  match current_schema with
  | VDict d =>
      match (match Py.lookup d "_" with
             | Some v => v
             | None => VTuple []
             end) with
      | VTuple t =>
          let defaults := firstn 4 (t ++ [ANone; ANone; ANone; ANone]) in
          let '(name, pad, justify, color) := inh in
          Ok (Py.atom_or name (nth 0 defaults ANone),
              Py.atom_or pad (nth 1 defaults ANone),
              Py.atom_or justify (nth 2 defaults ANone),
              Py.atom_or color (nth 3 defaults ANone))
      | _ => Raise TypeError                (* cannot add a tuple to it *)
      end
  | _ => Raise AttributeError               (* no .get *)
  end.

(** The inner loop of the header pass. *)
Fixpoint walk_schema (levels : list string) (inh : inherited)
         (current_schema : pyval) : result (inherited * pyval) :=
  match levels with
  | [] => Ok (inh, current_schema)
  | level :: rest =>
      inh <- inherit inh current_schema ;;
      current_schema <- Py.getitem current_schema level ;;
      walk_schema rest inh current_schema
  end.

(** The inner loop of the body pass, which walks the row alongside. *)
Fixpoint walk_row (levels : list string) (inh : inherited)
         (current_cell current_schema : pyval)
  : result (inherited * pyval * pyval) :=
  match levels with
  | [] => Ok (inh, current_cell, current_schema)
  | level :: rest =>
      inh <- inherit inh current_schema ;;
      current_cell <- Py.getitem current_cell level ;;
      current_schema <- Py.getitem current_schema level ;;
      walk_row rest inh current_cell current_schema
  end.

(** [name[:pad].center(pad)] *)
Definition header_text (name pad : atom) : result string :=
  sliced <- match name, pad with
            | AStr s, AInt p => Ok (PyStr.slice_to s p)
            | AStr s, ANone => Ok s
            | _, _ => Raise TypeError
            end ;;
  match pad with
  | AInt p => Ok (PyStr.center sliced p)
  | _ => Raise TypeError
  end.

(** One turn of the "column headers" loop. *)
Definition header_cell (schema : pyval) (column : string) : result cell :=
  '(inh, current_schema) <-
     walk_schema (PyStr.split "/" column) nothing_inherited schema ;;
  let '(inherited_name, inherited_pad, inherited_justify, inherited_color)
    := inh in
  name <- Py.index current_schema 0 ;;
  pad <- Py.index current_schema 1 ;;
  n <- Py.len current_schema ;;
  color_scheme <- (if 4 <=? n then Py.index current_schema 3
                   else Ok (AInt 0)) ;;
  let name := Py.atom_or name inherited_name in
  let pad := Py.atom_or pad inherited_pad in
  text <- header_text name pad ;;
  Ok (text, AInt 0).

(** The attributes that the body pass resolves for a display column:
    pad, justify and colour, after the leaf's own slots and the inherited
    ones are combined. *)
Definition leaf_attrs (inh : inherited) (current_schema : pyval)
  : result (atom * atom * atom) :=
  let '(inherited_name, inherited_pad, inherited_justify, inherited_color)
    := inh in
  pad <- Py.index current_schema 1 ;;
  n <- Py.len current_schema ;;
  justify <- (if 3 <=? n then Py.index current_schema 2 else Ok ANone) ;;
  color_scheme <- (if 4 <=? n then Py.index current_schema 3
                   else Ok (AInt 0)) ;;
  Ok (Py.atom_or pad inherited_pad,
      Py.atom_or justify inherited_justify,
      Py.atom_or (Py.atom_or color_scheme inherited_color) (AInt 0)).

(** The four attributes that the two passes resolve for a display path
    between them: the header pass the name and the pad, the body pass the
    pad, the justify and the colour. *)
Definition resolve (schema : pyval) (path : string)
  : result (atom * atom * atom * atom) :=
  '(inh, current_schema) <-
     walk_schema (PyStr.split "/" path) nothing_inherited schema ;;
  let '(inherited_name, _, _, _) := inh in
  name <- Py.index current_schema 0 ;;
  '(pad, justify, color_scheme) <- leaf_attrs inh current_schema ;;
  Ok (Py.atom_or name inherited_name, pad, justify, color_scheme).

(** ** Override hooks ([substitute_fn]) *)

(** What a hook is given as [z] and what it returns. *)
Definition hook : Type :=
  pyval -> string -> string * atom -> result (pyval * atom).

(** [Buffer.substitute_fn] *)
Definition Buffer_substitute_fn : hook :=
  fun x y z => Ok (VStr (fst z), snd z).

(** [x[a][b]] *)
Definition field (x : pyval) (a b : string) : result pyval :=
  g <- Py.getitem x a ;; Py.getitem g b.

(** [x["arrival_actual"]["ut"] or x["departure_actual"]["ut"]], as a
    condition. *)
Definition has_actual_time (x : pyval) : result bool :=
  a <- field x "arrival_actual" "ut" ;;
  if Py.truthy a then Ok true
  else d <- field x "departure_actual" "ut" ;; Ok (Py.truthy d).

(** [s in "EL"] *)
Definition in_EL (s : pyval) : result bool :=
  match s with
  | VAtom (AStr s) => Ok (PyStr.contains s "EL")
  | _ => Raise TypeError
  end.

(** The body of the "current variation" rule, the same in both views. *)
Definition variation_cell (x : pyval) : result (pyval * atom) :=
  movement <- Py.getitem x "trust_departure" ;;
  status <- Py.getitem movement "variation_status" ;;
  movement <- (if negb (Py.truthy status)
               then Py.getitem x "trust_arrival"
               else Ok movement) ;;
  status <- Py.getitem movement "variation_status" ;;
  tracked <- in_EL status ;;
  if tracked
  then
    variation <- Py.getitem movement "variation" ;;
    Ok (VStr (py_str variation ++ py_str status), AInt 5)
  else Ok (VStr "", AInt 5).               (* off route *)

(** [x["trust_arrival"]["platform"] or x["trust_departure"]["platform"]],
    as a condition. *)
Definition has_live_platform (x : pyval) : result bool :=
  a <- field x "trust_arrival" "platform" ;;
  if Py.truthy a then Ok true
  else d <- field x "trust_departure" "platform" ;; Ok (Py.truthy d).

Definition live_platform_cell (x : pyval) : result (pyval * atom) :=
  d <- field x "trust_departure" "platform" ;;
  if Py.truthy d then Ok (d, AInt 3)
  else a <- field x "trust_arrival" "platform" ;; Ok (a, AInt 3).

(** The condition [y.startswith(group) and
    x["here"]["tiploc"]==x[group]["tiploc"]]. *)
Definition same_place (x : pyval) (y group : string) : result bool :=
  if PyStr.startswith y group then
    here <- field x "here" "tiploc" ;;
    there <- field x group "tiploc" ;;
    Ok (Py.eqb here there)
  else Ok false.

(** [BoardBuffer.substitute_fn] *)
Definition Board_substitute_fn : hook :=
  fun x y z =>
    at_origin <- same_place x y "origin" ;;
    if at_origin then Ok (VStr (fst z), AInt 5) else
    at_destination <- same_place x y "destination" ;;
    if at_destination then Ok (VStr (fst z), AInt 5) else
    been <- (if String.eqb y "service/current_variation"
             then has_actual_time x else Ok false) ;;
    if been then variation_cell x else
    live_id <- (if String.eqb y "service/signalling_id"
                then s <- field x "service" "actual_signalling_id" ;;
                     Ok (Py.truthy s)
                else Ok false) ;;
    if live_id
    then s <- field x "service" "actual_signalling_id" ;; Ok (s, AInt 3)
    else
    live_platform <- (if String.eqb y "platform"
                      then has_live_platform x else Ok false) ;;
    if live_platform then live_platform_cell x else
    as_required <- (if String.eqb y "service/operating_characteristics"
                    then c <- field x "service" "operating_characteristics" ;;
                         Py.contains "Q" c
                    else Ok false) ;;
    if as_required then Ok (VStr (fst z), AInt 7)
    else Ok (VStr (fst z), snd z).

(** [ServiceBuffer.substitute_fn] *)
Definition Service_substitute_fn : hook :=
  fun x y z =>
    been <- (if String.eqb y "service/current_variation"
             then has_actual_time x else Ok false) ;;
    if been then variation_cell x
    else if String.eqb y "service/current_variation"
    then Ok (VStr "", AInt 0)
    else
    live_platform <- (if String.eqb y "platform"
                      then has_live_platform x else Ok false) ;;
    if live_platform then live_platform_cell x
    else Ok (VStr (fst z), snd z).

(** Method dispatch on the class of the buffer. *)
Definition substitute_fn (v : view) : hook :=
  match v with
  | TextView => Buffer_substitute_fn
  | BoardView _ _ _ => Board_substitute_fn
  | ServiceView _ _ => Service_substitute_fn
  end.

(** ** [Buffer] methods *)

(** One turn of the inner "columns themselves" loop, up to the hook and
    the test for an absent value: the resolved pad and justify, and the
    text and colour that go on to be justified. *)
Definition cell_before_justify (substitute : hook) (schema row : pyval)
           (display_col : string) : result (atom * atom * pyval * atom) :=
  '(inh, current_cell, current_schema) <-
     walk_row (PyStr.split "/" display_col) nothing_inherited row schema ;;
  '(pad, justify, color_scheme) <- leaf_attrs inh current_schema ;;
  '(final_row_text, final_row_color) <-
     substitute row display_col (py_str current_cell, color_scheme) ;;
  let final_row_text :=
    if Py.eqb current_cell VNone then VStr "" else final_row_text in
  Ok (pad, justify, final_row_text, final_row_color).

(** The whole turn: the cell of [row] under [display_col]. *)
Definition body_cell (substitute : hook) (schema row : pyval)
           (display_col : string) : result cell :=
  '(pad, justify, final_row_text, final_row_color) <-
     cell_before_justify substitute schema row display_col ;;
  final_row_text <-
    call_justify (Py.atom_or justify (AFun str_ljust)) final_row_text pad ;;
  Ok (final_row_text, final_row_color).

(** One turn of the outer loop: the line of [row]. *)
Definition body_line (substitute : hook) (schema : pyval)
           (fmt : list string) (row : pyval) : result (list cell) :=
  for_each (body_cell substitute schema row) fmt.

(** [def invalidate(self)] *)
Definition invalidate (b : Buffer) : Buffer := set_outstanding b true true.

(** [def renew(self)] *)
Definition renew (b : Buffer) : Buffer * option exn :=
  let b := set_lines (set_col_names b []) [] in
  let '(names, raised) :=
    collect (header_cell (Data.schema (data b))) (format b) in
  let b := set_col_names b names in
  match raised with
  | Some e => (b, Some e)
  | None =>
      let '(ls, raised) :=
        collect (body_line (substitute_fn (view_of b))
                           (Data.schema (data b)) (format b))
                (Data.data (data b)) in
      let b := set_lines b ls in
      match raised with
      | Some e => (b, Some e)
      | None => (invalidate b, None)
      end
  end.

(** [def scroll_up(self,n)] *)
Definition scroll_up (n : Z) (b : Buffer) : Buffer :=
  invalidate (set_line_offset b (Z.max (line_offset b - n) 0)).

(** [def scroll_down(self,n)] *)
Definition scroll_down (n : Z) (b : Buffer) : Buffer :=
  invalidate
    (set_line_offset b
       (Z.min (line_offset b + n) (Z.of_nat (List.length (lines b))))).

(** Scrolling by a signed number of rows: down for a positive one, up for
    a negative one, the way [main] maps its two arrow keys onto the two
    methods. *)
Definition scroll (delta : Z) (b : Buffer) : Buffer :=
  if delta <? 0 then scroll_up (- delta) b else scroll_down delta b.

(** [def position_summary(self,dim_lines)] *)
Definition position_summary (dim_lines : Z) (b : Buffer) : string :=
  let total := Z.of_nat (List.length (lines b)) in
  "[" ++ PyStr.of_int (line_offset b + 1) ++ ".."
  ++ PyStr.of_int (Z.min (line_offset b + dim_lines) total) ++ "/"
  ++ PyStr.of_int total ++ "]".

(** What [render_headers] and [render] leave behind in the buffer (the
    drawing itself goes to curses). *)
Definition render_pass (b : Buffer) : Buffer := set_outstanding b false false.

(** [get_board] of the two live views: the view's schema around the rows
    that the provider answers. The board view first turns its start into
    a POSIX time, [timestamp = int(starting_datetime.timestamp())], and
    asks for the span from there to [timestamp+60*duration]. *)
Definition Board_get_board (db : Provider) (starting_datetime : datetime)
           (duration : Z) (location : string) : result Data.t :=
  timestamp <- posix_timestamp db starting_datetime ;;
  ret <- query_board db location timestamp (timestamp + 60 * duration) ;;
  Ok (Data.make Board_schema ret).

Definition Service_get_board (db : Provider) (start_date : date)
           (service_code : string) : result Data.t :=
  ret <- query_service db start_date service_code ;;
  Ok (Data.make Service_schema ret).

Definition Board_title (location_code : string) (dt_start : datetime)
           (duration : Z) : string :=
  "STATION DEPARTURE BOARD ENQUIRY - " ++ location_code ++ " "
  ++ Time.format_datetime dt_start ++ " - " ++ PyStr.of_int duration
  ++ " MINUTES".

Definition Service_title (service_code : string) (date_start : date)
  : string :=
  "SERVICE ENQUIRY - " ++ service_code ++ " on "
  ++ Time.format_date date_start.

(** [def refresh(self)], by class. *)
Definition refresh (db : Provider) (b : Buffer) : Buffer * option exn :=
  match view_of b with
  | TextView => (invalidate b, None)
  | BoardView dt_start duration location_code =>
      let b := set_title b (Board_title location_code dt_start duration) in
      match Board_get_board db dt_start duration location_code with
      | Raise e => (b, Some e)
      | Ok d => renew (set_data b d)
      end
  | ServiceView date_start service_code =>
      let b := set_title b (Service_title service_code date_start) in
      match Service_get_board db date_start service_code with
      | Raise e => (b, Some e)
      | Ok d => renew (set_data b d)
      end
  end.

(** [def consider_refresh(self)]; the clock is read twice, once for the
    test and once for the new stamp. *)
Definition consider_refresh (now_test now_stamp : datetime) (db : Provider)
           (b : Buffer) : Buffer * option exn :=
  if 30 <? Time.seconds (now_test - last_refreshed b)
  then refresh db (set_last_refreshed b now_stamp)
  else (b, None).

(** ** Constructors *)

(** [Buffer.__init__]; [now] is the clock at that moment. *)
Definition Buffer_init (now : datetime) : Buffer :=
  mkBuffer TextView (Data.make (VDict []) []) [] "" 0 [] [] now false false.

Definition with_view (b : Buffer) (v : view) (fmt : list string) : Buffer :=
  mkBuffer v (data b) fmt (title b) (line_offset b) (lines b) (col_names b)
           (last_refreshed b) (headers_outstanding b) (body_outstanding b).

(** [TextBuffer(title, data, format)] *)
Definition TextBuffer (now : datetime) (title : string) (d : Data.t)
           (fmt : list string) : result Buffer :=
  finish
    (renew (set_title (set_data (with_view (Buffer_init now) TextView fmt) d)
                      title)).

(** [BoardBuffer(dt_start, duration, location_code)] *)
Definition BoardBuffer (now : datetime) (db : Provider) (dt_start : datetime)
           (duration : Z) (location_code : string) : result Buffer :=
  finish
    (refresh db
       (with_view (Buffer_init now)
                  (BoardView dt_start duration location_code) Board_format)).

(** [ServiceBuffer(date_start, service_code)] *)
Definition ServiceBuffer (now : datetime) (db : Provider) (date_start : date)
           (service_code : string) : result Buffer :=
  finish
    (refresh db
       (with_view (Buffer_init now) (ServiceView date_start service_code)
                  Service_format)).

(** ** The loop of [main] *)

Record MainState : Type := mkMain {
  compose : string;
  cursor_pos : Z;
  text_entry_mode : bool;
  current_buffer : Buffer
}.

(** What the world supplies during one turn of the loop. *)
Record Tick : Type := mkTick {
  win_lines : Z;                (* stdscr.getmaxyx() *)
  win_cols : Z;
  now_test : datetime;          (* consider_refresh: now() in the test *)
  now_stamp : datetime;         (* consider_refresh: now() for the stamp *)
  db_refresh : Provider;        (* the provider during consider_refresh *)
  k : Z;                        (* stdscr.getch() *)
  now_submit : datetime;        (* now() of the "trjd" branch *)
  now_init : datetime;          (* now() of the new view's __init__ *)
  db_submit : Provider          (* the provider while a view is built *)
}.

(** How one turn ends: the loop goes on (perhaps after a beep), it is left
    by [break], or an exception leaves [main]. *)
Inductive outcome : Type :=
| Continue (st : MainState) (beeped : bool)
| Break
| Uncaught (e : exn).

(** The welcome buffer. *)
Definition welcome_data : Data.t :=
  Data.make
    (VDict [ ("body", leaf [AStr "Body"; AInt 4]) ])
    (map (fun i => VDict [ ("body", VStr ("line " ++ PyStr.of_int (Z.of_nat i))) ])
         (seq 1 79)).

Definition main_init (now : datetime) : result MainState :=
  b <- TextBuffer now "Welcome to BeryilliumSwallow" welcome_data ["body"] ;;
  Ok (mkMain "" 0 false b).

(** The [KEY_ENTER] branch. *)
Definition submit (t : Tick) (st : MainState) : outcome :=
  let compose := compose st in
  let built :=
    if PyStr.startswith (PyStr.lower compose) "trjd " then
      crs <- list_index (PyStr.split " " compose) 1 ;;
      let crs := PyStr.upper crs in
      let dt_now := now_submit t - Time.minutes 10 in
      BoardBuffer (now_init t) (db_submit t) dt_now 120 crs
    else if PyStr.startswith (PyStr.lower compose) "uid " then
      uid <- list_index (PyStr.split " " compose) 1 ;;
      let uid := PyStr.upper uid in
      text <- list_index (PyStr.split " " compose) 2 ;;
      start_date <- Time.strptime_date text ;;
      ServiceBuffer (now_init t) (db_submit t) start_date uid
    else Ok (current_buffer st) in
  match built with
  | Raise e => Uncaught e
  | Ok b => Continue (mkMain "" 0 false b) false
  end.

(** The [if text_entry_mode:] branch. *)
Definition entry_key (t : Tick) (st : MainState) : outcome :=
  let compose := compose st in
  let cursor_pos := cursor_pos st in
  let edited c p := Continue (mkMain c p true (current_buffer st)) false in
  if k t =? KEY_BACKSPACE then
    if negb (cursor_pos =? 0)
    then edited (PyStr.slice_to compose (cursor_pos - 1)
                 ++ PyStr.slice_from compose cursor_pos)
                (cursor_pos - 1)
    else Continue st false
  else if k t =? KEY_DC then
    if negb (cursor_pos =? 0)
    then edited (PyStr.slice_to compose cursor_pos
                 ++ PyStr.slice_from compose (cursor_pos + 1))
                cursor_pos
    else Continue st false
  else if k t =? KEY_LEFT then
    edited compose (Z.max (cursor_pos - 1) 0)
  else if k t =? KEY_RIGHT then
    edited compose (Z.min (cursor_pos + 1) (PyStr.len compose))
  else if (k t =? KEY_ENTER) || (k t =? 10) then
    submit t st
  else if (32 <=? k t) && (k t <=? 126) then
    if cursor_pos <? win_cols t - 1
    then edited (PyStr.slice_to compose cursor_pos ++ chr (k t)
                 ++ PyStr.slice_from compose cursor_pos)
                (cursor_pos + 1)
    else Continue st true                   (* curses.beep() *)
  else Continue st false.

(** The [else:] branch: navigation. *)
Definition navigation_key (t : Tick) (st : MainState) : outcome :=
  let with_buffer b :=
    Continue (mkMain (compose st) (cursor_pos st) (text_entry_mode st) b)
             false in
  if (k t =? ord "t") || (k t =? ord ":") then
    Continue (mkMain (compose st) (cursor_pos st) true (current_buffer st))
             false
  else if k t =? ord "q" then Break
  else if k t =? KEY_DOWN then with_buffer (scroll_down 1 (current_buffer st))
  else if k t =? KEY_UP then with_buffer (scroll_up 1 (current_buffer st))
  else Continue st false.

(** The body of [while True:]. *)
Definition main_iteration (t : Tick) (st : MainState) : outcome :=
  match consider_refresh (now_test t) (now_stamp t) (db_refresh t)
                         (current_buffer st) with
  | (_, Some e) => Uncaught e
  | (b, None) =>
      let b := render_pass b in
      let b := if k t =? KEY_RESIZE then invalidate b else b in
      let st := mkMain (compose st) (cursor_pos st) (text_entry_mode st) b in
      if text_entry_mode st then entry_key t st else navigation_key t st
  end.

(** The loop, over the turns that the world supplies. *)
Fixpoint main_loop (ticks : list Tick) (st : MainState) : outcome :=
  match ticks with
  | [] => Continue st false
  | t :: rest =>
      match main_iteration t st with
      | Continue st' _ => main_loop rest st'
      | stop => stop
      end
  end.

(** ** Inheritance, said declaratively *)

(** The inherited-defaults tuple that an interior node declares, filled
    up to four slots. *)
Definition declared_defaults (node : pyval) : result (list atom) :=
  match node with
  | VDict d =>
      match Py.lookup d "_" with
      | None => Ok [ANone; ANone; ANone; ANone]
      | Some (VTuple t) => Ok (firstn 4 (t ++ [ANone; ANone; ANone; ANone]))
      | Some _ => Raise TypeError
      end
  | _ => Raise AttributeError
  end.

(** The defaults declared on the way down a path, root first, and the
    node that the path ends at. *)
Fixpoint defaults_along (levels : list string) (node : pyval)
  : result (list (list atom) * pyval) :=
  match levels with
  | [] => Ok ([], node)
  | level :: rest =>
      d <- declared_defaults node ;;
      child <- Py.getitem node level ;;
      '(ds, reached) <- defaults_along rest child ;;
      Ok (d :: ds, reached)
  end.

Definition slot (i : nat) (t : list atom) : atom := nth i t ANone.

(** The first candidate that counts as set, that is, whose truth value is
    true. *)
Definition first_set (candidates : list atom) : option atom :=
  find Py.atom_truthy candidates.

(** [a] is what the candidates resolve to: the first set one, or a value
    that is not set when none is. *)
Definition resolves_to (candidates : list atom) (a : atom) : Prop :=
  match first_set candidates with
  | Some v => a = v
  | None => Py.atom_truthy a = false
  end.

(** The exceptions that the schema walk of the header pass can raise. *)
Definition walk_error (e : exn) : Prop :=
  e = KeyError \/ e = IndexError \/ e = TypeError \/ e = AttributeError.

(** ** Sample data *)

Definition plain_repr : pyval -> string := fun _ => "{}".

Definition time_group (ut : pyval) (short : string) : pyval :=
  VDict [ ("ut", ut); ("iso", VNone); ("date", VNone); ("short", VStr short) ].

Definition place (tiploc name : string) : pyval :=
  VDict [ ("tiploc", VStr tiploc); ("name", VStr name);
          ("stanox", VNone); ("crs", VNone) ].

Definition movement (platform status variation : pyval) : pyval :=
  VDict [ ("platform", platform); ("line", VNone); ("route", VNone);
          ("variation_status", status); ("variation", variation);
          ("direction", VNone); ("source", VNone) ].

(** The half-minute mark U+00BD that [process_time] appends to the short
    form of a time whose seconds are 30. *)
Definition half_mark : string := String (ascii_of_N 189) "".

(** A board row: due to leave at 12:00:00, left at 12:01:30, one minute
    late. [estimate] is the service's own current variation. *)
Definition late_departure (estimate : pyval) : pyval :=
  VDict
    [ ("arrival_scheduled", time_group VNone "");
      ("departure_scheduled", time_group (VInt 1709294400) "1200");
      ("pass_scheduled", time_group VNone "");
      ("arrival_actual", time_group VNone "");
      ("departure_actual",
      time_group (VInt 1709294490) ("1201" ++ half_mark));
      ("platform", VStr "2"); ("activity", VStr "TB");
      ("trust_arrival", movement VNone VNone VNone);
      ("trust_departure", movement (VStr "2") (VStr "L") (VStr "1"));
      ("service",
        VDict [ ("uid", VStr "W12345"); ("category", VStr "XX");
                ("signalling_id", VStr "2A01"); ("power_type", VStr "EMU");
                ("operating_characteristics", VStr "");
                ("atoc_code", VStr "AW"); ("actual_signalling_id", VNone);
                ("current_variation", estimate) ]);
      ("here", place "CRDFCEN" "Cardiff Central");
      ("origin", place "CRDFCEN" "Cardiff Central");
      ("destination", place "PADTON" "London Paddington") ].

(** [int(dt.timestamp())] on a machine in the time zone UTC: the whole
    seconds since 1970-01-01, which is 62135596800 seconds after
    0001-01-01, cut towards zero. CPython also looks a day back from the
    time, for an earlier reading of a local time that occurs twice, and
    raises [ValueError] when that day lies before year 1. *)
Definition utc_timestamp (t : datetime) : result Z :=
  if t <? Time.MICROS_PER_DAY then Raise ValueError
  else Ok (Z.quot (t - 62135596800 * Time.MICROS_PER_SECOND)
                  Time.MICROS_PER_SECOND).

(** Noon of 2024-03-01, the time of the sample runs that build a board. *)
Definition sample_noon : datetime :=
  (1709294400 + 62135596800) * Time.MICROS_PER_SECOND.

(** A machine in UTC whose database answers every query with the same
    rows. *)
Definition fixed_provider (rows : list pyval) : Provider :=
  mkProvider utc_timestamp (fun _ _ _ => Ok rows) (fun _ _ => Ok rows).

(** The welcome buffer of [main], built at time 0. *)
Definition welcome_buffer : Buffer :=
  fst (renew (set_title
                (set_data (with_view (Buffer_init 0) TextView ["body"])
                          welcome_data)
                "Welcome to BeryilliumSwallow")).

(** A board view for "CDF" over the given rows, for the 120 minutes from
    ten minutes before noon of 2024-03-01; its stamp is time 0. *)
Definition sample_board (rows : list pyval) : Buffer :=
  fst (refresh (fixed_provider rows)
               (with_view (Buffer_init 0)
                          (BoardView (sample_noon - Time.minutes 10) 120 "CDF")
                          Board_format)).

(** A turn of the loop at time [now] in a window [cols] wide with key
    [key], the provider answering [rows]. *)
Definition tick_at (now : datetime) (cols key : Z) (rows : list pyval)
  : Tick :=
  mkTick 24 cols now now (fixed_provider rows) key now now
         (fixed_provider rows).

(** Key presses at time 0, one per turn. *)
Definition typed (cols : Z) (keys : list Z) : list Tick :=
  map (fun key => tick_at 0 cols key []) keys.

(** A schema with defaults at two depths and a leaf without a width. *)
Definition nested_widths (outer inner : atom) : pyval :=
  VDict
    [ ("a",
        VDict [ ("_", VTuple [ANone; outer]);
                ("b", VDict [ ("_", VTuple [ANone; inner]);
                              ("leaf", leaf [AStr "L"; ANone]) ]) ]) ].

(** A schema whose group asks for colour 3 and whose leaf names
    [leaf_colour] itself. *)
Definition coloured_leaf (leaf_colour : atom) : pyval :=
  VDict
    [ ("times",
        VDict [ ("_", VTuple [AStr "arrival"; ANone; ANone; AInt 3]);
                ("short", leaf [ANone; AInt 4; ANone; leaf_colour]) ]) ].

(** ** [process_time] and the rows of [get_board] *)

(** [datetime.datetime.fromtimestamp(float(v))], the local time of the
    machine for a POSIX time or the exception that [float] or
    [fromtimestamp] raises, depends on the time zone of the machine. The
    functions that need it take it as their first argument. *)
Definition clock_reading : Type := pyval -> result datetime.

(** The seconds into the day of a [datetime], and [dt.second]. *)
Definition seconds_into_day (t : datetime) : Z :=
  (t mod Time.MICROS_PER_DAY) / Time.MICROS_PER_SECOND.

Definition second_of (t : datetime) : Z := seconds_into_day t mod 60.

(** [dt.strftime("%H%M")] *)
Definition strftime_HM (t : datetime) : string :=
  PyStr.zero_padded 2 (seconds_into_day t / 3600)
  ++ PyStr.zero_padded 2 ((seconds_into_day t / 60) mod 60).

(** [dt.strftime("%Y-%m-%d")] and [dt.strftime("%Y-%m-%dT%H:%M:%S")] *)
Definition strftime_date (t : datetime) : string :=
  Time.format_date (Time.ord2ymd (t / Time.MICROS_PER_DAY + 1)).

Definition strftime_iso (t : datetime) : string :=
  strftime_date t ++ "T"
  ++ PyStr.zero_padded 2 (seconds_into_day t / 3600) ++ ":"
  ++ PyStr.zero_padded 2 ((seconds_into_day t / 60) mod 60) ++ ":"
  ++ PyStr.zero_padded 2 (second_of t).

(** [def process_time(unix_time)] *)
Definition process_time (fromtimestamp : clock_reading) (unix_time : pyval)
  : result pyval :=
  if Py.truthy unix_time then
    dt <- fromtimestamp unix_time ;;
    Ok (VDict
          [ ("ut", unix_time);
            ("iso", VStr (strftime_iso dt));
            ("date", VStr (strftime_date dt));
            ("short",
              VStr (strftime_HM dt
                    ++ (if second_of dt =? 30 then half_mark else ""))) ])
  else
    Ok (VDict [ ("ut", VNone); ("iso", VNone); ("date", VNone);
                ("short", VStr "") ]).

(** [c.isspace()] for a code point below U+0100, and [s.rstrip()]. *)
Definition isspace_char (c : ascii) : bool :=
  let n := PyStr.code c in
  PyStr.between 9 13 n || PyStr.between 28 32 n || (n =? 133) || (n =? 160).

Fixpoint rstrip (s : string) : string :=
  match s with
  | "" => ""
  | String c s' =>
      match rstrip s' with
      | "" => if isspace_char c then "" else String c ""
      | kept => String c kept
      end
  end.

(** [v.rstrip()] of any value: only a [str] has the method. *)
Definition call_rstrip (v : pyval) : result pyval :=
  match v with
  | VAtom (AStr s) => Ok (VStr (rstrip s))
  | _ => Raise AttributeError
  end.

(** [d[k] = v] on an ordered dict: a key already there keeps its place. *)
Fixpoint dict_set (d : list (string * pyval)) (key : string) (v : pyval)
  : list (string * pyval) :=
  match d with
  | [] => [(key, v)]
  | (k', v') :: d' =>
      if String.eqb k' key then (k', v) :: d'
      else (k', v') :: dict_set d' key v
  end.

(** [for tag in tags: out[tag] = row.pop(0)]: the fields read, and what is
    left of the row. *)
Fixpoint pop_fields (tags : list string) (row : list pyval)
  : result (list (string * pyval) * list pyval) :=
  match tags with
  | [] => Ok ([], row)
  | tag :: tags' =>
      match row with
      | [] => Raise IndexError
      | v :: row' =>
          '(fields, rest) <- pop_fields tags' row' ;;
          Ok ((tag, v) :: fields, rest)
      end
  end.

(** [for tag in tags: out[tag] = process_time(row.pop(0))] *)
Fixpoint pop_times (fromtimestamp : clock_reading) (tags : list string)
         (row : list pyval)
  : result (list (string * pyval) * list pyval) :=
  match tags with
  | [] => Ok ([], row)
  | tag :: tags' =>
      match row with
      | [] => Raise IndexError
      | v :: row' =>
          t <- process_time fromtimestamp v ;;
          '(fields, rest) <- pop_times fromtimestamp tags' row' ;;
          Ok ((tag, t) :: fields, rest)
      end
  end.

Definition time_tags : list string :=
  [ "arrival_scheduled"; "departure_scheduled"; "pass_scheduled";
    "arrival_actual"; "departure_actual" ].

Definition plain_tags : list string :=
  [ "arrival_public"; "departure_public"; "platform"; "line"; "path";
    "activity"; "engineering_allowance"; "pathing_allowance";
    "performance_allowance" ].

Definition movement_tags : list string :=
  [ "platform"; "line"; "route"; "variation_status"; "variation";
    "direction"; "source" ].

Definition service_tags : list string :=
  [ "uid"; "category"; "signalling_id"; "headcode"; "power_type";
    "timing_load"; "speed"; "operating_characteristics"; "seating_class";
    "sleepers"; "reservations"; "catering"; "branding"; "uic_code";
    "atoc_code"; "date"; "actual_signalling_id"; "trust_id";
    "current_variation" ].

Definition location_tags : list string := [ "tiploc"; "name"; "stanox"; "crs" ].

(** The body of [for row in c:] in both [get_board]: one row of the cursor
    into the nested row that the renderer walks. *)
Definition shape_row (fromtimestamp : clock_reading) (row : list pyval)
  : result pyval :=
  '(times, row) <- pop_times fromtimestamp time_tags row ;;
  '(plain, row) <- pop_fields plain_tags row ;;
  '(trust_arrival, row) <- pop_fields movement_tags row ;;
  '(trust_departure, row) <- pop_fields movement_tags row ;;
  '(service, row) <- pop_fields service_tags row ;;
  characteristics <- Py.getitem (VDict service) "operating_characteristics" ;;
  characteristics <- call_rstrip characteristics ;;
  let service := dict_set service "operating_characteristics" characteristics in
  platform <- Py.getitem (VDict plain) "platform" ;;
  plain <- (if Py.truthy platform
            then stripped <- call_rstrip platform ;;
                 Ok (dict_set plain "platform" stripped)
            else Ok plain) ;;
  '(here, row) <- pop_fields location_tags row ;;
  '(origin, row) <- pop_fields location_tags row ;;
  '(destination, row) <- pop_fields location_tags row ;;
  '(last_location, row) <- pop_fields location_tags row ;;
  '(cancellation_location, row) <- pop_fields location_tags row ;;
  Ok (VDict
        (times ++ plain
         ++ [ ("trust_arrival", VDict trust_arrival);
              ("trust_departure", VDict trust_departure);
              ("service", VDict service);
              ("here", VDict here);
              ("origin", VDict origin);
              ("destination", VDict destination);
              ("last_location", VDict last_location);
              ("cancellation_location", VDict cancellation_location) ])%list).

(** The whole loop over the cursor: the first row that raises ends it. *)
Definition shape_rows (fromtimestamp : clock_reading)
           (cursor : list (list pyval)) : result (list pyval) :=
  for_each (shape_row fromtimestamp) cursor.

(** ** Drawing: [render] and [render_headers] *)

(** The windows of [main] and the calls that the two methods make on them,
    in order. An attribute is a colour pair, [curses.color_pair(n)], or
    [curses.A_BOLD]. The lists below are the calls of a method on windows
    that take every call: curses raises [curses.error] from a call that
    writes outside its window, which ends the method there, after a prefix
    of the calls listed. *)
Inductive window : Type :=
| window_header
| window_subheader
| window_body
| window_footer.

Inductive attribute : Type :=
| color_pair (n : Z)
| A_BOLD.

Inductive line_char : Type :=
| ACS_BULLET
| ACS_VLINE.

Inductive draw : Type :=
| addstr (w : window) (y x : Z) (text : string) (attr : attribute)
| hline (w : window) (y x : Z) (ch : line_char) (n : Z)
| refresh_window (w : window).

(** [l[i:j]] of a list, with the bounds of a slice. *)
Definition slice_list {A : Type} (l : list A) (i j : Z) : list A :=
  let n := Z.of_nat (List.length l) in
  let lo := PyStr.clamp_index n i in
  let hi := PyStr.clamp_index n j in
  firstn (hi - lo) (skipn lo l).

(** The inner loop of [render] over the cells of row [i], from column
    [next_col_x] on: the calls made, and the [TypeError] of
    [curses.color_pair] on a colour that is no [int]. *)
Fixpoint render_cells (w : window) (i next_col_x : Z) (row : list cell)
  : list draw * option exn :=
  match row with
  | [] => ([], None)
  | (column, attr) :: rest =>
      let bullet :=
        if negb (next_col_x =? 0) && negb (i mod 2 =? 0)
        then [hline w i (next_col_x - 1) ACS_BULLET 1] else [] in
      match attr with
      | AInt n =>
          let '(calls, raised) :=
            render_cells w i (next_col_x + PyStr.len column + 1) rest in
          ((bullet ++ addstr w i next_col_x column (color_pair n) :: calls)%list,
           raised)
      | _ => (bullet, Some TypeError)
      end
  end.

(** The outer loop of [render] over the rows shown, numbered from [i]. *)
Fixpoint render_rows (w : window) (i : Z) (rows : list (list cell))
  : list draw * option exn :=
  match rows with
  | [] => ([], None)
  | row :: rest =>
      match render_cells w i 0 row with
      | (calls, Some e) => (calls, Some e)
      | (calls, None) =>
          let '(more, raised) := render_rows w (i + 1) rest in
          ((calls ++ more)%list, raised)
      end
  end.

(** [def render(self, window, dim_lines, dim_cols)] *)
Definition render (w : window) (dim_lines dim_cols : Z) (b : Buffer)
  : list draw * Buffer * option exn :=
  match render_rows w 0
          (slice_list (lines b) (line_offset b) (line_offset b + dim_lines))
  with
  | (calls, Some e) => (calls, b, Some e)
  | (calls, None) =>
      ((calls ++ (if body_outstanding b then [refresh_window w] else []))%list,
       set_outstanding b (headers_outstanding b) false, None)
  end.

(** The loop of [render_headers] over the header cells. *)
Fixpoint render_header_cells (w : window) (next_col_x : Z) (cells : list cell)
  : list draw * option exn :=
  match cells with
  | [] => ([], None)
  | (column, attr) :: rest =>
      let rule :=
        if negb (next_col_x =? 0)
        then [hline w 0 (next_col_x - 1) ACS_VLINE 1] else [] in
      match attr with
      | AInt n =>
          let '(calls, raised) :=
            render_header_cells w (next_col_x + PyStr.len column + 1) rest in
          ((rule ++ addstr w 0 next_col_x column (color_pair n) :: calls)%list,
           raised)
      | _ => (rule, Some TypeError)
      end
  end.

(** [def render_headers(self, dim_lines, dim_cols, title_window,
    cols_window)] *)
Definition render_headers (dim_lines dim_cols : Z)
           (title_window cols_window : window) (b : Buffer)
  : list draw * Buffer * option exn :=
  let current_view_str := position_summary dim_lines b in
  let titles :=
    [ addstr title_window 0 0 (title b) A_BOLD;
      addstr title_window 0 (dim_cols - PyStr.len current_view_str - 1)
             current_view_str A_BOLD ] in
  match render_header_cells cols_window 0 (col_names b) with
  | (calls, Some e) => ((titles ++ calls)%list, b, Some e)
  | (calls, None) =>
      ((titles ++ calls
        ++ (if headers_outstanding b
            then [refresh_window title_window; refresh_window cols_window]
            else []))%list,
       set_outstanding b false (body_outstanding b), None)
  end.

(** The columns at which successive cells start: each one a gap after the
    end of the one before. *)
Fixpoint column_starts (x : Z) (widths : list Z) : list Z :=
  match widths with
  | [] => []
  | w :: rest => x :: column_starts (x + w + 1) rest
  end.

(** The columns of the [addstr] calls among [calls]. *)
Definition addstr_columns (calls : list draw) : list Z :=
  flat_map (fun c => match c with
                     | addstr _ _ x _ _ => [x]
                     | _ => []
                     end) calls.

(** The texts of the [addstr] calls among [calls], with their row. *)
Definition addstr_texts (calls : list draw) : list (Z * string) :=
  flat_map (fun c => match c with
                     | addstr _ y _ text _ => [(y, text)]
                     | _ => []
                     end) calls.

(** Whether every character of a string is printable ASCII, ' '..'~'. *)
Definition printable (s : string) : bool :=
  forallb (fun c => PyStr.between 32 126 (PyStr.code c))
          (list_ascii_of_string s).

(** The state of the editor between two turns. *)
Definition editor_ok (st : MainState) : Prop :=
  printable (compose st) = true
  /\ 0 <= cursor_pos st <= PyStr.len (compose st)
  /\ (text_entry_mode st = false -> compose st = "" /\ cursor_pos st = 0).


(** A cell that [curses.color_pair] accepts. *)
Definition has_colour_pair (c : cell) : Prop := exists n, snd c = AInt n.

(** Sample data for the rows of [get_board]: a clock in the time zone UTC,
    which puts POSIX time 0 at 62135596800 seconds after 0001-01-01, and a
    cursor row of 67 columns for the late departure above, its booked
    platform and its operating characteristics padded by the database. *)
Definition utc_clock : clock_reading :=
  fun v =>
    match v with
    | VAtom (AInt z) => Ok ((z + 62135596800) * Time.MICROS_PER_SECOND)
    | _ => Raise TypeError
    end.

Definition cursor_row : list pyval :=
  [ VNone; VInt 1709294400; VNone; VNone; VInt 1709294490;
    VNone; VNone; VStr "2 "; VNone; VNone; VStr "TB"; VNone; VNone; VNone;
    VNone; VNone; VNone; VNone; VNone; VNone; VNone;
    VStr "2"; VNone; VNone; VStr "L"; VStr "1"; VNone; VNone;
    VStr "W12345"; VStr "XX"; VStr "2A01"; VNone; VStr "EMU"; VNone; VNone;
    VStr "Q   "; VNone; VNone; VNone; VNone; VNone; VNone; VStr "AW"; VNone;
    VNone; VNone; VInt 1;
    VStr "CRDFCEN"; VStr "Cardiff Central"; VNone; VStr "CDF";
    VStr "CRDFCEN"; VStr "Cardiff Central"; VNone; VStr "CDF";
    VStr "PADTON"; VStr "London Paddington"; VNone; VStr "PAD";
    VNone; VNone; VNone; VNone;
    VNone; VNone; VNone; VNone ].

(** A column of the cursor that is NULL or text. *)
Definition text_or_none (v : pyval) : Prop := v = VNone \/ exists s, v = VStr s.

(** A justify slot and a width that go together for any text: a method of
    [str], the fallback for an empty slot, or [platform_justify] at
    width 3. *)
Definition justifies (justify pad : atom) : Prop :=
  exists w, pad = AInt w
            /\ (justify = ANone \/ justify = AFun str_ljust
                \/ justify = AFun str_rjust \/ justify = AFun str_center
                \/ (justify = AFun platform_justify_fn /\ w = 3)).

(** ** Properties *)

(** *** Strings *)

Lemma length_append (s t : string) :
  String.length (s ++ t) = (String.length s + String.length t)%nat.
Proof. induction s as [|c s IH]; simpl; [reflexivity | now rewrite IH]. Qed.

Lemma length_spaces (n : nat) : String.length (PyStr.spaces n) = n.
Proof. induction n as [|n IH]; simpl; [reflexivity | now rewrite IH]. Qed.

Lemma len_append (s t : string) :
  PyStr.len (s ++ t) = PyStr.len s + PyStr.len t.
Proof. unfold PyStr.len. rewrite length_append. lia. Qed.

Lemma len_cons (c : ascii) (s : string) :
  PyStr.len (String c s) = 1 + PyStr.len s.
Proof. unfold PyStr.len. simpl String.length. lia. Qed.

Lemma len_spaces (n : nat) : PyStr.len (PyStr.spaces n) = Z.of_nat n.
Proof. unfold PyStr.len. now rewrite length_spaces. Qed.

Lemma len_nonneg (s : string) : 0 <= PyStr.len s.
Proof. unfold PyStr.len. lia. Qed.

Lemma len_ljust (s : string) (w : Z) :
  PyStr.len (PyStr.ljust s w) = Z.max w (PyStr.len s).
Proof.
  unfold PyStr.ljust. rewrite len_append, len_spaces.
  pose proof (len_nonneg s). lia.
Qed.

Lemma len_rjust (s : string) (w : Z) :
  PyStr.len (PyStr.rjust s w) = Z.max w (PyStr.len s).
Proof.
  unfold PyStr.rjust. rewrite len_append, len_spaces.
  pose proof (len_nonneg s). lia.
Qed.

Lemma land_one_bounds (a : Z) : 0 <= Z.land a 1 <= 1.
Proof.
  change (Z.land a 1) with (Z.land a (Z.ones 1)).
  rewrite Z.land_ones by lia.
  change (2 ^ 1) with 2. pose proof (Z.mod_pos_bound a 2). lia.
Qed.

Lemma len_center (s : string) (w : Z) :
  PyStr.len (PyStr.center s w) = Z.max w (PyStr.len s).
Proof.
  unfold PyStr.center. pose proof (len_nonneg s) as Hs.
  destruct (Z.leb_spec (w - PyStr.len s) 0) as [Hle | Hgt]; [lia|].
  rewrite !len_append, !len_spaces.
  pose proof (land_one_bounds (Z.land (w - PyStr.len s) w)) as Hb.
  assert (Hhalf : 0 <= (w - PyStr.len s) / 2) by (apply Z.div_pos; lia).
  assert (Hodd : (w - PyStr.len s) / 2
                 + Z.land (Z.land (w - PyStr.len s) w) 1
                 <= w - PyStr.len s).
  { destruct (Z.eq_dec (w - PyStr.len s) 1) as [E | NE].
    - rewrite E. change (1 / 2) with 0.
      pose proof (land_one_bounds (Z.land 1 w)). lia.
    - assert (2 * ((w - PyStr.len s) / 2) <= w - PyStr.len s)
        by (apply Z.mul_div_le; lia).
      assert (1 <= (w - PyStr.len s) / 2)
        by (apply Z.div_le_lower_bound; lia).
      lia. }
  lia.
Qed.

Lemma length_take (n : nat) (s : string) :
  String.length (PyStr.take n s) = Nat.min n (String.length s).
Proof.
  revert s; induction n as [|n IH]; intros [|c s]; simpl; try reflexivity.
  now rewrite IH.
Qed.

Lemma length_drop (n : nat) (s : string) :
  String.length (PyStr.drop n s) = (String.length s - n)%nat.
Proof.
  revert s; induction n as [|n IH]; intros [|c s]; simpl; try reflexivity.
  now rewrite IH.
Qed.

Lemma take_drop (n : nat) (s : string) : PyStr.take n s ++ PyStr.drop n s = s.
Proof.
  revert s; induction n as [|n IH]; intros [|c s]; simpl; try reflexivity.
  now rewrite IH.
Qed.

(** Inside the string, the slices of Python are plain [take] and [drop]. *)
Lemma slice_to_take (s : string) (i : Z) :
  0 <= i <= PyStr.len s -> PyStr.slice_to s i = PyStr.take (Z.to_nat i) s.
Proof.
  intros H. unfold PyStr.slice_to, PyStr.clamp_index.
  destruct (Z.ltb_spec i 0); [lia|]. now rewrite Z.min_l by lia.
Qed.

Lemma slice_from_drop (s : string) (i : Z) :
  0 <= i -> PyStr.slice_from s i = PyStr.drop (Z.to_nat i) s.
Proof.
  intros H. unfold PyStr.slice_from, PyStr.clamp_index.
  destruct (Z.ltb_spec i 0); [lia|].
  destruct (Z.le_ge_cases i (PyStr.len s)) as [Hle | Hge].
  - now rewrite Z.min_l by lia.
  - rewrite Z.min_r by lia.
    assert (Hall : forall n t, (String.length t <= n)%nat ->
                               PyStr.drop n t = "").
    { induction n as [|n IH]; intros [|c t] Hn; simpl in *;
        try reflexivity; try lia. apply IH. lia. }
    rewrite !Hall; [reflexivity | |]; unfold PyStr.len in *; lia.
Qed.

(** *** The platform justifier *)

Lemma not_three (length : atom) :
  length <> AInt 3 -> Py.atom_eqb length (AInt 3) = false.
Proof.
  intros H. destruct length as [| s | z | f]; simpl; try reflexivity.
  destruct (Z.eqb_spec z 3) as [-> | Hz]; [contradiction | reflexivity].
Qed.

(** C4. For width 3, [platform_justify] turns the empty string into three
    spaces, centres a single character, right-justifies a longer value
    that starts with a numeric character and ends with an alphabetic one,
    and left-justifies every other value; for any other width it raises
    [ValueError], whatever the value. *)
Theorem platform_justify_spec :
  platform_justify (VStr "") (AInt 3) = Ok "   "
  /\ (forall c : ascii,
         platform_justify (VStr (String c "")) (AInt 3)
         = Ok (" " ++ String c "" ++ " "))
  /\ (forall (s : string) (f l : ascii),
         2 <= PyStr.len s ->
         PyStr.first_char s = Some f ->
         PyStr.last_char s = Some l ->
         platform_justify (VStr s) (AInt 3)
         = Ok (if PyStr.isnumeric_char f && PyStr.isalpha_char l
               then PyStr.rjust s 3 else PyStr.ljust s 3))
  /\ platform_justify (VStr "5") (AInt 3) = Ok " 5 "
  /\ platform_justify (VStr "3R") (AInt 3) = Ok " 3R"
  /\ platform_justify (VStr "LH") (AInt 3) = Ok "LH "
  /\ (forall (str : pyval) (length : atom),
         length <> AInt 3 -> platform_justify str length = Raise ValueError).
Proof.
  repeat split; try reflexivity.
  - intros s f l Hlen Hf Hl.
    assert (Ht : Py.truthy (VStr s) = true)
      by (destruct s; [discriminate | reflexivity]).
    unfold platform_justify. rewrite Ht. unfold VStr.
    cbn [Py.atom_eqb Z.eqb Pos.eqb negb Py.len bind].
    destruct (Z.eqb_spec (PyStr.len s) 1) as [E | _]; [lia|].
    rewrite Hf, Hl, andb_comm.
    now destruct (PyStr.isnumeric_char f && PyStr.isalpha_char l).
  - intros str length H. unfold platform_justify.
    now rewrite (not_three length H).
Qed.

(** *** Frame of the buffer operations *)

Lemma renew_frame (b : Buffer) :
  let b' := fst (renew b) in
  view_of b' = view_of b /\ data b' = data b /\ format b' = format b
  /\ title b' = title b /\ line_offset b' = line_offset b
  /\ last_refreshed b' = last_refreshed b.
Proof.
  unfold renew. simpl.
  destruct (collect (header_cell (Data.schema (data b))) (format b))
    as [names [e|]]; simpl; [now repeat split|].
  destruct (collect _ (Data.data (data b))) as [ls [e|]]; simpl;
    now repeat split.
Qed.

Lemma refresh_frame (db : Provider) (b : Buffer) :
  let b' := fst (refresh db b) in
  view_of b' = view_of b /\ format b' = format b
  /\ line_offset b' = line_offset b
  /\ last_refreshed b' = last_refreshed b.
Proof.
  unfold refresh.
  destruct (view_of b) as [| dt dur loc | d code] eqn:Ev; simpl.
  - now rewrite Ev.
  - destruct (Board_get_board db dt dur loc) as [d|e]; simpl;
      [|now rewrite Ev].
    destruct (renew_frame (set_data (set_title b (Board_title loc dt dur)) d))
      as (Hv & _ & Hf & _ & Ho & Hl).
    simpl in *. rewrite Hv, Hf, Ho, Hl, Ev. now repeat split.
  - destruct (Service_get_board db d code) as [d'|e]; simpl;
      [|now rewrite Ev].
    destruct (renew_frame (set_data (set_title b (Service_title code d)) d'))
      as (Hv & _ & Hf & _ & Ho & Hl).
    simpl in *. rewrite Hv, Hf, Ho, Hl, Ev. now repeat split.
Qed.

(** *** Scrolling *)

Lemma scroll_lines (delta : Z) (b : Buffer) : lines (scroll delta b) = lines b.
Proof. unfold scroll. now destruct (delta <? 0). Qed.

Lemma scroll_offset (delta : Z) (b : Buffer) :
  line_offset (scroll delta b)
  = if delta <? 0 then Z.max (line_offset b + delta) 0
    else Z.min (line_offset b + delta) (Z.of_nat (List.length (lines b))).
Proof.
  unfold scroll. destruct (delta <? 0); simpl; [f_equal; lia | reflexivity].
Qed.

Lemma scroll_in_range (delta : Z) (b : Buffer) :
  0 <= line_offset b <= Z.of_nat (List.length (lines b)) ->
  0 <= line_offset (scroll delta b)
    <= Z.of_nat (List.length (lines (scroll delta b))).
Proof.
  intros H. rewrite scroll_lines, scroll_offset.
  destruct (Z.ltb_spec delta 0); lia.
Qed.

Lemma scrolls_in_range (deltas : list Z) (b : Buffer) :
  0 <= line_offset b <= Z.of_nat (List.length (lines b)) ->
  let b' := fold_left (fun b d => scroll d b) deltas b in
  lines b' = lines b
  /\ 0 <= line_offset b' <= Z.of_nat (List.length (lines b)).
Proof.
  revert b. induction deltas as [|d deltas IH]; intros b H; simpl.
  - split; [reflexivity | exact H].
  - destruct (IH (scroll d b) (scroll_in_range d b H)) as [Hl Ho].
    simpl in Hl, Ho. rewrite scroll_lines in Hl, Ho. now split.
Qed.

(** C8. In a buffer of N rows whose offset lies in [0, N], any sequence of
    scroll calls keeps the rows and keeps the offset in [0, N], and so does
    either method called with any amount that is not negative; a scroll
    down by N or more stops the offset at N, a scroll up by N or more stops
    it at 0, and the summary then starts at row 1 and ends at
    [min(0 + page_size, N)]. *)
Theorem scroll_clamped (b : Buffer) (deltas : list Z) (page_size : Z) :
  0 <= line_offset b <= Z.of_nat (List.length (lines b)) ->
  let total := Z.of_nat (List.length (lines b)) in
  let b' := fold_left (fun b d => scroll d b) deltas b in
  lines b' = lines b
  /\ 0 <= line_offset b' <= total
  /\ (forall n, 0 <= n ->
         0 <= line_offset (scroll_up n b') <= total
         /\ 0 <= line_offset (scroll_down n b') <= total)
  /\ (forall delta, total <= delta -> line_offset (scroll delta b') = total)
  /\ (forall delta, delta <= - total ->
         line_offset (scroll delta b') = 0
         /\ position_summary page_size (scroll delta b')
            = "[1.." ++ PyStr.of_int (Z.min (0 + page_size) total)
              ++ "/" ++ PyStr.of_int total ++ "]").
Proof.
  intros H total b'.
  destruct (scrolls_in_range deltas b H) as [Hl Ho].
  fold b' in Hl, Ho. fold total in Ho.
  split; [exact Hl|]. split; [exact Ho|]. split; [|split].
  - intros n Hn. unfold scroll_up, scroll_down. simpl. rewrite Hl.
    fold total. lia.
  - intros delta Hd. rewrite scroll_offset, Hl. fold total.
    destruct (Z.ltb_spec delta 0); lia.
  - intros delta Hd.
    assert (Hz : line_offset (scroll delta b') = 0).
    { rewrite scroll_offset, Hl. fold total.
      destruct (Z.ltb_spec delta 0); lia. }
    split; [exact Hz|].
    unfold position_summary. rewrite Hz, scroll_lines, Hl. reflexivity.
Qed.

(** C10. [renew] changes nothing but the cached header cells, the cached
    lines and the two dirty flags, so neither it nor a live view's
    [refresh] nor a timed refresh moves the scroll offset; when a refresh
    leaves fewer rows than the offset, the offset lies beyond the rows
    until a scroll down brings it back to the row count. *)
Theorem rebuild_keeps_scroll_offset
        (db : Provider) (b : Buffer) (t_test t_stamp n : Z) :
  (let b' := fst (renew b) in
   line_offset b' = line_offset b /\ view_of b' = view_of b
   /\ data b' = data b /\ format b' = format b /\ title b' = title b
   /\ last_refreshed b' = last_refreshed b)
  /\ line_offset (fst (refresh db b)) = line_offset b
  /\ line_offset (fst (consider_refresh t_test t_stamp db b)) = line_offset b
  /\ (let b' := fst (refresh db b) in
      Z.of_nat (List.length (lines b')) < line_offset b ->
      0 <= n ->
      Z.of_nat (List.length (lines b')) < line_offset b'
      /\ line_offset (scroll_down n b') = Z.of_nat (List.length (lines b'))).
Proof.
  destruct (renew_frame b) as (Hv & Hd & Hf & Ht & Ho & Hl).
  destruct (refresh_frame db b) as (_ & _ & Hro & _).
  split; [now repeat split|]. split; [exact Hro|]. split.
  - unfold consider_refresh.
    destruct (30 <? Time.seconds (t_test - last_refreshed b)); [|reflexivity].
    now destruct (refresh_frame db (set_last_refreshed b t_stamp))
      as (_ & _ & H & _).
  - simpl. intros Hlt Hn. simpl in Hro. rewrite Hro. split; [exact Hlt|].
    lia.
Qed.

(** *** Timed refresh *)

Lemma seconds_within_a_day (d : timedelta) :
  0 <= d < Time.MICROS_PER_DAY ->
  Time.seconds d = d / Time.MICROS_PER_SECOND.
Proof. intros H. unfold Time.seconds. now rewrite Z.mod_small. Qed.

(** C2, as the code has it. While less than a day has gone by since the
    recorded stamp, [consider_refresh] refreshes exactly when at least 31
    whole seconds have gone by: it then stamps the buffer with the clock
    as read at that moment and calls [refresh]; before that, and so at
    30 seconds and at 30.999999 seconds, it leaves the buffer alone. *)
Theorem consider_refresh_cadence
        (t_test t_stamp : datetime) (db : Provider) (b : Buffer) :
  0 <= t_test - last_refreshed b < Time.MICROS_PER_DAY ->
  (31 * Time.MICROS_PER_SECOND <= t_test - last_refreshed b ->
   consider_refresh t_test t_stamp db b
   = refresh db (set_last_refreshed b t_stamp)
   /\ last_refreshed (fst (consider_refresh t_test t_stamp db b)) = t_stamp)
  /\ (t_test - last_refreshed b < 31 * Time.MICROS_PER_SECOND ->
      consider_refresh t_test t_stamp db b = (b, None)).
Proof.
  intros Hday. unfold consider_refresh.
  rewrite (seconds_within_a_day _ Hday).
  unfold Time.MICROS_PER_SECOND, Time.MICROS_PER_DAY in *.
  split; intros H.
  - assert (Hs : 31 <= (t_test - last_refreshed b) / 1000000)
      by (apply Z.div_le_lower_bound; lia).
    destruct (Z.ltb_spec 30 ((t_test - last_refreshed b) / 1000000));
      [|lia].
    split; [reflexivity|].
    now destruct (refresh_frame db (set_last_refreshed b t_stamp))
      as (_ & _ & _ & Hl).
  - assert (Hs : (t_test - last_refreshed b) / 1000000 < 31)
      by (apply Z.div_lt_upper_bound; lia).
    destruct (Z.ltb_spec 30 ((t_test - last_refreshed b) / 1000000));
      [lia | reflexivity].
Qed.

(** *** Inheritance *)

Lemma inherit_declared (inh : inherited) (node : pyval) :
  inherit inh node
  = (d <- declared_defaults node ;;
     let '(name, pad, justify, color) := inh in
     Ok (Py.atom_or name (slot 0 d), Py.atom_or pad (slot 1 d),
         Py.atom_or justify (slot 2 d), Py.atom_or color (slot 3 d))).
Proof.
  destruct inh as [[[name pad] justify] color].
  destruct node as [a | t | d]; try reflexivity. simpl.
  destruct (Py.lookup d "_") as [[a | t | d']|]; reflexivity.
Qed.

Lemma walk_schema_defaults (levels : list string) :
  forall (name pad justify color : atom) (node : pyval),
    walk_schema levels (name, pad, justify, color) node
    = ('(ds, reached) <- defaults_along levels node ;;
       Ok ((fold_left Py.atom_or (map (slot 0) ds) name,
            fold_left Py.atom_or (map (slot 1) ds) pad,
            fold_left Py.atom_or (map (slot 2) ds) justify,
            fold_left Py.atom_or (map (slot 3) ds) color), reached)).
Proof.
  induction levels as [|level rest IH]; intros name pad justify color node.
  - reflexivity.
  - simpl. rewrite inherit_declared.
    destruct (declared_defaults node) as [d|e]; [|reflexivity]. simpl.
    destruct (Py.getitem node level) as [child|e]; [|reflexivity]. simpl.
    rewrite IH.
    destruct (defaults_along rest child) as [[ds reached]|e]; reflexivity.
Qed.

Lemma fold_or_set (l : list atom) (a : atom) :
  Py.atom_truthy a = true -> fold_left Py.atom_or l a = a.
Proof.
  induction l as [|x l IH]; intros H; simpl; [reflexivity|].
  unfold Py.atom_or at 2. rewrite H. now apply IH.
Qed.

Lemma fold_or_unset (l : list atom) :
  forall a, Py.atom_truthy a = false ->
            resolves_to l (fold_left Py.atom_or l a).
Proof.
  unfold resolves_to, first_set.
  induction l as [|x l IH]; intros a H; simpl; [exact H|].
  unfold Py.atom_or at 2. unfold Py.atom_or at 3. rewrite H.
  destruct (Py.atom_truthy x) eqn:Hx.
  - now apply fold_or_set.
  - now apply IH.
Qed.

Lemma leaf_first (own : atom) (l : list atom) :
  resolves_to (own :: l)
              (Py.atom_or own (fold_left Py.atom_or l ANone)).
Proof.
  pose proof (fold_or_unset l ANone eq_refl) as H.
  unfold resolves_to, first_set, Py.atom_or in *. simpl.
  now destruct (Py.atom_truthy own).
Qed.

Lemma index_tuple (t : list atom) (i : nat) :
  (i < List.length t)%nat -> Py.index (VTuple t) i = Ok (slot i t).
Proof.
  intros H. unfold Py.index, slot.
  destruct (nth_error t i) as [a|] eqn:E.
  - now rewrite (nth_error_nth t i ANone E).
  - apply nth_error_None in E. lia.
Qed.

Lemma slot_beyond (t : list atom) (i : nat) :
  (List.length t <= i)%nat -> slot i t = ANone.
Proof. intros H. unfold slot. now apply nth_overflow. Qed.

(** C3, as the code has it. A slot counts as set when its value is true
    in Python's sense, so [None], [0] and [""] count as unset. With that
    reading, resolving a path to a leaf tuple gives, slot by slot, the
    first set value among the leaf's own slot and then the defaults
    declared on the way down, from the root; when none is set the name,
    pad and justify stay unset and the colour is 0. *)
Theorem inheritance_precedence
        (schema : pyval) (path : string)
        (ds : list (list atom)) (own : list atom) :
  defaults_along (PyStr.split "/" path) schema = Ok (ds, VTuple own) ->
  (2 <= List.length own)%nat ->
  exists name pad justify color : atom,
    resolve schema path = Ok (name, pad, justify, color)
    /\ resolves_to (slot 0 own :: map (slot 0) ds) name
    /\ resolves_to (slot 1 own :: map (slot 1) ds) pad
    /\ resolves_to (slot 2 own :: map (slot 2) ds) justify
    /\ color = match first_set (slot 3 own :: map (slot 3) ds) with
               | Some c => c
               | None => AInt 0
               end.
Proof.
  intros Hd Hlen. unfold resolve, nothing_inherited.
  rewrite walk_schema_defaults, Hd. cbn [bind].
  rewrite (index_tuple own 0) by lia. cbn [bind].
  unfold leaf_attrs. rewrite (index_tuple own 1) by lia. cbn [bind Py.len].
  set (n := Z.of_nat (List.length own)).
  assert (Hj : (if 3 <=? n then Py.index (VTuple own) 2 else Ok ANone)
               = Ok (slot 2 own)).
  { destruct (Z.leb_spec 3 n).
    - apply index_tuple. lia.
    - now rewrite slot_beyond by lia. }
  rewrite Hj. cbn [bind].
  destruct (Z.leb_spec 4 n) as [H4 | H4].
  - rewrite (index_tuple own 3) by lia. cbn [bind].
    do 4 eexists. split; [reflexivity|].
    repeat split; try apply leaf_first.
    pose proof (leaf_first (slot 3 own) (map (slot 3) ds)) as Hc.
    unfold resolves_to in Hc.
    destruct (first_set (slot 3 own :: map (slot 3) ds)) as [c|] eqn:E.
    + rewrite Hc. unfold first_set in E. apply find_some in E.
      unfold Py.atom_or at 1. now rewrite (proj2 E).
    + unfold Py.atom_or at 1. now rewrite Hc.
  - cbn [bind]. do 4 eexists. split; [reflexivity|].
    repeat split; try apply leaf_first.
    rewrite (slot_beyond own 3) by lia.
    pose proof (leaf_first ANone (map (slot 3) ds)) as Hc.
    unfold resolves_to, first_set in *. simpl in Hc. simpl.
    change (Py.atom_or (AInt 0) ?x) with x.
    destruct (find Py.atom_truthy (map (slot 3) ds)) as [c|] eqn:E.
    + unfold Py.atom_or in Hc at 1. simpl in Hc. rewrite Hc.
      apply find_some in E. unfold Py.atom_or. now rewrite (proj2 E).
    + unfold Py.atom_or in Hc at 1. simpl in Hc.
      unfold Py.atom_or at 1. now rewrite Hc.
Qed.

(** *** Width of the body cells *)

Lemma collect_nth {A B : Type} (f : A -> result B) (l : list A) :
  forall (i : nat) (y : B),
    nth_error (fst (collect f l)) i = Some y ->
    exists x, nth_error l i = Some x /\ f x = Ok y.
Proof.
  induction l as [|x l IH]; intros i y H; simpl in H.
  - destruct i; discriminate.
  - destruct (f x) as [y0|e] eqn:Ex; simpl in H.
    + destruct (collect f l) as [ys e] eqn:Ec. simpl in H, IH.
      destruct i as [|i]; simpl in *.
      * injection H as <-. now exists x.
      * now apply IH.
    + destruct i; discriminate.
Qed.

Lemma for_each_nth {A B : Type} (f : A -> result B) (l : list A) :
  forall (ys : list B) (j : nat) (y : B),
    for_each f l = Ok ys ->
    nth_error ys j = Some y ->
    exists x, nth_error l j = Some x /\ f x = Ok y.
Proof.
  induction l as [|x l IH]; intros ys j y H Hj; simpl in H.
  - injection H as <-. destruct j; discriminate.
  - destruct (f x) as [y0|e] eqn:Ex; simpl in H; [|discriminate].
    destruct (for_each f l) as [ys'|e] eqn:El; simpl in H; [|discriminate].
    injection H as <-. destruct j as [|j]; simpl in *.
    + injection Hj as <-. now exists x.
    + now apply (IH ys').
Qed.

Lemma renew_lines (b : Buffer) :
  lines (fst (renew b)) = []
  \/ lines (fst (renew b))
     = fst (collect (body_line (substitute_fn (view_of b))
                               (Data.schema (data b)) (format b))
                    (Data.data (data b))).
Proof.
  unfold renew. simpl.
  destruct (collect (header_cell (Data.schema (data b))) (format b))
    as [names [e|]]; simpl; [now left|].
  destruct (collect _ (Data.data (data b))) as [ls [e|]]; simpl; now right.
Qed.

Lemma walk_row_schema (levels : list string) :
  forall (inh inh' : inherited) (row schema current_cell reached : pyval),
    walk_row levels inh row schema = Ok (inh', current_cell, reached) ->
    walk_schema levels inh schema = Ok (inh', reached).
Proof.
  induction levels as [|level rest IH];
    intros inh inh' row schema current_cell reached H; simpl in *.
  - now injection H as <- _ <-.
  - destruct (inherit inh schema) as [inh1|e]; simpl in *; [|discriminate].
    destruct (Py.getitem row level) as [c|e]; simpl in *; [|discriminate].
    destruct (Py.getitem schema level) as [s|e]; simpl in *; [|discriminate].
    now apply (IH _ _ c s current_cell).
Qed.

Lemma index_one_then_zero (v : pyval) (a : atom) :
  Py.index v 1 = Ok a -> exists n, Py.index v 0 = Ok n.
Proof.
  destruct v as [[| s | z | f] | t | d]; simpl; try discriminate.
  - destruct s as [|c s]; simpl; [discriminate | intros _; eauto].
  - destruct t as [|x t]; simpl; [discriminate | intros _; eauto].
Qed.

Lemma len_platform_justify (s out : string) (pad : atom) :
  platform_justify (VStr s) pad = Ok out ->
  pad = AInt 3 /\ PyStr.len out = Z.max 3 (PyStr.len s).
Proof.
  unfold platform_justify.
  destruct pad as [| p | z | f]; cbn [Py.atom_eqb negb]; try discriminate.
  destruct (Z.eqb_spec z 3) as [-> | Hz]; cbn [negb]; [|discriminate].
  destruct s as [|c s].
  - cbn. intros H; injection H as <-. now split.
  - change (Py.truthy (VStr (String c s))) with true.
    unfold VStr. cbn [negb Py.len bind].
    destruct (Z.eqb_spec (PyStr.len (String c s)) 1) as [E | NE].
    + intros H; injection H as <-. split; [reflexivity|].
      destruct s; [reflexivity|].
      unfold PyStr.len in E. simpl in E. lia.
    + destruct (PyStr.last_char (String c s)) as [l|]; [|discriminate].
      cbn [PyStr.first_char].
      destruct (PyStr.isalpha_char l && PyStr.isnumeric_char c);
        intros H; injection H as <-; split; try reflexivity.
      * apply len_rjust.
      * apply len_ljust.
Qed.

Lemma platform_justify_unset (text : pyval) (pad : atom) (out : string) :
  Py.truthy text = false ->
  platform_justify text pad = Ok out ->
  pad = AInt 3 /\ out = "   ".
Proof.
  intros Ht. unfold platform_justify.
  destruct pad as [| p | z | f]; simpl; try discriminate.
  destruct (Z.eqb_spec z 3) as [-> | Hz]; simpl; [|discriminate].
  rewrite Ht. simpl. intros H; injection H as <-. now split.
Qed.

Lemma len_str_method (f : string -> Z -> string) (text : pyval)
      (pad : atom) (out : string) :
  (forall s w, PyStr.len (f s w) = Z.max w (PyStr.len s)) ->
  str_method f text pad = Ok out ->
  exists s w, text = VStr s /\ pad = AInt w
              /\ PyStr.len out = Z.max w (PyStr.len s).
Proof.
  intros Hf. unfold str_method.
  destruct text as [[| s | z | g] | t | d]; try discriminate.
  destruct pad as [| p | w | g]; try discriminate.
  intros H; injection H as <-. exists s, w. now repeat split.
Qed.

(** Whichever justifier runs, it pads to the width and never cuts. *)
Lemma len_call_justify (justify : atom) (text : pyval) (pad : atom)
      (out : string) :
  call_justify justify text pad = Ok out ->
  exists w, pad = AInt w
            /\ (forall s, text = VStr s ->
                          PyStr.len out = Z.max w (PyStr.len s))
            /\ (Py.truthy text = false -> PyStr.len out = Z.max w 0).
Proof.
  unfold call_justify.
  destruct justify as [| j | z | [ | | | ]]; try discriminate; intros H.
  1-3: (eapply len_str_method in H;
        [| first [apply len_ljust | apply len_rjust | apply len_center]];
        destruct H as (s & w & -> & -> & Hlen); exists w;
        split; [reflexivity|]; split;
        [ intros s' E; injection E as <-; exact Hlen
        | unfold VStr; simpl; intros E; apply negb_false_iff in E;
          apply String.eqb_eq in E; subst s; exact Hlen ]).
  assert (Hpad : pad = AInt 3).
  { unfold platform_justify in H.
    destruct pad as [| p | z | g]; cbn [Py.atom_eqb negb] in H;
      try discriminate.
    destruct (Z.eqb_spec z 3) as [-> | Hz]; [reflexivity | discriminate]. }
  exists 3. split; [exact Hpad|]. split.
  - intros s ->. now destruct (len_platform_justify s out pad H).
  - intros Ht. now destruct (platform_justify_unset text pad out Ht H) as [_ ->].
Qed.

Lemma cell_before_justify_resolved
      (substitute : hook) (schema row : pyval) (col : string)
      (pad justify color : atom) (text : pyval) :
  cell_before_justify substitute schema row col
  = Ok (pad, justify, text, color) ->
  exists name resolved_color,
    resolve schema col = Ok (name, pad, justify, resolved_color).
Proof.
  unfold cell_before_justify, resolve. intros H.
  destruct (walk_row (PyStr.split "/" col) nothing_inherited row schema)
    as [[[inh current_cell] reached]|e] eqn:Ew; simpl in H; [|discriminate].
  rewrite (walk_row_schema _ _ _ _ _ _ _ Ew). cbn [bind].
  destruct inh as [[[iname ipad] ijustify] icolor].
  destruct (leaf_attrs (iname, ipad, ijustify, icolor) reached)
    as [[[p jf] cs]|e] eqn:El; simpl in H; [|discriminate].
  assert (Hname : exists n, Py.index reached 0 = Ok n).
  { unfold leaf_attrs in El.
    destruct (Py.index reached 1) as [a|e] eqn:E1; [|discriminate].
    now apply (index_one_then_zero reached a). }
  destruct Hname as [n Hn]. rewrite Hn. cbn [bind].
  destruct (substitute row col (py_str current_cell, cs)) as [[t fc]|e];
    simpl in H; [|discriminate].
  injection H as <- <- _ _. eauto.
Qed.

(** C1, as the code has it. Every cell of every line that [renew] caches
    comes from its row and its column of the format by resolving the
    column, asking the hook, and, last of all, justifying the text to the
    resolved width. The justifiers pad and never cut: the cell is as long
    as the width, or as long as the text when that is longer. A text that
    fits its column therefore gives a cell of exactly the width. *)
Theorem renew_cell_width
        (b : Buffer) (r j : nat) (line : list cell) (c : cell) :
  nth_error (lines (fst (renew b))) r = Some line ->
  nth_error line j = Some c ->
  exists (row : pyval) (col : string) (name justify color : atom)
         (w : Z) (text : pyval),
    nth_error (Data.data (data b)) r = Some row
    /\ nth_error (format b) j = Some col
    /\ resolve (Data.schema (data b)) col = Ok (name, AInt w, justify, color)
    /\ cell_before_justify (substitute_fn (view_of b))
                           (Data.schema (data b)) row col
       = Ok (AInt w, justify, text, snd c)
    /\ call_justify (Py.atom_or justify (AFun str_ljust)) text (AInt w)
       = Ok (fst c)
    /\ (forall s, text = VStr s ->
                  PyStr.len (fst c) = Z.max w (PyStr.len s))
    /\ (Py.truthy text = false -> PyStr.len (fst c) = Z.max w 0).
Proof.
  intros Hline Hcell.
  destruct (renew_lines b) as [E | E]; rewrite E in Hline.
  { destruct r; discriminate. }
  apply collect_nth in Hline. destruct Hline as (row & Hrow & Hbody).
  unfold body_line in Hbody.
  destruct (for_each_nth _ _ _ _ _ Hbody Hcell) as (col & Hcol & Hc).
  unfold body_cell in Hc.
  destruct (cell_before_justify (substitute_fn (view_of b))
                                (Data.schema (data b)) row col)
    as [[[[pad justify] text] color]|e] eqn:Eb; simpl in Hc; [|discriminate].
  destruct (call_justify (Py.atom_or justify (AFun str_ljust)) text pad)
    as [out|e] eqn:Ej; simpl in Hc; [|discriminate].
  injection Hc as <-. simpl.
  destruct (len_call_justify _ _ _ _ Ej) as (w & -> & Hs & Hu).
  destruct (cell_before_justify_resolved _ _ _ _ _ _ _ _ Eb)
    as (name & rc & Hres).
  exists row, col, name, justify, rc, w, text. now repeat split.
Qed.

(** *** The variation column *)

Lemma variation_cell_spec
      (x departure arrival departure_status arrival_status variation : pyval)
      (status : string) :
  Py.getitem x "trust_departure" = Ok departure ->
  Py.getitem x "trust_arrival" = Ok arrival ->
  Py.getitem departure "variation_status" = Ok departure_status ->
  Py.getitem arrival "variation_status" = Ok arrival_status ->
  (if Py.truthy departure_status then departure_status else arrival_status)
  = VStr status ->
  Py.getitem (if Py.truthy departure_status then departure else arrival)
             "variation" = Ok variation ->
  variation_cell x
  = Ok (VStr (if PyStr.contains status "EL"
              then py_str variation ++ status else ""),
        AInt COLOR_DEEMPHASIS).
Proof.
  intros Hd Ha Hds Has Hs Hv. unfold variation_cell.
  rewrite Hd. cbn [bind]. rewrite Hds. cbn [bind].
  destruct (Py.truthy departure_status); cbn [negb bind].
  - rewrite Hds. cbn [bind]. rewrite Hs. unfold VStr. cbn [in_EL bind].
    destruct (PyStr.contains status "EL"); [|reflexivity].
    rewrite Hv. reflexivity.
  - rewrite Ha. cbn [bind]. rewrite Has. cbn [bind]. rewrite Hs.
    unfold VStr. cbn [in_EL bind].
    destruct (PyStr.contains status "EL"); [|reflexivity].
    rewrite Hv. reflexivity.
Qed.

(** C6, as the code has it. In both live views, once the row has an
    actual arrival or departure time, the hook answers for the
    "current variation" column from the departure-side movement if that
    has a variation status and from the arrival-side one otherwise: when
    that status, a string, occurs in ["EL"] the text is the variation
    followed by the status, otherwise it is empty; the colour is pair 5,
    the de-emphasis colour, either way. The renderer then right-justifies
    the text to width 3, after blanking it when the row's own variation
    value is [None]. Before the row has any actual time, the hook of the
    service view answers with empty text in colour pair 0, so the cell is
    three spaces, and the hook of the board view hands back what it was
    given, so the cell is the row's own variation value, right-justified
    to width 3 in colour pair 3, the colour of its schema. *)
Theorem variation_display
        (v : view) (x departure arrival : pyval) (z : string * atom)
        (departure_status arrival_status variation estimate : pyval)
        (status : string) :
  v <> TextView ->
  field x "service" "current_variation" = Ok estimate ->
  (has_actual_time x = Ok true ->
   Py.getitem x "trust_departure" = Ok departure ->
   Py.getitem x "trust_arrival" = Ok arrival ->
   Py.getitem departure "variation_status" = Ok departure_status ->
   Py.getitem arrival "variation_status" = Ok arrival_status ->
   (if Py.truthy departure_status then departure_status else arrival_status)
   = VStr status ->
   Py.getitem (if Py.truthy departure_status then departure else arrival)
              "variation" = Ok variation ->
   let text := if PyStr.contains status "EL"
               then py_str variation ++ status else "" in
   substitute_fn v x "service/current_variation" z
   = Ok (VStr text, AInt COLOR_DEEMPHASIS)
   /\ (forall schema, schema = Board_schema \/ schema = Service_schema ->
         body_cell (substitute_fn v) schema x "service/current_variation"
         = Ok (PyStr.rjust (if Py.eqb estimate VNone then "" else text) 3,
               AInt COLOR_DEEMPHASIS)))
  /\ (has_actual_time x = Ok false ->
      substitute_fn v x "service/current_variation" z
      = Ok (match v with
            | ServiceView _ _ => (VStr "", AInt 0)
            | _ => (VStr (fst z), snd z)
            end)
      /\ (forall schema, schema = Board_schema \/ schema = Service_schema ->
            body_cell (substitute_fn v) schema x "service/current_variation"
            = Ok (match v with
                  | ServiceView _ _ => ("   ", AInt 0)
                  | _ => (PyStr.rjust (if Py.eqb estimate VNone then ""
                                       else py_str estimate) 3,
                          AInt COLOR_LIVE_DATA)
                  end))).
Proof.
  intros Hv He.
  assert (Hcell : forall (schema : pyval) (answer : pyval * atom),
             schema = Board_schema \/ schema = Service_schema ->
             (forall z', substitute_fn v x "service/current_variation" z'
                         = Ok answer) ->
             body_cell (substitute_fn v) schema x "service/current_variation"
             = (final_row_text <-
                  call_justify (AFun str_rjust)
                    (if Py.eqb estimate VNone then VStr "" else fst answer)
                    (AInt 3) ;;
                Ok (final_row_text, snd answer))).
  { intros schema [text colour] Hschema Hhook. unfold field in He.
    destruct (Py.getitem x "service") as [service|e] eqn:Es; [|discriminate].
    cbn [bind] in He.
    unfold body_cell, cell_before_justify.
    change (PyStr.split "/" "service/current_variation")
      with ["service"; "current_variation"].
    assert (Hw : walk_row ["service"; "current_variation"] nothing_inherited
                          x schema
                 = Ok (nothing_inherited, estimate,
                       leaf [AStr "v."; AInt 3; AFun str_rjust; AInt 3])).
    { destruct Hschema as [-> | ->]; cbn [walk_row];
        (change (inherit nothing_inherited Board_schema)
           with (Ok nothing_inherited)
         || change (inherit nothing_inherited Service_schema)
              with (Ok nothing_inherited));
        cbn [bind]; rewrite Es; cbn [bind];
        (change (Py.getitem Board_schema "service") with (Ok service_schema)
         || change (Py.getitem Service_schema "service")
              with (Ok service_schema));
        cbn [bind];
        change (inherit nothing_inherited service_schema)
          with (Ok nothing_inherited);
        cbn [bind]; rewrite He; reflexivity. }
    rewrite Hw. cbn [bind].
    change (leaf_attrs nothing_inherited
              (leaf [AStr "v."; AInt 3; AFun str_rjust; AInt 3]))
      with (Ok (AInt 3, AFun str_rjust, AInt 3)).
    cbn [bind]. rewrite Hhook. reflexivity. }
  split.
  - intros Ht Hd Ha Hds Has Hs Hvar text.
    pose proof (variation_cell_spec x departure arrival departure_status
                  arrival_status variation status Hd Ha Hds Has Hs Hvar)
      as Hvc. fold text in Hvc.
    assert (Hhook : forall z', substitute_fn v x "service/current_variation" z'
                               = Ok (VStr text, AInt COLOR_DEEMPHASIS)).
    { intros z'. destruct v as [| dt dur loc | d code]; [contradiction| |].
      - unfold substitute_fn, Board_substitute_fn.
        change (same_place x "service/current_variation" "origin")
          with (@Ok bool false).
        change (same_place x "service/current_variation" "destination")
          with (@Ok bool false).
        cbn [bind]. change ("service/current_variation"
                            =? "service/current_variation")%string with true.
        cbv iota. rewrite Ht. cbn [bind]. exact Hvc.
      - unfold substitute_fn, Service_substitute_fn.
        change ("service/current_variation"
                =? "service/current_variation")%string with true.
        cbv iota. rewrite Ht. cbn [bind]. exact Hvc. }
    split; [apply Hhook|].
    intros schema Hschema. rewrite (Hcell schema _ Hschema Hhook).
    cbn [fst snd]. destruct (Py.eqb estimate VNone); reflexivity.
  - intros Ht. destruct v as [| dt dur loc | d code]; [contradiction| |].
    + assert (Hhook : forall z', Board_substitute_fn x
                                   "service/current_variation" z'
                                 = Ok (VStr (fst z'), snd z')).
      { intros z'. unfold Board_substitute_fn.
        change (same_place x "service/current_variation" "origin")
          with (@Ok bool false).
        change (same_place x "service/current_variation" "destination")
          with (@Ok bool false).
        cbn [bind]. change ("service/current_variation"
                            =? "service/current_variation")%string with true.
        cbv iota. rewrite Ht. cbn [bind].
        change ("service/current_variation"
                =? "service/signalling_id")%string with false.
        change ("service/current_variation" =? "platform")%string with false.
        change ("service/current_variation"
                =? "service/operating_characteristics")%string with false.
        cbv iota. reflexivity. }
      split; [apply Hhook|].
      intros schema Hschema. unfold body_cell, cell_before_justify.
      unfold field in He.
      destruct (Py.getitem x "service") as [service|e] eqn:Es; [|discriminate].
      cbn [bind] in He.
      change (PyStr.split "/" "service/current_variation")
        with ["service"; "current_variation"].
      assert (Hw : walk_row ["service"; "current_variation"] nothing_inherited
                            x schema
                   = Ok (nothing_inherited, estimate,
                         leaf [AStr "v."; AInt 3; AFun str_rjust; AInt 3])).
      { destruct Hschema as [-> | ->]; cbn [walk_row];
          (change (inherit nothing_inherited Board_schema)
             with (Ok nothing_inherited)
           || change (inherit nothing_inherited Service_schema)
                with (Ok nothing_inherited));
          cbn [bind]; rewrite Es; cbn [bind];
          (change (Py.getitem Board_schema "service")
             with (Ok service_schema)
           || change (Py.getitem Service_schema "service")
                with (Ok service_schema));
          cbn [bind];
          change (inherit nothing_inherited service_schema)
            with (Ok nothing_inherited);
          cbn [bind]; rewrite He; reflexivity. }
      rewrite Hw. cbn [bind].
      change (leaf_attrs nothing_inherited
                (leaf [AStr "v."; AInt 3; AFun str_rjust; AInt 3]))
        with (Ok (AInt 3, AFun str_rjust, AInt 3)).
      cbn [bind substitute_fn]. rewrite Hhook. cbn [bind fst snd].
      destruct (Py.eqb estimate VNone); reflexivity.
    + assert (Hhook : forall z', Service_substitute_fn x
                                   "service/current_variation" z'
                                 = Ok (VStr "", AInt 0)).
      { intros z'. unfold Service_substitute_fn.
        change ("service/current_variation"
                =? "service/current_variation")%string with true.
        cbv iota. rewrite Ht. reflexivity. }
      split; [apply Hhook|].
      intros schema Hschema.
      rewrite (Hcell schema (VStr "", AInt 0) Hschema Hhook).
      cbn [fst snd]. destruct (Py.eqb estimate VNone); reflexivity.
Qed.

(** *** Failures of the schema walk *)

Lemma inherit_raises (inh : inherited) (node : pyval) (e : exn) :
  inherit inh node = Raise e -> walk_error e.
Proof.
  unfold walk_error. destruct inh as [[[name pad] justify] color].
  destruct node as [a | t | d]; simpl.
  1-2: (intros H; injection H as <-; tauto).
  destruct (Py.lookup d "_") as [[a | t | d']|]; simpl; try discriminate;
    intros H; injection H as <-; tauto.
Qed.

Lemma getitem_raises (v : pyval) (key : string) (e : exn) :
  Py.getitem v key = Raise e -> walk_error e.
Proof.
  unfold walk_error. destruct v as [a | t | d]; simpl.
  1-2: (intros H; injection H as <-; tauto).
  destruct (Py.lookup d key); [discriminate|].
  intros H; injection H as <-; tauto.
Qed.

Lemma index_raises (v : pyval) (i : nat) (e : exn) :
  Py.index v i = Raise e -> walk_error e.
Proof.
  unfold walk_error. destruct v as [[| s | z | f] | t | d]; simpl;
    try (intros H; injection H as <-; tauto).
  - destruct (String.get i s); [discriminate|].
    intros H; injection H as <-; tauto.
  - destruct (nth_error t i); [discriminate|].
    intros H; injection H as <-; tauto.
Qed.

Lemma len_raises (v : pyval) (e : exn) :
  Py.len v = Raise e -> walk_error e.
Proof.
  unfold walk_error. destruct v as [[| s | z | f] | t | d]; simpl;
    try discriminate; intros H; injection H as <-; tauto.
Qed.

Lemma header_text_raises (name pad : atom) (e : exn) :
  header_text name pad = Raise e -> e = TypeError.
Proof.
  unfold header_text.
  destruct name as [| s | z | f], pad as [| p | w | g]; simpl;
    try discriminate; intros H; now injection H as <-.
Qed.

Lemma walk_schema_raises (levels : list string) :
  forall (inh : inherited) (node : pyval) (e : exn),
    walk_schema levels inh node = Raise e -> walk_error e.
Proof.
  induction levels as [|level rest IH]; intros inh node e H; simpl in H.
  - discriminate.
  - destruct (inherit inh node) as [inh'|e'] eqn:Ei; simpl in H.
    + destruct (Py.getitem node level) as [child|e'] eqn:Eg; simpl in H.
      * now apply (IH inh' child).
      * injection H as <-. now apply (getitem_raises node level).
    + injection H as <-. now apply (inherit_raises inh node).
Qed.

Lemma header_cell_raises (schema : pyval) (column : string) (e : exn) :
  header_cell schema column = Raise e -> walk_error e.
Proof.
  unfold header_cell. intros H.
  destruct (walk_schema (PyStr.split "/" column) nothing_inherited schema)
    as [[[[[iname ipad] ijustify] icolor] reached]|e'] eqn:Ew; simpl in H.
  2: { injection H as <-. now apply (walk_schema_raises _ _ _ _ Ew). }
  destruct (Py.index reached 0) as [name|e'] eqn:E0; simpl in H.
  2: { injection H as <-. now apply (index_raises reached 0). }
  destruct (Py.index reached 1) as [pad|e'] eqn:E1; simpl in H.
  2: { injection H as <-. now apply (index_raises reached 1). }
  destruct (Py.len reached) as [n|e'] eqn:En; simpl in H.
  2: { injection H as <-. now apply (len_raises reached). }
  destruct (if 4 <=? n then Py.index reached 3 else Ok (AInt 0))
    as [cs|e'] eqn:E3; simpl in H.
  2: { injection H as <-. destruct (4 <=? n); [|discriminate].
       now apply (index_raises reached 3). }
  destruct (header_text (Py.atom_or name iname) (Py.atom_or pad ipad))
    as [text|e'] eqn:Et; simpl in H; [discriminate|].
  injection H as <-. apply header_text_raises in Et. subst e'.
  unfold walk_error. tauto.
Qed.

Lemma header_cell_needs_width (schema : pyval) (column : string)
      (name justify color : atom) :
  resolve schema column = Ok (name, ANone, justify, color) ->
  header_cell schema column = Raise TypeError.
Proof.
  unfold resolve, header_cell. intros H.
  destruct (walk_schema (PyStr.split "/" column) nothing_inherited schema)
    as [[[[[iname ipad] ijustify] icolor] reached]|e'] eqn:Ew;
    simpl in H; [|discriminate]. cbn [bind].
  destruct (Py.index reached 0) as [name0|e'] eqn:E0; simpl in H;
    [|discriminate]. cbn [bind].
  unfold leaf_attrs in H.
  destruct (Py.index reached 1) as [pad|e'] eqn:E1; simpl in H;
    [|discriminate]. cbn [bind].
  destruct (Py.len reached) as [n|e'] eqn:En; simpl in H;
    [|discriminate]. cbn [bind].
  destruct (if 3 <=? n then Py.index reached 2 else Ok ANone)
    as [jf|e'] eqn:E2; simpl in H; [|discriminate].
  destruct (if 4 <=? n then Py.index reached 3 else Ok (AInt 0))
    as [cs|e'] eqn:E3; simpl in H; [|discriminate]. cbn [bind].
  injection H as _ Hpad _ _. rewrite Hpad.
  unfold header_text.
  now destruct (Py.atom_or name0 iname) as [| s | z | f].
Qed.

Lemma collect_first_failure {A B : Type} (f : A -> result B)
      (before after : list A) (x : A) (e : exn) :
  (forall a, In a before -> exists y, f a = Ok y) ->
  f x = Raise e ->
  snd (collect f (before ++ x :: after)) = Some e.
Proof.
  induction before as [|a before IH]; intros Hb Hx; simpl.
  - now rewrite Hx.
  - destruct (Hb a (or_introl eq_refl)) as [y Hy]. rewrite Hy.
    specialize (IH (fun a' Ha' => Hb a' (or_intror Ha')) Hx).
    now destruct (collect f (before ++ x :: after)) as [ys e'].
Qed.

Lemma main_iteration_uncaught (t : Tick) (st : MainState) (e : exn) :
  snd (consider_refresh (now_test t) (now_stamp t) (db_refresh t)
                        (current_buffer st)) = Some e ->
  main_iteration t st = Uncaught e.
Proof.
  unfold main_iteration.
  destruct (consider_refresh _ _ _ _) as [b' [e'|]]; simpl; intros H;
    [now injection H as -> | discriminate].
Qed.

(** C7, as the code has it. When a display path of the format does not
    resolve in the schema, or resolves to a leaf that gets no width,
    [renew] raises a built-in exception of Python (a [KeyError], an
    [IndexError], a [TypeError] or an [AttributeError]; a leaf without a
    width gives a [TypeError]) and caches no line. Nothing catches it: the
    constructor that called [renew] raises it in turn, and a turn of the
    main loop whose timed refresh raises ends [main] with it. *)
Theorem resolution_failure_raises
        (b : Buffer) (before after : list string) (column : string)
        (e : exn) :
  format b = (before ++ column :: after)%list ->
  (forall c, In c before ->
             exists h, header_cell (Data.schema (data b)) c = Ok h) ->
  header_cell (Data.schema (data b)) column = Raise e ->
  snd (renew b) = Some e
  /\ lines (fst (renew b)) = []
  /\ walk_error e
  /\ finish (renew b) = Raise e
  /\ (forall name justify color,
         resolve (Data.schema (data b)) column
         = Ok (name, ANone, justify, color) -> e = TypeError)
  /\ (forall (t : Tick) (st : MainState) (e' : exn),
         snd (consider_refresh (now_test t) (now_stamp t) (db_refresh t)
                               (current_buffer st)) = Some e' ->
         main_iteration t st = Uncaught e').
Proof.
  intros Hfmt Hbefore Hcol.
  pose proof (collect_first_failure _ before after column e Hbefore Hcol)
    as Hc. rewrite <- Hfmt in Hc.
  assert (Hr : snd (renew b) = Some e /\ lines (fst (renew b)) = []).
  { unfold renew. simpl.
    destruct (collect (header_cell (Data.schema (data b))) (format b))
      as [names raised]. simpl in Hc. subst raised. now split. }
  destruct Hr as [Hr Hl].
  split; [exact Hr|]. split; [exact Hl|].
  split; [exact (header_cell_raises _ column e Hcol)|].
  split.
  { unfold finish. destruct (renew b) as [b' r]. simpl in Hr. now subst r. }
  split.
  { intros name justify color Hres.
    rewrite (header_cell_needs_width _ _ _ _ _ Hres) in Hcol.
    now injection Hcol as <-. }
  intros t st e'. apply main_iteration_uncaught.
Qed.

(** *** The command editor *)

Lemma len_slice_to (s : string) (i : Z) :
  0 <= i <= PyStr.len s -> PyStr.len (PyStr.slice_to s i) = i.
Proof.
  intros H. rewrite slice_to_take by exact H.
  unfold PyStr.len in *. rewrite length_take. lia.
Qed.

Lemma len_slice_from (s : string) (i : Z) :
  0 <= i -> PyStr.len (PyStr.slice_from s i) = Z.max (PyStr.len s - i) 0.
Proof.
  intros H. rewrite slice_from_drop by exact H.
  unfold PyStr.len in *. rewrite length_drop. lia.
Qed.

Lemma split_aux_nonempty (sep : ascii) (s : string) :
  forall field, exists f rest, PyStr.split_aux sep s field = f :: rest.
Proof.
  induction s as [|c s IH]; intros field; simpl.
  - eauto.
  - destruct (Ascii.eqb c sep); [eauto | apply IH].
Qed.

Lemma lower_char_space (c : ascii) : PyStr.lower_char c = " "%char -> c = " "%char.
Proof.
  destruct c as [[] [] [] [] [] [] [] []]; vm_compute; intros H;
    first [reflexivity | discriminate H].
Qed.

Lemma lowers_to_letter (c l : ascii) :
  l <> " "%char -> l = PyStr.lower_char c -> Ascii.eqb c " " = false.
Proof.
  intros Hl E. apply Ascii.eqb_neq. intros ->. now apply Hl.
Qed.

Lemma prefix_cons (a b : ascii) (s1 s2 : string) :
  String.prefix (String a s1) (String b s2) = true ->
  a = b /\ String.prefix s1 s2 = true.
Proof.
  cbn [String.prefix]. destruct (ascii_dec a b); [now split | discriminate].
Qed.

Lemma prefix_of_empty (a : ascii) (s : string) :
  String.prefix (String a s) "" = true -> False.
Proof. discriminate. Qed.

(** After ["trjd "], in whatever case, [split(" ")] has a second field. *)
Lemma trjd_has_code (c : string) :
  PyStr.startswith (PyStr.lower c) "trjd " = true ->
  exists code, nth_error (PyStr.split " " c) 1 = Some code.
Proof.
  unfold PyStr.startswith, PyStr.lower. intros H.
  destruct c as [|c0 [|c1 [|c2 [|c3 [|c4 rest]]]]];
    cbn [PyStr.map_chars] in H;
    repeat match type of H with
           | String.prefix (String _ _) (String _ _) = true =>
               let E := fresh "E" in
               apply prefix_cons in H; destruct H as [E H]
           end;
    try (now apply prefix_of_empty in H).
  symmetry in E3. apply lower_char_space in E3. subst c4.
  unfold PyStr.split. cbn [PyStr.split_aux].
  rewrite (lowers_to_letter c0 "t") by (assumption || discriminate).
  rewrite (lowers_to_letter c1 "r") by (assumption || discriminate).
  rewrite (lowers_to_letter c2 "j") by (assumption || discriminate).
  rewrite (lowers_to_letter c3 "d") by (assumption || discriminate).
  change (Ascii.eqb " " " ") with true. cbv iota.
  destruct (split_aux_nonempty " " rest "") as (f & l & ->).
  now exists f.
Qed.

Lemma list_index_nth {A : Type} (l : list A) (i : nat) (a : A) :
  nth_error l i = Some a -> list_index l i = Ok a.
Proof. unfold list_index. now intros ->. Qed.

Lemma entry_key_enter (t : Tick) (st : MainState) :
  k t = KEY_ENTER \/ k t = 10 -> entry_key t st = submit t st.
Proof. intros [H | H]; unfold entry_key; rewrite H; reflexivity. Qed.

Lemma constructed_view (db : Provider) (b0 b : Buffer) :
  finish (refresh db b0) = Ok b -> view_of b = view_of b0.
Proof.
  pose proof (refresh_frame db b0) as (Hv & _). simpl in Hv.
  unfold finish. destruct (refresh db b0) as [b' [e|]]; [discriminate|].
  intros H; injection H as <-. exact Hv.
Qed.

(** X28. On submit, a compose string that begins with "trjd " in any
    case puts in place the board view that [BoardBuffer] builds for ten
    minutes before the clock, 120 minutes and the second space-separated
    field in upper case; one that begins with "uid " and has a third field
    that parses as [%Y-%m-%d] puts in place the service view for the
    second field in upper case on that date; one that begins with neither
    keeps the buffer. Whenever the view gets built, and in the last case,
    the compose string is emptied, the cursor goes to 0 and the editor is
    back in navigation; an exception raised while the view is built
    leaves [main]. *)
Theorem submit_commands (t : Tick) (st : MainState) :
  k t = KEY_ENTER \/ k t = 10 ->
  let c := compose st in
  let done b := Continue (mkMain "" 0 false b) false in
  (PyStr.startswith (PyStr.lower c) "trjd " = true ->
   exists code,
     nth_error (PyStr.split " " c) 1 = Some code
     /\ entry_key t st
        = match BoardBuffer (now_init t) (db_submit t)
                            (now_submit t - 600000000) 120
                            (PyStr.upper code) with
          | Ok b => done b
          | Raise e => Uncaught e
          end
     /\ (forall b,
            BoardBuffer (now_init t) (db_submit t)
                        (now_submit t - 600000000) 120 (PyStr.upper code)
            = Ok b ->
            view_of b = BoardView (now_submit t - 600000000) 120
                                  (PyStr.upper code)))
  /\ (PyStr.startswith (PyStr.lower c) "trjd " = false ->
      PyStr.startswith (PyStr.lower c) "uid " = true ->
      forall id text d,
        nth_error (PyStr.split " " c) 1 = Some id ->
        nth_error (PyStr.split " " c) 2 = Some text ->
        Time.strptime_date text = Ok d ->
        entry_key t st
        = match ServiceBuffer (now_init t) (db_submit t) d
                              (PyStr.upper id) with
          | Ok b => done b
          | Raise e => Uncaught e
          end
        /\ (forall b,
               ServiceBuffer (now_init t) (db_submit t) d (PyStr.upper id)
               = Ok b ->
               view_of b = ServiceView d (PyStr.upper id)))
  /\ (PyStr.startswith (PyStr.lower c) "trjd " = false ->
      PyStr.startswith (PyStr.lower c) "uid " = false ->
      entry_key t st = done (current_buffer st)).
Proof.
  intros Hk c done. rewrite (entry_key_enter t st Hk). unfold submit.
  fold c. split; [|split].
  - intros Htrjd. rewrite Htrjd.
    destruct (trjd_has_code c Htrjd) as [code Hcode]. exists code.
    split; [exact Hcode|]. rewrite (list_index_nth _ _ _ Hcode).
    cbn [bind]. split; [reflexivity|].
    intros b Hb. unfold BoardBuffer in Hb.
    now rewrite (constructed_view _ _ _ Hb).
  - intros Htrjd Huid id text d Hid Htext Hd. rewrite Htrjd, Huid.
    rewrite (list_index_nth _ _ _ Hid), (list_index_nth _ _ _ Htext).
    cbn [bind]. rewrite Hd. cbn [bind]. split; [reflexivity|].
    intros b Hb. unfold ServiceBuffer in Hb.
    now rewrite (constructed_view _ _ _ Hb).
  - intros Htrjd Huid. now rewrite Htrjd, Huid.
Qed.

Lemma entry_key_printable (t : Tick) (st : MainState) :
  32 <= k t <= 126 ->
  entry_key t st
  = if cursor_pos st <? win_cols t - 1
    then Continue
           (mkMain (PyStr.slice_to (compose st) (cursor_pos st)
                    ++ chr (k t)
                    ++ PyStr.slice_from (compose st) (cursor_pos st))
                   (cursor_pos st + 1) true (current_buffer st)) false
    else Continue st true.
Proof.
  intros H. unfold entry_key, KEY_BACKSPACE, KEY_DC, KEY_LEFT, KEY_RIGHT,
    KEY_ENTER.
  repeat match goal with
         | |- context [k t =? ?n] =>
             destruct (Z.eqb_spec (k t) n); [lia|]
         end.
  cbn [orb].
  destruct (Z.leb_spec 32 (k t)); [|lia].
  destruct (Z.leb_spec (k t) 126); [|lia]. reflexivity.
Qed.

(** The cursor stays inside the compose string, whatever the key. *)
Lemma entry_key_cursor (t : Tick) (st st' : MainState) (beeped : bool) :
  0 <= cursor_pos st <= PyStr.len (compose st) ->
  entry_key t st = Continue st' beeped ->
  0 <= cursor_pos st' <= PyStr.len (compose st').
Proof.
  intros Hinv. unfold entry_key.
  repeat match goal with
         | |- context [if ?c then _ else _] => destruct c eqn:?
         end;
    try (unfold submit;
         match goal with
         | |- context [match ?r with Ok _ => _ | Raise _ => _ end] =>
             destruct r
         end);
    intros H; try discriminate H; injection H as <- _;
    cbn [compose cursor_pos];
    rewrite ?len_append, ?len_cons, ?len_slice_to, ?len_slice_from by lia;
    try (change (PyStr.len (chr (k t))) with 1);
    try (change (PyStr.len "") with 0); lia.
Qed.


(** The same holds along the whole loop, from the first turn on. *)
Lemma main_iteration_cursor (t : Tick) (st st' : MainState) (beeped : bool) :
  0 <= cursor_pos st <= PyStr.len (compose st) ->
  main_iteration t st = Continue st' beeped ->
  0 <= cursor_pos st' <= PyStr.len (compose st').
Proof.
  intros Hinv. unfold main_iteration.
  destruct (consider_refresh _ _ _ _) as [b [e|]]; [discriminate|].
  set (b' := if k t =? KEY_RESIZE then _ else _).
  cbn [text_entry_mode]. destruct (text_entry_mode st).
  - apply entry_key_cursor. exact Hinv.
  - unfold navigation_key. cbn [compose cursor_pos text_entry_mode
                                 current_buffer].
    repeat match goal with
           | |- context [if ?c then _ else _] => destruct c
           end;
      intros H; try discriminate H; injection H as <- _; exact Hinv.
Qed.

Lemma main_loop_cursor (ticks : list Tick) :
  forall (st st' : MainState) (beeped : bool),
    0 <= cursor_pos st <= PyStr.len (compose st) ->
    main_loop ticks st = Continue st' beeped ->
    0 <= cursor_pos st' <= PyStr.len (compose st').
Proof.
  induction ticks as [|t ticks IH]; intros st st' beeped Hinv H; simpl in H.
  - now injection H as <- _.
  - destruct (main_iteration t st) as [st1 b1 | | e] eqn:E;
      try discriminate H.
    apply (IH st1 st' beeped); [|exact H].
    exact (main_iteration_cursor t st st1 b1 Hinv E).
Qed.


(** *** [process_time] *)

Lemma two_digits (z : Z) :
  0 <= z < 100 -> PyStr.len (PyStr.zero_padded 2 z) = 2.
Proof.
  intros H. rewrite <- (Z2Nat.id z) by lia.
  assert (Hn : (Z.to_nat z < 100)%nat) by lia.
  revert Hn. generalize (Z.to_nat z). clear H z. intros n Hn.
  do 100 (destruct n as [|n]; [vm_compute; reflexivity|]). lia.
Qed.

Lemma seconds_into_day_range (t : datetime) :
  0 <= seconds_into_day t < 86400.
Proof.
  unfold seconds_into_day, Time.MICROS_PER_DAY, Time.MICROS_PER_SECOND.
  pose proof (Z.mod_pos_bound t (86400 * 1000000) ltac:(lia)) as Hm.
  split.
  - apply Z.div_pos; lia.
  - apply Z.div_lt_upper_bound; lia.
Qed.

Lemma len_strftime_HM (t : datetime) : PyStr.len (strftime_HM t) = 4.
Proof.
  pose proof (seconds_into_day_range t) as Hs.
  assert (Hh : 0 <= seconds_into_day t / 3600 < 100)
    by (split; [apply Z.div_pos; lia | apply Z.div_lt_upper_bound; lia]).
  assert (Hm : 0 <= (seconds_into_day t / 60) mod 60 < 100)
    by (pose proof (Z.mod_pos_bound (seconds_into_day t / 60) 60); lia).
  unfold strftime_HM. rewrite len_append, !two_digits by assumption.
  reflexivity.
Qed.

(** X1. [process_time] takes a missing or zero timestamp for no time: the
    group it returns has no "ut" and an empty short form, and the clock is
    not asked. For any other timestamp the group keeps it under "ut" and
    its short form is the four digits of hour and minute in local time,
    followed by the half-minute mark exactly when the seconds are 30: four
    characters, or five. An exception of the conversion is passed on. *)
Theorem process_time_short (fromtimestamp : clock_reading) (unix_time : pyval) :
  (Py.truthy unix_time = false ->
   process_time fromtimestamp unix_time
   = Ok (VDict [ ("ut", VNone); ("iso", VNone); ("date", VNone);
                 ("short", VStr "") ]))
  /\ (Py.truthy unix_time = true ->
      forall dt, fromtimestamp unix_time = Ok dt ->
        exists group short,
          process_time fromtimestamp unix_time = Ok group
          /\ Py.getitem group "ut" = Ok unix_time
          /\ Py.getitem group "short" = Ok (VStr short)
          /\ short = strftime_HM dt
                     ++ (if second_of dt =? 30 then half_mark else "")
          /\ PyStr.len short = (if second_of dt =? 30 then 5 else 4))
  /\ (Py.truthy unix_time = true ->
      forall e, fromtimestamp unix_time = Raise e ->
        process_time fromtimestamp unix_time = Raise e).
Proof.
  unfold process_time. split; [|split].
  - now intros ->.
  - intros -> dt ->. cbn [bind]. do 2 eexists.
    split; [reflexivity|]. split; [reflexivity|]. split; [reflexivity|].
    split; [reflexivity|].
    rewrite len_append, len_strftime_HM.
    now destruct (second_of dt =? 30).
  - now intros -> e ->.
Qed.

(** *** The rows of [get_board] *)

Lemma process_time_group (fromtimestamp : clock_reading) (v g : pyval) :
  process_time fromtimestamp v = Ok g ->
  exists ut iso date short,
    g = VDict [ ("ut", ut); ("iso", iso); ("date", date); ("short", short) ].
Proof.
  unfold process_time. destruct (Py.truthy v).
  - destruct (fromtimestamp v) as [dt|e]; [|discriminate].
    cbn [bind]. intros H; injection H as <-. eauto.
  - intros H; injection H as <-. eauto.
Qed.

Lemma pop_fields_ok (tags : list string) :
  forall (row rest : list pyval) (fields : list (string * pyval)),
    pop_fields tags row = Ok (fields, rest) ->
    map fst fields = tags /\ row = (map snd fields ++ rest)%list.
Proof.
  induction tags as [|tag tags IH]; intros row rest fields H; simpl in H.
  - injection H as <- <-. now split.
  - destruct row as [|v row]; [discriminate|].
    destruct (pop_fields tags row) as [[fs r]|e] eqn:E; [|discriminate].
    cbn [bind] in H. injection H as <- <-.
    destruct (IH _ _ _ E) as [Hk Hr]. simpl. now rewrite Hk, Hr.
Qed.

Lemma pop_times_ok (fromtimestamp : clock_reading) (tags : list string) :
  forall (row rest : list pyval) (fields : list (string * pyval)),
    pop_times fromtimestamp tags row = Ok (fields, rest) ->
    exists vals,
      row = (vals ++ rest)%list
      /\ List.length vals = List.length tags
      /\ map fst fields = tags
      /\ Forall (fun kv => exists ut iso date short,
                   snd kv = VDict [ ("ut", ut); ("iso", iso); ("date", date);
                                    ("short", short) ]) fields.
Proof.
  induction tags as [|tag tags IH]; intros row rest fields H; simpl in H.
  - injection H as <- <-. exists []. now repeat split.
  - destruct row as [|v row]; [discriminate|].
    destruct (process_time fromtimestamp v) as [g|e] eqn:Eg; [|discriminate].
    cbn [bind] in H.
    destruct (pop_times fromtimestamp tags row) as [[fs r]|e] eqn:E;
      [|discriminate].
    cbn [bind] in H. injection H as <- <-.
    destruct (IH _ _ _ E) as (vals & Hr & Hl & Hk & Hg).
    exists (v :: vals). simpl. rewrite Hr, Hl, Hk. repeat split.
    constructor; [|exact Hg]. exact (process_time_group _ _ _ Eg).
Qed.

(** Steps for taking a successful [shape_row] apart: one bind at a time,
    then every list of fields down to its keys, then the time groups. *)
Ltac bound H :=
  match type of H with
  | bind ?r _ = Ok _ =>
      let E := fresh "E" in
      let x := fresh "x" in
      destruct r as [x|?] eqn:E;
      [cbn [bind] in H; try (destruct x as [? ?]) | discriminate H]
  end.

Ltac keyed H :=
  repeat match type of H with
         | map fst ?l = _ :: _ =>
             let k := fresh "k" in
             let v := fresh "v" in
             destruct l as [|[k v] l]; [discriminate H|];
             cbn [map fst] in H;
             let Hk := fresh "Hk" in
             injection H as Hk H; subst k
         | map fst ?l = [] => destruct l; [clear H | discriminate H]
         end.

Ltac grouped H :=
  repeat match type of H with
         | Forall _ (_ :: _) =>
             let Hg := fresh "Hg" in
             let H' := fresh "H" in
             apply Forall_cons_iff in H; destruct H as [Hg H'];
             destruct Hg as (? & ? & ? & ? & Hg); cbn [snd] in Hg; subst;
             rename H' into H
         | Forall _ [] => clear H
         end.

Ltac fields_of E :=
  let Hk := fresh "Hk" in
  let Hr := fresh "Hr" in
  apply pop_fields_ok in E; destruct E as [Hk Hr];
  unfold plain_tags, movement_tags, service_tags, location_tags in Hk;
  keyed Hk;
  cbn [map snd app] in Hr.

Ltac shape_inversion H :=
  unfold shape_row in H; repeat bound H; injection H as H;
  repeat match goal with
         | E : pop_fields _ _ = Ok _ |- _ => fields_of E
         end;
  match goal with
  | E : pop_times _ _ _ = Ok _ |- _ =>
      apply pop_times_ok in E;
      let vals := fresh "vals" in
      let Hr := fresh "Hrow" in
      let Hl := fresh "Hlen" in
      let Hk := fresh "Hk" in
      let Hg := fresh "Hg" in
      destruct E as (vals & Hr & Hl & Hk & Hg);
      unfold time_tags in Hk, Hl; keyed Hk; grouped Hg
  end.

(** X3. Every display path of the board view and of the service view
    resolves in a row that [get_board] has shaped, and in the view's
    schema beside it: the walk of [renew] through the row and the schema
    reaches the end of each path of the format. *)
Theorem shaped_row_resolves
        (fromtimestamp : clock_reading) (row : list pyval) (x : pyval) :
  shape_row fromtimestamp row = Ok x ->
  Forall (fun col => exists r,
            walk_row (PyStr.split "/" col) nothing_inherited x Board_schema
            = Ok r) Board_format
  /\ Forall (fun col => exists r,
               walk_row (PyStr.split "/" col) nothing_inherited x
                        Service_schema = Ok r) Service_format.
Proof.
  intros H. shape_inversion H.
  repeat match goal with
         | E : Py.getitem (VDict _) _ = Ok _ |- _ =>
             cbn in E; injection E as <-
         end.
  match goal with
  | E : (if Py.truthy ?p then _ else _) = Ok _ |- _ =>
      destruct (Py.truthy p);
      [destruct (call_rstrip p) as [stripped|e]; [cbn in E | discriminate E]|];
      injection E as <-
  end;
    repeat match goal with E : call_rstrip _ = _ |- _ => clear E end;
    unfold Board_format, Service_format; split;
    repeat (apply Forall_cons; [eexists; lazy; reflexivity|]);
    apply Forall_nil.
Qed.

(** X2. [get_board] shapes a cursor row only if the row has at least 67
    columns, its operating characteristics (column 35) are a string and
    its platform (column 7) is a string or counts as false: a shorter row
    stops at a [row.pop(0)], and the two [rstrip] calls need a [str]. *)
Theorem shape_row_needs
        (fromtimestamp : clock_reading) (row : list pyval) (x : pyval) :
  shape_row fromtimestamp row = Ok x ->
  (67 <= List.length row)%nat
  /\ (exists s, nth_error row 35 = Some (VStr s))
  /\ (exists p, nth_error row 7 = Some p
                /\ (Py.truthy p = false \/ exists s, p = VStr s)).
Proof.
  intros H. shape_inversion H.
  do 5 (destruct vals as [|? vals]; [discriminate Hlen|]).
  destruct vals; [clear Hlen | discriminate Hlen].
  repeat match goal with
         | E : Py.getitem (VDict _) _ = Ok _ |- _ =>
             cbn in E; injection E as <-
         end.
  split; [|split].
  - cbn [app List.length]. lia.
  - match goal with
    | E : call_rstrip ?c = Ok _, E' : (if _ then _ else _) = _ |- _ =>
        unfold call_rstrip in E;
        destruct c as [[| s | z | g] | t | d]; try discriminate E;
        exists s; reflexivity
    end.
  - match goal with
    | E : (if Py.truthy ?p then _ else _) = Ok _ |- _ =>
        exists p; split; [reflexivity|];
        destruct (Py.truthy p) eqn:Et; [right | now left];
        destruct p as [[| s | z | g] | t | d]; try discriminate E;
        exists s; reflexivity
    end.
Qed.

Lemma process_time_returns (fromtimestamp : clock_reading) (v : pyval) :
  (Py.truthy v = true -> exists dt, fromtimestamp v = Ok dt) ->
  exists g, process_time fromtimestamp v = Ok g.
Proof.
  intros H. unfold process_time. destruct (Py.truthy v); [|eauto].
  destruct (H eq_refl) as [dt ->]. cbn [bind]. eauto.
Qed.

(** X4. The other way round: a cursor row of 67 columns or more whose
    five time columns convert, whose operating characteristics are a
    string and whose platform is a string or counts as false is shaped,
    whatever the other columns hold; in the shaped row the operating
    characteristics have lost their trailing white space, and so has a
    platform that counts as true, while one that counts as false is kept
    as it came. *)
Theorem shape_row_succeeds
        (fromtimestamp : clock_reading) (row : list pyval)
        (characteristics : string) (platform : pyval) :
  (67 <= List.length row)%nat ->
  (forall i v, (i < 5)%nat -> nth_error row i = Some v ->
               Py.truthy v = true -> exists dt, fromtimestamp v = Ok dt) ->
  nth_error row 35 = Some (VStr characteristics) ->
  nth_error row 7 = Some platform ->
  (Py.truthy platform = false \/ exists s, platform = VStr s) ->
  exists x,
    shape_row fromtimestamp row = Ok x
    /\ field x "service" "operating_characteristics"
       = Ok (VStr (rstrip characteristics))
    /\ Py.getitem x "platform"
       = (if Py.truthy platform then call_rstrip platform else Ok platform).
Proof.
  intros Hlen Htimes Hc Hp Hplatform.
  do 67 (destruct row as [|? row]; [cbn [List.length] in Hlen; lia|]).
  clear Hlen. cbn in Hc, Hp. injection Hc as ->. injection Hp as ->.
  destruct (process_time_returns fromtimestamp p
              (Htimes 0%nat p ltac:(lia) eq_refl)) as [g0 E0].
  destruct (process_time_returns fromtimestamp p0
              (Htimes 1%nat p0 ltac:(lia) eq_refl)) as [g1 E1].
  destruct (process_time_returns fromtimestamp p1
              (Htimes 2%nat p1 ltac:(lia) eq_refl)) as [g2 E2].
  destruct (process_time_returns fromtimestamp p2
              (Htimes 3%nat p2 ltac:(lia) eq_refl)) as [g3 E3].
  destruct (process_time_returns fromtimestamp p3
              (Htimes 4%nat p3 ltac:(lia) eq_refl)) as [g4 E4].
  clear Htimes.
  unfold shape_row, time_tags, plain_tags, movement_tags, service_tags,
    location_tags.
  cbn [pop_times]. rewrite E0, E1, E2, E3, E4. cbn [bind pop_fields].
  cbn [Py.getitem Py.lookup String.eqb Ascii.eqb Bool.eqb call_rstrip VStr
       bind dict_set].
  destruct Hplatform as [Hf | [s ->]].
  - rewrite Hf. cbn [bind]. eexists. split; [reflexivity|].
    split; reflexivity.
  - cbn [call_rstrip VStr]. destruct (Py.truthy _);
      cbn [bind dict_set String.eqb Ascii.eqb Bool.eqb];
      (eexists; split; [reflexivity|]; split; reflexivity).
Qed.

(** *** The table that [renew] caches *)

Lemma collect_all {A B : Type} (f : A -> result B) (l : list A) :
  snd (collect f l) = None ->
  List.length (fst (collect f l)) = List.length l
  /\ Forall (fun y => exists x, In x l /\ f x = Ok y) (fst (collect f l)).
Proof.
  induction l as [|x l IH]; simpl; intros H.
  - split; [reflexivity | constructor].
  - destruct (f x) as [y|e] eqn:Ex; [|discriminate H].
    destruct (collect f l) as [ys e]. simpl in *.
    destruct (IH H) as [Hl Hall]. split; [now rewrite Hl|].
    constructor; [now exists x; split; [left|]|].
    apply (Forall_impl _ (P := fun y => exists x0, In x0 l /\ f x0 = Ok y));
      [|exact Hall].
    intros y' (x' & Hin & Hy). exists x'. now split; [right|].
Qed.

Lemma collect_short {A B : Type} (f : A -> result B) (l : list A) (e : exn) :
  snd (collect f l) = Some e ->
  (List.length (fst (collect f l)) < List.length l)%nat.
Proof.
  induction l as [|x l IH]; simpl; intros H; [discriminate H|].
  destruct (f x) as [y|e']; [|simpl; lia].
  destruct (collect f l) as [ys e'']. simpl in *. specialize (IH H). lia.
Qed.

Lemma for_each_length {A B : Type} (f : A -> result B) (l : list A) :
  forall ys, for_each f l = Ok ys -> List.length ys = List.length l.
Proof.
  induction l as [|x l IH]; simpl; intros ys H.
  - now injection H as <-.
  - destruct (f x) as [y|e]; [|discriminate H]. cbn [bind] in H.
    destruct (for_each f l) as [ys'|e]; [|discriminate H]. cbn [bind] in H.
    injection H as <-. simpl. now rewrite (IH ys').
Qed.

Lemma header_cell_colour (schema : pyval) (column : string) (c : cell) :
  header_cell schema column = Ok c -> snd c = AInt 0.
Proof.
  unfold header_cell. intros H.
  destruct (walk_schema _ _ _) as [[[[[? ?] ?] ?] ?]|?]; [|discriminate H].
  cbn [bind] in H.
  repeat match type of H with
         | bind ?r _ = Ok _ =>
             destruct r; [cbn [bind] in H | discriminate H]
         end.
  now injection H as <-.
Qed.

(** X5. When [renew] returns, the cache is a table: one header cell for
    each path of the format, each in colour pair 0, one line for each row
    of the data, each line with one cell for each path of the format, and
    both dirty flags set. When it raises, the flags are as they were:
    [invalidate] has not been reached. *)
Theorem renew_table (b b' : Buffer) (raised : option exn) :
  renew b = (b', raised) ->
  (raised = None ->
   List.length (col_names b') = List.length (format b)
   /\ Forall (fun c => snd c = AInt 0) (col_names b')
   /\ List.length (lines b') = List.length (Data.data (data b))
   /\ Forall (fun line => List.length line = List.length (format b))
             (lines b')
   /\ headers_outstanding b' = true /\ body_outstanding b' = true)
  /\ (raised <> None ->
      headers_outstanding b' = headers_outstanding b
      /\ body_outstanding b' = body_outstanding b
      /\ (List.length (col_names b') < List.length (format b)
          \/ List.length (lines b') < List.length (Data.data (data b)))%nat).
Proof.
  unfold renew. cbn [data format view_of set_lines set_col_names].
  pose proof (collect_all (header_cell (Data.schema (data b))) (format b))
    as Hnames.
  pose proof (collect_short (header_cell (Data.schema (data b))) (format b))
    as Hfewer.
  pose proof (collect_short
                (body_line (substitute_fn (view_of b))
                           (Data.schema (data b)) (format b))
                (Data.data (data b))) as Hless.
  pose proof (collect_all
                (body_line (substitute_fn (view_of b))
                           (Data.schema (data b)) (format b))
                (Data.data (data b))) as Hlines.
  destruct (collect (header_cell _) _) as [names [e|]] eqn:En.
  - intros H. injection H as <- <-. split; [discriminate|]. intros _.
    cbn. split; [reflexivity|]. split; [reflexivity|]. left.
    exact (Hfewer e eq_refl).
  - destruct (collect (body_line _ _ _) _) as [ls [e|]] eqn:El;
      intros H; injection H as <- <-.
    + split; [discriminate|]. intros _. cbn.
      split; [reflexivity|]. split; [reflexivity|]. right.
      exact (Hless e eq_refl).
    + split; [|congruence]. intros _. cbn.
      destruct (Hnames eq_refl) as [Hn Hc].
      destruct (Hlines eq_refl) as [Hl Hr]. cbn in *.
      split; [exact Hn|]. split.
      { apply (Forall_impl _ (P := fun y => exists x, In x (format b)
                                 /\ header_cell (Data.schema (data b)) x
                                    = Ok y)); [|exact Hc].
        intros c (x & _ & Hx). exact (header_cell_colour _ _ _ Hx). }
      split; [exact Hl|]. split; [|now split].
      apply (Forall_impl _ (P := fun y => exists x,
                                 In x (Data.data (data b))
                                 /\ body_line (substitute_fn (view_of b))
                                      (Data.schema (data b)) (format b) x
                                    = Ok y)); [|exact Hr].
      intros line (x & _ & Hx). exact (for_each_length _ _ _ Hx).
Qed.

(** X6. [renew] reads the view, the data and the format and writes the
    cache and the flags, nothing else: a second [renew] straight after
    the first ends the same way and leaves the same buffer, whether the
    first returned or raised. *)
Theorem renew_again (b : Buffer) :
  renew (fst (renew b)) = renew b.
Proof.
  unfold renew. cbn [data format view_of set_lines set_col_names].
  destruct (collect (header_cell (Data.schema (data b))) (format b))
    as [names [e|]] eqn:En.
  - cbn [fst data format view_of set_lines set_col_names]. rewrite En.
    reflexivity.
  - destruct (collect (body_line (substitute_fn (view_of b))
                                 (Data.schema (data b)) (format b))
                      (Data.data (data b))) as [ls [e|]] eqn:El;
      cbn [fst data format view_of set_lines set_col_names invalidate
           set_outstanding];
      rewrite En, El; reflexivity.
Qed.

Lemma index_within (v : pyval) (n : Z) (i : nat) (a : atom) :
  Py.index v 0 = Ok a -> Py.len v = Ok n -> Z.of_nat i < n ->
  exists a', Py.index v i = Ok a'.
Proof.
  destruct v as [[| s | z | f] | t | d]; simpl; try discriminate.
  - intros _ Hn Hi. injection Hn as <-. unfold PyStr.len in Hi.
    assert (Hlt : (i < String.length s)%nat) by lia. clear Hi.
    revert i Hlt. induction s as [|c s IH]; intros i Hlt; simpl in *;
      [lia|].
    destruct i as [|i]; [eauto|]. apply IH. lia.
  - intros _ Hn Hi. injection Hn as <-.
    destruct (nth_error t i) as [a'|] eqn:E; [eauto|].
    apply nth_error_None in E. lia.
Qed.

(** X7. A header cell that [renew] caches is the column's resolved name,
    cut to the resolved width and centred in it, in colour pair 0: the
    name is a string and the width an integer, and when the width is not
    negative the header is exactly that many characters long. *)
Theorem header_cell_width (schema : pyval) (column : string) (c : cell) :
  header_cell schema column = Ok c ->
  exists (name : string) (w : Z) (justify color : atom),
    resolve schema column = Ok (AStr name, AInt w, justify, color)
    /\ c = (PyStr.center (PyStr.slice_to name w) w, AInt 0)
    /\ (0 <= w -> PyStr.len (fst c) = w).
Proof.
  unfold header_cell, resolve, leaf_attrs. intros H.
  destruct (walk_schema _ _ _) as [[[[[iname ipad] ijustify] icolor] reached]|?];
    [|discriminate H].
  cbn [bind] in H |- *.
  destruct (Py.index reached 0) as [name|?] eqn:E0; [|discriminate H].
  cbn [bind] in H |- *.
  destruct (Py.index reached 1) as [pad|?] eqn:E1; [|discriminate H].
  cbn [bind] in H |- *.
  destruct (Py.len reached) as [n|?] eqn:En; [|discriminate H].
  cbn [bind] in H |- *.
  destruct (if 4 <=? n then Py.index reached 3 else Ok (AInt 0))
    as [cs|?] eqn:E3; [|discriminate H].
  cbn [bind] in H.
  assert (E2 : exists jf, (if 3 <=? n then Py.index reached 2 else Ok ANone)
                          = Ok jf).
  { destruct (Z.leb_spec 3 n); [|eauto].
    apply (index_within reached n 2 name E0 En). simpl. lia. }
  destruct E2 as [jf ->]. cbn [bind].
  unfold header_text in H.
  destruct (Py.atom_or name iname) as [| s | z | f] eqn:Ename;
    destruct (Py.atom_or pad ipad) as [| s' | p | f'] eqn:Epad;
    try discriminate H.
  cbn [bind] in H. injection H as <-.
  exists s, p, (Py.atom_or jf ijustify),
    (Py.atom_or (Py.atom_or cs icolor) (AInt 0)).
  split; [reflexivity|]. split; [reflexivity|].
  intros Hp. cbn [fst]. rewrite len_center.
  pose proof (len_nonneg s) as Hs.
  unfold PyStr.slice_to, PyStr.clamp_index.
  destruct (Z.ltb_spec p 0); [lia|].
  unfold PyStr.len at 1. rewrite length_take. fold (PyStr.len s).
  unfold PyStr.len in *. lia.
Qed.

(** *** The hooks of the two live views *)

Lemma walk_top_level (schema x value : pyval) (key : string) (leaf : pyval) :
  inherit nothing_inherited schema = Ok nothing_inherited ->
  Py.getitem x key = Ok value ->
  Py.getitem schema key = Ok leaf ->
  walk_row [key] nothing_inherited x schema
  = Ok (nothing_inherited, value, leaf).
Proof.
  intros Hi Hx Hs. cbn [walk_row]. rewrite Hi. cbn [bind].
  rewrite Hx. cbn [bind]. rewrite Hs. reflexivity.
Qed.

Lemma live_platform_hook (v : view) (x d a : pyval) (z : string * atom) :
  v <> TextView ->
  field x "trust_departure" "platform" = Ok d ->
  field x "trust_arrival" "platform" = Ok a ->
  Py.truthy d || Py.truthy a = true ->
  substitute_fn v x "platform" z
  = Ok (if Py.truthy d then d else a, AInt COLOR_LIVE_DATA).
Proof.
  intros Hv Hd Ha Hlive.
  assert (Hhas : has_live_platform x = Ok true).
  { unfold has_live_platform. rewrite Ha. cbn [bind].
    destruct (Py.truthy a); [reflexivity|]. rewrite Hd. cbn [bind].
    now rewrite orb_false_r in Hlive; rewrite Hlive. }
  assert (Hcell : live_platform_cell x
                  = Ok (if Py.truthy d then d else a, AInt COLOR_LIVE_DATA)).
  { unfold live_platform_cell. rewrite Hd. cbn [bind].
    destruct (Py.truthy d); [reflexivity|]. now rewrite Ha. }
  destruct v as [| dt dur loc | date code]; [contradiction| |].
  - unfold substitute_fn, Board_substitute_fn.
    change (same_place x "platform" "origin") with (@Ok bool false).
    change (same_place x "platform" "destination") with (@Ok bool false).
    cbn [bind].
    change ("platform" =? "service/current_variation")%string with false.
    change ("platform" =? "service/signalling_id")%string with false.
    change ("platform" =? "platform")%string with true.
    cbv iota. cbn [bind]. rewrite Hhas. cbn [bind]. exact Hcell.
  - unfold substitute_fn, Service_substitute_fn.
    change ("platform" =? "service/current_variation")%string with false.
    change ("platform" =? "platform")%string with true.
    cbv iota. cbn [bind]. rewrite Hhas. cbn [bind]. exact Hcell.
Qed.

(** X8. In both live views, a row with a live platform on either movement
    shows it in the platform column, the departure's before the arrival's,
    justified by [platform_justify] and in colour pair 3, the colour of
    live data. That holds only for a row that has a booked platform: when
    the row's own platform is [None], the renderer blanks the text after
    the hook has answered, so the cell is three spaces in the live colour
    and the live platform is not shown. *)
Theorem live_platform_display
        (v : view) (schema x booked d a : pyval) :
  v <> TextView ->
  schema = Board_schema \/ schema = Service_schema ->
  Py.getitem x "platform" = Ok booked ->
  field x "trust_departure" "platform" = Ok d ->
  field x "trust_arrival" "platform" = Ok a ->
  Py.truthy d || Py.truthy a = true ->
  body_cell (substitute_fn v) schema x "platform"
  = (text <- platform_justify
               (if Py.eqb booked VNone then VStr ""
                else if Py.truthy d then d else a) (AInt 3) ;;
     Ok (text, AInt COLOR_LIVE_DATA))
  /\ (booked = VNone ->
      body_cell (substitute_fn v) schema x "platform"
      = Ok ("   ", AInt COLOR_LIVE_DATA)).
Proof.
  intros Hv Hschema Hb Hd Ha Hlive.
  assert (Hcell : body_cell (substitute_fn v) schema x "platform"
                  = (text <- platform_justify
                               (if Py.eqb booked VNone then VStr ""
                                else if Py.truthy d then d else a) (AInt 3) ;;
                     Ok (text, AInt COLOR_LIVE_DATA))).
  { unfold body_cell, cell_before_justify.
    change (PyStr.split "/" "platform") with ["platform"].
    rewrite (walk_top_level schema x booked "platform" platform_leaf);
      [| destruct Hschema as [-> | ->]; reflexivity
       | exact Hb
       | destruct Hschema as [-> | ->]; reflexivity].
    cbn [bind].
    change (leaf_attrs nothing_inherited platform_leaf)
      with (Ok (AInt 3, AFun platform_justify_fn, AInt 0)).
    cbn [bind]. rewrite (live_platform_hook v x d a _ Hv Hd Ha Hlive).
    cbn [bind Py.atom_or Py.atom_truthy call_justify].
    destruct (Py.eqb booked VNone);
      destruct (platform_justify _ (AInt 3)); reflexivity. }
  split; [exact Hcell|].
  intros ->. rewrite Hcell. reflexivity.
Qed.

(** X9. The hooks leave the text of the other columns alone. The service
    view's hook hands back what it was given for every column but
    "service/current_variation" and "platform", and never raises there.
    The board view's hook, for every column but those two and
    "service/signalling_id", keeps the text whenever it returns, and the
    colour it gives is the one it was handed, pair 5 or pair 7; the base
    class hook hands back every column as it came. *)
Theorem hooks_keep_other_columns (x : pyval) (y : string) (z : string * atom) :
  Buffer_substitute_fn x y z = Ok (VStr (fst z), snd z)
  /\ (y <> "service/current_variation" -> y <> "platform" ->
      Service_substitute_fn x y z = Ok (VStr (fst z), snd z))
  /\ (y <> "service/current_variation" -> y <> "platform" ->
      y <> "service/signalling_id" ->
      forall text colour,
        Board_substitute_fn x y z = Ok (text, colour) ->
        text = VStr (fst z)
        /\ (colour = snd z \/ colour = AInt COLOR_DEEMPHASIS
            \/ colour = AInt COLOR_EMPHASIS)).
Proof.
  split; [reflexivity|]. split.
  - intros Hv Hp. apply String.eqb_neq in Hv, Hp.
    unfold Service_substitute_fn. rewrite Hv, Hp. reflexivity.
  - intros Hv Hp Hs text colour. apply String.eqb_neq in Hv, Hp, Hs.
    unfold Board_substitute_fn. rewrite Hv, Hp, Hs.
    destruct (same_place x y "origin") as [[|]|e]; cbn [bind];
      try discriminate; [intros H; injection H as <- <-; tauto|].
    destruct (same_place x y "destination") as [[|]|e]; cbn [bind];
      try discriminate; [intros H; injection H as <- <-; tauto|].
    destruct (if (y =? "service/operating_characteristics")%string
              then _ else _) as [[|]|e]; cbn [bind]; try discriminate;
      intros H; injection H as <- <-; tauto.
Qed.

Lemma walk_service_field (schema x estimate : pyval) (key : string)
      (leaf : pyval) :
  schema = Board_schema \/ schema = Service_schema ->
  field x "service" key = Ok estimate ->
  Py.getitem service_schema key = Ok leaf ->
  walk_row ["service"; key] nothing_inherited x schema
  = Ok (nothing_inherited, estimate, leaf).
Proof.
  intros Hschema He Hl. unfold field in He.
  destruct (Py.getitem x "service") as [service|e] eqn:Es; [|discriminate].
  cbn [bind] in He.
  destruct Hschema as [-> | ->]; cbn [walk_row];
    (change (inherit nothing_inherited Board_schema)
       with (Ok nothing_inherited)
     || change (inherit nothing_inherited Service_schema)
          with (Ok nothing_inherited));
    cbn [bind]; rewrite Es; cbn [bind];
    (change (Py.getitem Board_schema "service") with (Ok service_schema)
     || change (Py.getitem Service_schema "service")
          with (Ok service_schema));
    cbn [bind];
    change (inherit nothing_inherited service_schema)
      with (Ok nothing_inherited);
    cbn [bind]; rewrite He; cbn [bind]; rewrite Hl; reflexivity.
Qed.

(** X10. Before the row has any actual time, the two live views differ on
    the "current variation" column: the service view shows nothing, three
    spaces in colour pair 0, while the board view shows the service's own
    estimate, right-justified to width 3 in the colour of live data, or
    three spaces when the estimate is [None]. *)
Theorem variation_before_running (schema x estimate : pyval) :
  schema = Board_schema \/ schema = Service_schema ->
  has_actual_time x = Ok false ->
  field x "service" "current_variation" = Ok estimate ->
  body_cell Service_substitute_fn schema x "service/current_variation"
  = Ok ("   ", AInt 0)
  /\ body_cell Board_substitute_fn schema x "service/current_variation"
     = Ok (PyStr.rjust (if Py.eqb estimate VNone then ""
                        else py_str estimate) 3,
           AInt COLOR_LIVE_DATA).
Proof.
  intros Hschema Ht He.
  unfold body_cell, cell_before_justify.
  change (PyStr.split "/" "service/current_variation")
    with ["service"; "current_variation"].
  rewrite (walk_service_field schema x estimate "current_variation"
             (leaf [AStr "v."; AInt 3; AFun str_rjust; AInt 3])
             Hschema He eq_refl).
  cbn [bind].
  change (leaf_attrs nothing_inherited
            (leaf [AStr "v."; AInt 3; AFun str_rjust; AInt 3]))
    with (Ok (AInt 3, AFun str_rjust, AInt 3)).
  cbn [bind]. split.
  - unfold Service_substitute_fn.
    change ("service/current_variation"
            =? "service/current_variation")%string with true.
    cbv iota. rewrite Ht. cbn [bind].
    destruct (Py.eqb estimate VNone); reflexivity.
  - unfold Board_substitute_fn.
    change (same_place x "service/current_variation" "origin")
      with (@Ok bool false).
    change (same_place x "service/current_variation" "destination")
      with (@Ok bool false).
    cbn [bind].
    change ("service/current_variation"
            =? "service/current_variation")%string with true.
    cbv iota. rewrite Ht. cbn [bind].
    change ("service/current_variation"
            =? "service/signalling_id")%string with false.
    change ("service/current_variation" =? "platform")%string with false.
    change ("service/current_variation"
            =? "service/operating_characteristics")%string with false.
    cbv iota. cbn [bind fst snd].
    destruct (Py.eqb estimate VNone); reflexivity.
Qed.

Lemma collect_raises {A B : Type} (f : A -> result B) (l : list A)
      (x : A) (e : exn) :
  In x l -> f x = Raise e -> exists e', snd (collect f l) = Some e'.
Proof.
  induction l as [|a l IH]; intros Hin Hx; [contradiction|]. simpl.
  destruct (f a) as [y|e'] eqn:Ea; [|simpl; eauto].
  destruct Hin as [-> | Hin]; [congruence|].
  destruct (IH Hin Hx) as [e' He'].
  destruct (collect f l) as [ys r]. simpl in *. eauto.
Qed.

Lemma for_each_raises {A B : Type} (f : A -> result B) (l : list A)
      (x : A) (e : exn) :
  In x l -> f x = Raise e -> exists e', for_each f l = Raise e'.
Proof.
  induction l as [|a l IH]; intros Hin Hx; [contradiction|]. simpl.
  destruct (f a) as [y|e'] eqn:Ea; [|simpl; eauto]. cbn [bind].
  destruct Hin as [-> | Hin]; [congruence|].
  destruct (IH Hin Hx) as [e' ->]. cbn [bind]. eauto.
Qed.

(** X11. A row that has an actual time but no variation status that is a
    string, on the departure movement (where it counts as false) nor on
    the arrival movement, stops the rebuild: the hook of either live view
    raises [TypeError] at [... in "EL"] for the "current variation"
    column, so does the cell, and [renew] of a live view that shows the
    column and holds such a row raises. *)
Theorem missing_status_raises
        (b : Buffer) (x departure arrival : pyval)
        (departure_status arrival_status estimate : pyval) :
  view_of b <> TextView ->
  Data.schema (data b) = Board_schema
  \/ Data.schema (data b) = Service_schema ->
  has_actual_time x = Ok true ->
  Py.getitem x "trust_departure" = Ok departure ->
  Py.getitem x "trust_arrival" = Ok arrival ->
  Py.getitem departure "variation_status" = Ok departure_status ->
  Py.getitem arrival "variation_status" = Ok arrival_status ->
  Py.truthy departure_status = false ->
  (forall s, arrival_status <> VStr s) ->
  field x "service" "current_variation" = Ok estimate ->
  (forall z, substitute_fn (view_of b) x "service/current_variation" z
             = Raise TypeError)
  /\ body_cell (substitute_fn (view_of b)) (Data.schema (data b)) x
               "service/current_variation" = Raise TypeError
  /\ (In x (Data.data (data b)) ->
      In "service/current_variation" (format b) ->
      exists e, snd (renew b) = Some e).
Proof.
  intros Hv Hschema Ht Hd Ha Hds Has Hfalse Hnot He.
  assert (Hcell : variation_cell x = Raise TypeError).
  { unfold variation_cell. rewrite Hd. cbn [bind]. rewrite Hds. cbn [bind].
    rewrite Hfalse. cbn [negb bind]. rewrite Ha. cbn [bind].
    rewrite Has. cbn [bind].
    destruct arrival_status as [[| s | z | f] | t | d]; try reflexivity.
    now elim (Hnot s). }
  assert (Hhook : forall z,
             substitute_fn (view_of b) x "service/current_variation" z
             = Raise TypeError).
  { intros z. destruct (view_of b) as [| dt dur loc | date code];
      [contradiction| |].
    - unfold substitute_fn, Board_substitute_fn.
      change (same_place x "service/current_variation" "origin")
        with (@Ok bool false).
      change (same_place x "service/current_variation" "destination")
        with (@Ok bool false).
      cbn [bind]. change ("service/current_variation"
                          =? "service/current_variation")%string with true.
      cbv iota. rewrite Ht. cbn [bind]. exact Hcell.
    - unfold substitute_fn, Service_substitute_fn.
      change ("service/current_variation"
              =? "service/current_variation")%string with true.
      cbv iota. rewrite Ht. cbn [bind]. exact Hcell. }
  assert (Hbody : body_cell (substitute_fn (view_of b))
                            (Data.schema (data b)) x
                            "service/current_variation" = Raise TypeError).
  { unfold body_cell, cell_before_justify.
    change (PyStr.split "/" "service/current_variation")
      with ["service"; "current_variation"].
    rewrite (walk_service_field (Data.schema (data b)) x estimate
               "current_variation"
               (leaf [AStr "v."; AInt 3; AFun str_rjust; AInt 3])
               Hschema He eq_refl).
    cbn [bind].
    change (leaf_attrs nothing_inherited
              (leaf [AStr "v."; AInt 3; AFun str_rjust; AInt 3]))
      with (Ok (AInt 3, AFun str_rjust, AInt 3)).
    cbn [bind]. rewrite Hhook. reflexivity. }
  split; [exact Hhook|]. split; [exact Hbody|].
  intros Hrow Hcol.
  destruct (for_each_raises _ _ _ _ Hcol Hbody) as [e Hline].
  fold (body_line (substitute_fn (view_of b)) (Data.schema (data b))
                  (format b) x) in Hline.
  destruct (collect_raises _ _ _ _ Hrow Hline) as [e' Hlines].
  unfold renew. cbn [data format view_of set_lines set_col_names].
  destruct (collect (header_cell _) _) as [names [e0|]]; [simpl; eauto|].
  destruct (collect (body_line _ _ _) _) as [ls [e1|]]; [simpl; eauto|].
  discriminate Hlines.
Qed.

(** *** Scrolling and the timed refresh, further *)

(** X12. Scrolling the same way twice is scrolling once by the sum, for
    amounts that are not negative; and a scroll down followed by a scroll
    up by the same amount comes back to the offset it started from when
    the way down did not go past the end of the rows, and to a row above
    it when it did and the start was not the top. *)
Theorem scroll_composition (b : Buffer) (m n : Z) :
  0 <= m -> 0 <= n ->
  let total := Z.of_nat (List.length (lines b)) in
  scroll_down m (scroll_down n b) = scroll_down (n + m) b
  /\ scroll_up m (scroll_up n b) = scroll_up (n + m) b
  /\ (0 <= line_offset b -> line_offset b + n <= total ->
      line_offset (scroll_up n (scroll_down n b)) = line_offset b)
  /\ (0 < line_offset b -> total < line_offset b + n ->
      line_offset (scroll_up n (scroll_down n b)) = Z.max (total - n) 0
      /\ Z.max (total - n) 0 < line_offset b).
Proof.
  intros Hm Hn total.
  unfold scroll_down, scroll_up, invalidate, set_outstanding, set_line_offset.
  cbn [line_offset lines view_of data format title col_names last_refreshed
       headers_outstanding body_outstanding].
  fold total. split; [|split; [|split]].
  - f_equal. lia.
  - f_equal. lia.
  - intros Ho Hfit. lia.
  - intros Ho Hpast. lia.
Qed.

(** X13. [consider_refresh] looks at the seconds field of the time gone
    by, which leaves whole days out: a clock that is any number of days
    further on, or back, gives the same decision, so a stamp that is a
    day and ten seconds old is not refreshed; and a clock that has been
    set back by less than a day, to before the stamp, gives a refresh as
    soon as it is at most 86369 seconds behind. *)
Theorem refresh_by_time_of_day
        (t_test t_stamp : datetime) (db : Provider) (b : Buffer) (days : Z) :
  consider_refresh (t_test + days * Time.MICROS_PER_DAY) t_stamp db b
  = consider_refresh t_test t_stamp db b
  /\ (Time.MICROS_PER_DAY <= t_test - last_refreshed b
      <= Time.MICROS_PER_DAY + 30 * Time.MICROS_PER_SECOND ->
      consider_refresh t_test t_stamp db b = (b, None))
  /\ (- 86369 * Time.MICROS_PER_SECOND <= t_test - last_refreshed b < 0 ->
      consider_refresh t_test t_stamp db b
      = refresh db (set_last_refreshed b t_stamp)).
Proof.
  unfold consider_refresh, Time.seconds, Time.MICROS_PER_DAY,
    Time.MICROS_PER_SECOND.
  split; [|split].
  - replace (t_test + days * (86400 * 1000000) - last_refreshed b)
      with (t_test - last_refreshed b + days * (86400 * 1000000)) by lia.
    now rewrite Z.mod_add by lia.
  - intros H.
    replace (t_test - last_refreshed b)
      with (t_test - last_refreshed b - 86400 * 1000000
            + 1 * (86400 * 1000000)) by lia.
    rewrite Z.mod_add, Z.mod_small by lia.
    assert ((t_test - last_refreshed b - 86400 * 1000000) / 1000000 < 31)
      by (apply Z.div_lt_upper_bound; lia).
    destruct (Z.ltb_spec 30
                ((t_test - last_refreshed b - 86400 * 1000000) / 1000000));
      [lia | reflexivity].
  - intros H.
    replace (t_test - last_refreshed b)
      with (t_test - last_refreshed b + 86400 * 1000000
            + (-1) * (86400 * 1000000)) by lia.
    rewrite Z.mod_add, Z.mod_small by lia.
    assert (31 <= (t_test - last_refreshed b + 86400 * 1000000) / 1000000)
      by (apply Z.div_le_lower_bound; lia).
    destruct (Z.ltb_spec 30
                ((t_test - last_refreshed b + 86400 * 1000000) / 1000000));
      [reflexivity | lia].
Qed.

(** *** Drawing *)

Lemma addstr_texts_app (xs ys : list draw) :
  addstr_texts (xs ++ ys) = (addstr_texts xs ++ addstr_texts ys)%list.
Proof. unfold addstr_texts. apply flat_map_app. Qed.

Lemma addstr_columns_app (xs ys : list draw) :
  addstr_columns (xs ++ ys) = (addstr_columns xs ++ addstr_columns ys)%list.
Proof. unfold addstr_columns. apply flat_map_app. Qed.

Lemma render_cells_texts (w : window) (i : Z) (row : list cell) :
  forall (x y : Z) (text : string),
    In (y, text) (addstr_texts (fst (render_cells w i x row))) ->
    y = i /\ exists c, In c row /\ fst c = text.
Proof.
  induction row as [|[column attr] row IH]; intros x y text H;
    [contradiction|].
  cbn [render_cells] in H.
  set (bullet := if negb (x =? 0) && negb (i mod 2 =? 0)
                 then [hline w i (x - 1) ACS_BULLET 1] else []) in H.
  assert (Hb : addstr_texts bullet = []).
  { subst bullet. now destruct (negb _ && negb _). }
  destruct attr as [| s | n | f];
    try (cbn [fst] in H; rewrite Hb in H; contradiction).
  destruct (render_cells w i (x + PyStr.len column + 1) row)
    as [calls raised] eqn:E.
  cbn [fst] in H. rewrite addstr_texts_app, Hb in H.
  cbn [app addstr_texts flat_map] in H.
  destruct H as [H | H].
  - injection H as <- <-. split; [reflexivity|].
    exists (column, AInt n). split; [now left | reflexivity].
  - specialize (IH (x + PyStr.len column + 1) y text).
    rewrite E in IH. destruct (IH H) as [Hy (c & Hin & Hc)].
    split; [exact Hy|]. exists c. split; [now right | exact Hc].
Qed.

Lemma render_rows_texts (w : window) (rows : list (list cell)) :
  forall (i y : Z) (text : string),
    In (y, text) (addstr_texts (fst (render_rows w i rows))) ->
    exists (k : nat) (line : list cell) (c : cell),
      y = i + Z.of_nat k /\ nth_error rows k = Some line
      /\ In c line /\ fst c = text.
Proof.
  induction rows as [|row rows IH]; intros i y text H; [contradiction|].
  cbn [render_rows] in H.
  pose proof (render_cells_texts w i row 0 y text) as Hrow.
  destruct (render_cells w i 0 row) as [calls [e|]].
  - destruct (Hrow H) as [-> (c & Hin & Hc)].
    exists 0%nat, row, c. repeat split; [lia | exact Hin | exact Hc].
  - specialize (IH (i + 1) y text).
    destruct (render_rows w (i + 1) rows) as [more raised].
    cbn [fst] in *. rewrite addstr_texts_app in H.
    apply in_app_or in H. destruct H as [H | H].
    + destruct (Hrow H) as [-> (c & Hin & Hc)].
      exists 0%nat, row, c. repeat split; [lia | exact Hin | exact Hc].
    + destruct (IH H) as (k & line & c & -> & Hk & Hin & Hc).
      exists (S k), line, c. repeat split; [lia | exact Hk | exact Hin
                                            | exact Hc].
Qed.

Lemma render_cells_all (w : window) (i : Z) (row : list cell) :
  forall (x : Z) (calls : list draw) (c : cell),
    render_cells w i x row = (calls, None) ->
    In c row -> In (i, fst c) (addstr_texts calls).
Proof.
  induction row as [|[column attr] row IH]; intros x calls c H Hin;
    [contradiction|].
  cbn [render_cells] in H.
  destruct attr as [| s | n | f]; try discriminate H.
  destruct (render_cells w i (x + PyStr.len column + 1) row)
    as [more raised] eqn:E.
  injection H as <- ->. rewrite addstr_texts_app. apply in_or_app. right.
  cbn [addstr_texts flat_map app]. destruct Hin as [<- | Hin].
  - now left.
  - right. exact (IH _ _ _ E Hin).
Qed.

Lemma render_rows_all (w : window) (rows : list (list cell)) :
  forall (i : Z) (calls : list draw) (k : nat) (line : list cell) (c : cell),
    render_rows w i rows = (calls, None) ->
    nth_error rows k = Some line -> In c line ->
    In (i + Z.of_nat k, fst c) (addstr_texts calls).
Proof.
  induction rows as [|row rows IH]; intros i calls k line c H Hk Hin.
  - destruct k; discriminate Hk.
  - cbn [render_rows] in H.
    destruct (render_cells w i 0 row) as [first [e|]] eqn:Er;
      [discriminate H|].
    destruct (render_rows w (i + 1) rows) as [more raised] eqn:Em.
    injection H as <- ->. rewrite addstr_texts_app. apply in_or_app.
    destruct k as [|k]; cbn [nth_error] in Hk.
    + injection Hk as ->. left.
      replace (i + Z.of_nat 0) with i by lia.
      exact (render_cells_all _ _ _ _ _ _ Er Hin).
    + right. replace (i + Z.of_nat (S k)) with (i + 1 + Z.of_nat k) by lia.
      exact (IH _ _ _ _ _ Em Hk Hin).
Qed.

Lemma nth_error_slice {A : Type} (l : list A) (o d : Z) (k : nat) :
  0 <= o -> 0 <= d ->
  nth_error (slice_list l o (o + d)) k
  = if Z.of_nat k <? d then nth_error l (Z.to_nat o + k) else None.
Proof.
  intros Ho Hd. unfold slice_list, PyStr.clamp_index.
  destruct (Z.ltb_spec o 0); [lia|].
  destruct (Z.ltb_spec (o + d) 0); [lia|].
  set (n := Z.of_nat (List.length l)).
  destruct (Z.ltb_spec (Z.of_nat k) d) as [Hk | Hk].
  - destruct (Nat.lt_ge_cases k (Z.to_nat (Z.min (o + d) n)
                                 - Z.to_nat (Z.min o n))) as [Hin | Hout].
    + rewrite nth_error_firstn by lia.
      destruct (Nat.ltb_spec k (Z.to_nat (Z.min (o + d) n) - Z.to_nat (Z.min o n)));
        [|lia].
      rewrite nth_error_skipn. f_equal. lia.
    + rewrite (proj2 (nth_error_None _ _)).
      * symmetry. apply nth_error_None. subst n. lia.
      * rewrite length_firstn, length_skipn. lia.
  - apply nth_error_None. rewrite length_firstn, length_skipn. subst n. lia.
Qed.
(** X14. [render] draws the page that starts at the scroll offset and
    nothing else: with an offset and a height that are not negative, a
    text goes to row [y] of the window only if [0 <= y < dim_lines] and
    it is the text of a cell of line [line_offset + y], also when the
    method raises on the way; and when the method returns, every cell of
    every such line has been drawn on its row. *)
Theorem render_page
        (w : window) (dim_lines dim_cols : Z) (b b' : Buffer)
        (calls : list draw) (raised : option exn) :
  0 <= line_offset b -> 0 <= dim_lines ->
  render w dim_lines dim_cols b = (calls, b', raised) ->
  (forall y text,
      In (y, text) (addstr_texts calls) ->
      0 <= y < dim_lines
      /\ exists line c,
           nth_error (lines b) (Z.to_nat (line_offset b + y)) = Some line
           /\ In c line /\ fst c = text)
  /\ (raised = None ->
      forall y line c,
        0 <= y < dim_lines ->
        nth_error (lines b) (Z.to_nat (line_offset b + y)) = Some line ->
        In c line ->
        In (y, fst c) (addstr_texts calls)).
Proof.
  intros Ho Hd H. unfold render in H.
  pose proof (render_rows_texts w
                (slice_list (lines b) (line_offset b)
                            (line_offset b + dim_lines)) 0) as Hsound.
  pose proof (render_rows_all w
                (slice_list (lines b) (line_offset b)
                            (line_offset b + dim_lines)) 0) as Hall.
  destruct (render_rows w 0 _) as [drawn r] eqn:E.
  assert (Htexts : addstr_texts calls = addstr_texts drawn).
  { destruct r as [e|]; injection H as <- _ _; [reflexivity|].
    rewrite addstr_texts_app.
    destruct (body_outstanding b); cbn; now rewrite app_nil_r. }
  rewrite Htexts. cbn [fst] in Hsound. split.
  - intros y text Hin.
    destruct (Hsound y text Hin) as (k & line & c & -> & Hk & Hc & Ht).
    rewrite nth_error_slice in Hk by assumption.
    destruct (Z.ltb_spec (Z.of_nat k) dim_lines); [|discriminate Hk].
    split; [lia|]. exists line, c.
    replace (Z.to_nat (line_offset b + (0 + Z.of_nat k)))
      with (Z.to_nat (line_offset b) + k)%nat by lia.
    now repeat split.
  - intros -> y line c Hy Hline Hc.
    destruct r as [e|]; [discriminate H|].
    replace y with (0 + Z.of_nat (Z.to_nat y)) by lia.
    apply (Hall drawn (Z.to_nat y) line c eq_refl); [|exact Hc].
    rewrite nth_error_slice by assumption.
    destruct (Z.ltb_spec (Z.of_nat (Z.to_nat y)) dim_lines); [|lia].
    rewrite <- Hline. f_equal. lia.
Qed.

Lemma render_cells_columns (w : window) (i : Z) (row : list cell) :
  forall (x : Z) (calls : list draw),
    render_cells w i x row = (calls, None) ->
    addstr_columns calls
    = column_starts x (map (fun c => PyStr.len (fst c)) row).
Proof.
  induction row as [|[column attr] row IH]; intros x calls H.
  - now injection H as <-.
  - cbn [render_cells] in H.
    destruct attr as [| s | n | f]; try discriminate H.
    destruct (render_cells w i (x + PyStr.len column + 1) row)
      as [more raised] eqn:E.
    injection H as <- ->. rewrite addstr_columns_app.
    cbn [map fst column_starts]. rewrite <- (IH _ _ E).
    now destruct (negb _ && negb _).
Qed.

Lemma render_header_cells_columns (w : window) (cells : list cell) :
  forall (x : Z) (calls : list draw),
    render_header_cells w x cells = (calls, None) ->
    addstr_columns calls
    = column_starts x (map (fun c => PyStr.len (fst c)) cells).
Proof.
  induction cells as [|[column attr] cells IH]; intros x calls H.
  - now injection H as <-.
  - cbn [render_header_cells] in H.
    destruct attr as [| s | n | f]; try discriminate H.
    destruct (render_header_cells w (x + PyStr.len column + 1) cells)
      as [more raised] eqn:E.
    injection H as <- ->. rewrite addstr_columns_app.
    cbn [map fst column_starts]. rewrite <- (IH _ _ E).
    now destruct (negb _).
Qed.

(** X15. Headers and cells line up by their lengths alone. Both methods
    start a row at column 0 and put each text one column after the end of
    the one before, so the texts of a line start at the same columns as
    the header cells whenever each cell is as long as its header; the
    columns are then those of [column_starts]. *)
Theorem columns_line_up
        (header_window body_window : window) (i : Z)
        (headers line : list cell) (header_calls line_calls : list draw) :
  render_header_cells header_window 0 headers = (header_calls, None) ->
  render_cells body_window i 0 line = (line_calls, None) ->
  map (fun c => PyStr.len (fst c)) line
  = map (fun c => PyStr.len (fst c)) headers ->
  addstr_columns line_calls = addstr_columns header_calls
  /\ addstr_columns header_calls
     = column_starts 0 (map (fun c => PyStr.len (fst c)) headers).
Proof.
  intros Hh Hl Hsame.
  rewrite (render_header_cells_columns _ _ _ _ Hh).
  rewrite (render_cells_columns _ _ _ _ _ Hl), Hsame. now split.
Qed.

Lemma slice_past_the_end {A : Type} (l : list A) (d : Z) :
  0 <= d ->
  slice_list l (Z.of_nat (List.length l)) (Z.of_nat (List.length l) + d) = [].
Proof.
  intros Hd. unfold slice_list, PyStr.clamp_index.
  destruct (Z.ltb_spec (Z.of_nat (List.length l)) 0); [lia|].
  destruct (Z.ltb_spec (Z.of_nat (List.length l) + d) 0); [lia|].
  replace (Z.to_nat (Z.min (Z.of_nat (List.length l) + d)
                           (Z.of_nat (List.length l)))
           - Z.to_nat (Z.min (Z.of_nat (List.length l))
                             (Z.of_nat (List.length l))))%nat
    with 0%nat by lia.
  reflexivity.
Qed.

(** X16. [scroll_down] stops at the number of rows, not at the last row:
    from an offset within the rows, a scroll down by what is left or more
    puts the offset one past the last row. The page is then empty, so
    [render] only refreshes the window, and the summary reads
    "[N+1..N/N]", its first number one more than its second. *)
Theorem scrolled_past_the_end
        (w : window) (dim_lines dim_cols n : Z) (b : Buffer) :
  let total := Z.of_nat (List.length (lines b)) in
  0 <= dim_lines ->
  0 <= line_offset b <= total ->
  total - line_offset b <= n ->
  let b' := scroll_down n b in
  line_offset b' = total
  /\ render w dim_lines dim_cols b'
     = ([refresh_window w], set_outstanding b' true false, None)
  /\ position_summary dim_lines b'
     = "[" ++ PyStr.of_int (total + 1) ++ ".." ++ PyStr.of_int total ++ "/"
       ++ PyStr.of_int total ++ "]".
Proof.
  intros total Hd Ho Hn b'.
  assert (Hoff : line_offset b' = total).
  { subst b'. unfold scroll_down. cbn. fold total. lia. }
  assert (Hlines : lines b' = lines b) by reflexivity.
  split; [exact Hoff|]. split.
  - unfold render. rewrite Hoff, Hlines. unfold total.
    rewrite slice_past_the_end by exact Hd. reflexivity.
  - unfold position_summary. rewrite Hoff, Hlines. fold total.
    replace (Z.min (total + dim_lines) total) with total by lia.
    reflexivity.
Qed.

(** X17. The two dirty flags make a window refresh happen once. When
    [render_headers] and then [render] return, the buffer is the one that
    [render_pass] gives, both flags down; drawing the same buffer again
    makes the same drawing calls with no [refresh] among them, and leaves
    the buffer as it is, until something invalidates it. *)
Theorem drawn_once
        (dim_lines dim_cols : Z) (title_window cols_window body_window : window)
        (b b1 b2 : Buffer) (header_calls body_calls : list draw) :
  render_headers dim_lines dim_cols title_window cols_window b
  = (header_calls, b1, None) ->
  render body_window dim_lines dim_cols b1 = (body_calls, b2, None) ->
  b2 = render_pass b
  /\ exists heads rows,
       header_calls
       = (heads ++ (if headers_outstanding b
                    then [refresh_window title_window;
                          refresh_window cols_window]
                    else []))%list
       /\ body_calls
          = (rows ++ (if body_outstanding b
                      then [refresh_window body_window] else []))%list
       /\ render_headers dim_lines dim_cols title_window cols_window b2
          = (heads, b2, None)
       /\ render body_window dim_lines dim_cols b2 = (rows, b2, None).
Proof.
  unfold render_headers, render. intros Hh Hb.
  destruct (render_header_cells cols_window 0 (col_names b))
    as [cells [e|]] eqn:Ec; [discriminate Hh|].
  injection Hh as <- <-.
  cbn [lines line_offset body_outstanding headers_outstanding set_outstanding]
    in Hb.
  destruct (render_rows body_window 0 _) as [rows [e|]] eqn:Er;
    [discriminate Hb|].
  injection Hb as <- <-.
  split; [reflexivity|].
  exists (addstr title_window 0 0 (title b) A_BOLD
          :: addstr title_window 0
                    (dim_cols - PyStr.len (position_summary dim_lines b) - 1)
                    (position_summary dim_lines b) A_BOLD
          :: cells), rows.
  split; [reflexivity|].
  split; [reflexivity|].
  cbn [lines line_offset body_outstanding headers_outstanding set_outstanding
       col_names title position_summary].
  unfold position_summary.
  cbn [lines line_offset body_outstanding headers_outstanding set_outstanding
       col_names title].
  rewrite Ec, Er, !app_nil_r. split; reflexivity.
Qed.

(** *** The loop of [main], further *)

Lemma printable_append (s t : string) :
  printable (s ++ t) = printable s && printable t.
Proof.
  unfold printable. induction s as [|c s IH]; [reflexivity|].
  cbn [append list_ascii_of_string forallb]. now rewrite IH, andb_assoc.
Qed.

Lemma printable_take (n : nat) (s : string) :
  printable s = true -> printable (PyStr.take n s) = true.
Proof.
  unfold printable. revert s.
  induction n as [|n IH]; intros [|c s] H; try reflexivity.
  cbn [PyStr.take list_ascii_of_string forallb] in *.
  apply andb_prop in H. destruct H as [Hc Hs]. now rewrite Hc, (IH s Hs).
Qed.

Lemma printable_drop (n : nat) (s : string) :
  printable s = true -> printable (PyStr.drop n s) = true.
Proof.
  unfold printable. revert s.
  induction n as [|n IH]; intros [|c s] H; try reflexivity; try exact H.
  cbn [PyStr.drop list_ascii_of_string forallb] in *.
  apply andb_prop in H. destruct H as [_ Hs]. exact (IH s Hs).
Qed.

Lemma code_chr (key : Z) :
  0 <= key < 256 -> PyStr.code (ascii_of_N (Z.to_N key)) = key.
Proof.
  intros H. unfold PyStr.code. rewrite N_ascii_embedding; lia.
Qed.

Lemma printable_chr (key : Z) : 32 <= key <= 126 -> printable (chr key) = true.
Proof.
  intros H. unfold printable, chr.
  cbn [list_ascii_of_string forallb]. rewrite code_chr by lia.
  unfold PyStr.between.
  destruct (Z.leb_spec 32 key); [|lia].
  destruct (Z.leb_spec key 126); [reflexivity | lia].
Qed.

Lemma printable_insert (s : string) (p key : Z) :
  printable s = true -> 32 <= key <= 126 ->
  printable (PyStr.slice_to s p ++ chr key ++ PyStr.slice_from s p) = true.
Proof.
  intros Hs Hk. unfold PyStr.slice_to, PyStr.slice_from.
  now rewrite !printable_append, printable_take, printable_drop,
    printable_chr.
Qed.

Lemma printable_cut (s : string) (p q : Z) :
  printable s = true ->
  printable (PyStr.slice_to s p ++ PyStr.slice_from s q) = true.
Proof.
  intros Hs. unfold PyStr.slice_to, PyStr.slice_from.
  now rewrite printable_append, printable_take, printable_drop.
Qed.

Lemma submit_ok (t : Tick) (st st' : MainState) (beeped : bool) :
  submit t st = Continue st' beeped ->
  compose st' = "" /\ cursor_pos st' = 0 /\ text_entry_mode st' = false.
Proof.
  unfold submit.
  match goal with
  | |- context [match ?r with Ok _ => _ | Raise _ => _ end] => destruct r
  end; intros H; [|discriminate H].
  injection H as <- _. now repeat split.
Qed.

Lemma entry_key_ok (t : Tick) (st st' : MainState) (beeped : bool) :
  editor_ok st -> text_entry_mode st = true ->
  entry_key t st = Continue st' beeped -> editor_ok st'.
Proof.
  intros (Hp & Hc & Hm) Hmode H. unfold editor_ok.
  split; [|split; [exact (entry_key_cursor t st st' beeped Hc H)|]];
    revert H; unfold entry_key.
  - destruct (k t =? KEY_BACKSPACE).
    { destruct (negb (cursor_pos st =? 0)); intros H; injection H as <- _;
        [apply printable_cut|]; exact Hp. }
    destruct (k t =? KEY_DC).
    { destruct (negb (cursor_pos st =? 0)); intros H; injection H as <- _;
        [apply printable_cut|]; exact Hp. }
    destruct (k t =? KEY_LEFT); [intros H; now injection H as <- _|].
    destruct (k t =? KEY_RIGHT); [intros H; now injection H as <- _|].
    destruct ((k t =? KEY_ENTER) || (k t =? 10)).
    { intros H. now destruct (submit_ok t st st' beeped H) as (-> & _). }
    destruct (Z.leb_spec 32 (k t)) as [Hlo | Hlo]; cbn [andb];
      [|intros H; now injection H as <- _].
    destruct (Z.leb_spec (k t) 126) as [Hhi | Hhi];
      [|intros H; now injection H as <- _].
    destruct (cursor_pos st <? win_cols t - 1); intros H;
      injection H as <- _; [|exact Hp].
    apply printable_insert; [exact Hp | lia].
  - destruct (k t =? KEY_BACKSPACE).
    { destruct (negb (cursor_pos st =? 0)); intros H; injection H as <- _;
        cbn [text_entry_mode]; [discriminate | now rewrite Hmode]. }
    destruct (k t =? KEY_DC).
    { destruct (negb (cursor_pos st =? 0)); intros H; injection H as <- _;
        cbn [text_entry_mode]; [discriminate | now rewrite Hmode]. }
    destruct (k t =? KEY_LEFT); [intros H; now injection H as <- _|].
    destruct (k t =? KEY_RIGHT); [intros H; now injection H as <- _|].
    destruct ((k t =? KEY_ENTER) || (k t =? 10)).
    { intros H. destruct (submit_ok t st st' beeped H) as (-> & -> & _).
      now split. }
    destruct ((32 <=? k t) && (k t <=? 126)).
    { destruct (cursor_pos st <? win_cols t - 1); intros H;
        injection H as <- _; cbn [text_entry_mode];
        [discriminate | now rewrite Hmode]. }
    intros H; injection H as <- _. now rewrite Hmode.
Qed.

Lemma navigation_key_ok (t : Tick) (st st' : MainState) (beeped : bool) :
  editor_ok st -> navigation_key t st = Continue st' beeped -> editor_ok st'.
Proof.
  intros (Hp & Hc & Hm). unfold navigation_key, editor_ok.
  destruct ((k t =? ord "t") || (k t =? ord ":")).
  { intros H; injection H as <- _. cbn [compose cursor_pos text_entry_mode].
    split; [exact Hp|]. split; [exact Hc | discriminate]. }
  destruct (k t =? ord "q"); [discriminate|].
  destruct (k t =? KEY_DOWN);
    [intros H; injection H as <- _; exact (conj Hp (conj Hc Hm))|].
  destruct (k t =? KEY_UP);
    [intros H; injection H as <- _; exact (conj Hp (conj Hc Hm))|].
  intros H; injection H as <- _. exact (conj Hp (conj Hc Hm)).
Qed.

Lemma main_iteration_ok (t : Tick) (st st' : MainState) (beeped : bool) :
  editor_ok st -> main_iteration t st = Continue st' beeped -> editor_ok st'.
Proof.
  intros (Hp & Hc & Hm). unfold main_iteration.
  destruct (consider_refresh _ _ _ _) as [b [e|]]; [discriminate|].
  set (b' := if k t =? KEY_RESIZE then _ else _).
  cbn [text_entry_mode]. destruct (text_entry_mode st) eqn:Emode.
  - apply entry_key_ok; [|reflexivity].
    split; [exact Hp|]. split; [exact Hc | discriminate].
  - apply navigation_key_ok.
    split; [exact Hp|]. split; [exact Hc | intros _; exact (Hm eq_refl)].
Qed.

(** X18. Between two turns of the loop, the compose string is made of
    printable ASCII characters, the cursor is inside it, and outside
    text-entry mode the compose string is empty and the cursor at 0. The
    state that [main] starts in is such a state, and every turn that goes
    on to the next keeps it so, whatever the keys, the clock and the
    provider. *)
Theorem editor_invariant
        (now : datetime) (ticks : list Tick) (st0 st : MainState)
        (beeped : bool) :
  main_init now = Ok st0 ->
  main_loop ticks st0 = Continue st beeped ->
  printable (compose st) = true
  /\ 0 <= cursor_pos st <= PyStr.len (compose st)
  /\ (text_entry_mode st = false -> compose st = "" /\ cursor_pos st = 0).
Proof.
  intros Hinit Hloop.
  assert (H0 : editor_ok st0).
  { unfold main_init in Hinit.
    destruct (TextBuffer _ _ _ _) as [b|e]; [|discriminate Hinit].
    injection Hinit as <-. unfold editor_ok. cbn.
    split; [reflexivity|]. split; [lia|]. now split. }
  clear Hinit. revert st0 H0 Hloop.
  induction ticks as [|t ticks IH]; intros st0 H0 Hloop; simpl in Hloop.
  - injection Hloop as <- _. exact H0.
  - destruct (main_iteration t st0) as [st1 b1 | | e] eqn:E;
      try discriminate Hloop.
    exact (IH st1 (main_iteration_ok t st0 st1 b1 H0 E) Hloop).
Qed.

Lemma entry_key_goes_on (t : Tick) (st : MainState) : entry_key t st <> Break.
Proof.
  unfold entry_key.
  repeat match goal with
         | |- context [if ?c then _ else _] => destruct c
         end;
    try discriminate.
  unfold submit.
  match goal with
  | |- context [match ?r with Ok _ => _ | Raise _ => _ end] => destruct r
  end; discriminate.
Qed.

(** X19. The loop is left by [break] in one way only: a turn, its drawing
    done, ends the loop exactly when the timed refresh has not raised, the
    editor is not in text-entry mode and the key is "q". In text-entry
    mode a "q" is a character like any other. *)
Theorem quit_only_in_navigation (t : Tick) (st : MainState) :
  main_iteration t st = Break
  <-> (snd (consider_refresh (now_test t) (now_stamp t) (db_refresh t)
                             (current_buffer st)) = None
       /\ text_entry_mode st = false /\ k t = ord "q").
Proof.
  unfold main_iteration.
  destruct (consider_refresh _ _ _ _) as [b [e|]]; cbn [snd].
  { split; [discriminate | intros (H & _); discriminate H]. }
  cbn [text_entry_mode]. destruct (text_entry_mode st).
  - split; [|intros (_ & H & _); discriminate H].
    intros H. now apply entry_key_goes_on in H.
  - unfold navigation_key.
    change (ord "t") with 116. change (ord ":") with 58.
    change (ord "q") with 113. unfold KEY_DOWN, KEY_UP.
    destruct (Z.eqb_spec (k t) 116); [split; [discriminate | lia]|].
    destruct (Z.eqb_spec (k t) 58); [split; [discriminate | lia]|].
    cbn [orb].
    destruct (Z.eqb_spec (k t) 113); [now split|].
    destruct (k t =? 258); [split; [discriminate | tauto]|].
    destruct (k t =? 259); split; try discriminate; tauto.
Qed.

Lemma take_app (a b : string) :
  PyStr.take (String.length a) (a ++ b) = a.
Proof. induction a as [|c a IH]; simpl; [now destruct b | now rewrite IH]. Qed.

Lemma drop_app (a b : string) :
  PyStr.drop (String.length a) (a ++ b) = b.
Proof. induction a as [|c a IH]; simpl; [reflexivity | exact IH]. Qed.

Lemma append_assoc (a b c : string) : (a ++ b) ++ c = a ++ b ++ c.
Proof. induction a as [|x a IH]; simpl; [reflexivity | now rewrite IH]. Qed.

Lemma slices_after_insert (c : string) (p : Z) (x : ascii) :
  0 <= p <= PyStr.len c ->
  let c' := PyStr.slice_to c p ++ String x "" ++ PyStr.slice_from c p in
  PyStr.slice_to c' (p + 1) = PyStr.slice_to c p ++ String x ""
  /\ PyStr.slice_from c' (p + 1) = PyStr.slice_from c p
  /\ PyStr.slice_to c' p = PyStr.slice_to c p
  /\ PyStr.len c' = PyStr.len c + 1.
Proof.
  intros Hp c'.
  assert (Hlen : PyStr.len c' = PyStr.len c + 1).
  { subst c'. rewrite !len_append, len_slice_to, len_slice_from by lia.
    change (PyStr.len (String x "")) with 1. lia. }
  assert (Hto : String.length (PyStr.slice_to c p) = Z.to_nat p).
  { pose proof (len_slice_to c p Hp) as H. unfold PyStr.len in H. lia. }
  repeat split; [| | |exact Hlen].
  - rewrite slice_to_take by lia.
    replace (Z.to_nat (p + 1))
      with (String.length (PyStr.slice_to c p ++ String x ""))
      by (rewrite length_append; simpl; lia).
    subst c'. rewrite <- append_assoc. apply take_app.
  - rewrite slice_from_drop by lia.
    replace (Z.to_nat (p + 1))
      with (String.length (PyStr.slice_to c p ++ String x ""))
      by (rewrite length_append; simpl; lia).
    subst c'. rewrite <- append_assoc. apply drop_app.
  - rewrite (slice_to_take c') by lia. rewrite <- Hto.
    subst c'. apply take_app.
Qed.



(** X20. A printable character typed and then rubbed out leaves the
    editor where it was: with the cursor inside the compose string and
    left of the last column, the key goes in at the cursor, a backspace
    takes it out again, and compose string, cursor, mode and buffer are
    as before. *)
Theorem insert_then_backspace (t1 t2 : Tick) (st : MainState) :
  0 <= cursor_pos st <= PyStr.len (compose st) ->
  32 <= k t1 <= 126 ->
  cursor_pos st < win_cols t1 - 1 ->
  k t2 = KEY_BACKSPACE ->
  exists st1,
    entry_key t1 st = Continue st1 false
    /\ PyStr.len (compose st1) = PyStr.len (compose st) + 1
    /\ cursor_pos st1 = cursor_pos st + 1
    /\ entry_key t2 st1
       = Continue (mkMain (compose st) (cursor_pos st) true
                          (current_buffer st)) false.
Proof.
  intros Hp Hk Hcol Hb.
  rewrite (entry_key_printable t1 st Hk).
  destruct (Z.ltb_spec (cursor_pos st) (win_cols t1 - 1)); [|lia].
  eexists. split; [reflexivity|]. cbn [compose cursor_pos].
  unfold chr. set (x := ascii_of_N (Z.to_N (k t1))).
  destruct (slices_after_insert (compose st) (cursor_pos st) x Hp)
    as (Hto1 & Hfrom1 & Hto & Hlen).
  cbv zeta in Hto1, Hfrom1, Hto, Hlen.
  split; [exact Hlen|]. split; [reflexivity|].
  unfold entry_key. rewrite Hb. change (KEY_BACKSPACE =? KEY_BACKSPACE) with true.
  cbv iota. cbn [compose cursor_pos current_buffer].
  destruct (Z.eqb_spec (cursor_pos st + 1) 0); [lia|]. cbn [negb].
  replace (cursor_pos st + 1 - 1) with (cursor_pos st) by lia.
  rewrite Hto, Hfrom1.
  rewrite slice_to_take, slice_from_drop by lia. now rewrite take_drop.
Qed.



(** *** The time columns of a shaped row *)

Lemma pop_times_nth (fromtimestamp : clock_reading) (tags : list string) :
  forall (row rest : list pyval) (fields : list (string * pyval))
         (i : nat) (tag : string) (v : pyval),
    pop_times fromtimestamp tags row = Ok (fields, rest) ->
    nth_error tags i = Some tag -> nth_error row i = Some v ->
    exists g, process_time fromtimestamp v = Ok g
              /\ nth_error fields i = Some (tag, g).
Proof.
  induction tags as [|tag0 tags IH]; intros row rest fields i tag v H Ht Hv.
  - destruct i; discriminate Ht.
  - destruct row as [|v0 row]; [discriminate H|]. cbn [pop_times] in H.
    destruct (process_time fromtimestamp v0) as [g0|e] eqn:Eg;
      [|discriminate H].
    cbn [bind] in H.
    destruct (pop_times fromtimestamp tags row) as [[fs r]|e] eqn:E;
      [|discriminate H].
    cbn [bind] in H. injection H as <- <-.
    destruct i as [|i]; cbn [nth_error] in *.
    + injection Ht as <-. injection Hv as <-. eauto.
    + exact (IH _ _ _ _ _ _ E Ht Hv).
Qed.

(** X22. The short time of a shaped row against the width of its column.
    For a time column that holds a timestamp, the cell of the "short"
    path is the local hour and minute, with the half-minute mark when the
    seconds are 30, left-justified to the width of the schema: 5 for the
    three scheduled times, 4 for the two actual ones. A scheduled time
    therefore always fills its column exactly, and an actual time on the
    half minute is one character wider than its column and its header. *)
Theorem short_time_cell
        (fromtimestamp : clock_reading) (row : list pyval) (x v : pyval)
        (dt : datetime) (i : nat) (tag : string) (hook : hook)
        (schema : pyval) :
  shape_row fromtimestamp row = Ok x ->
  (hook = Board_substitute_fn /\ schema = Board_schema)
  \/ (hook = Service_substitute_fn /\ schema = Service_schema) ->
  nth_error time_tags i = Some tag ->
  nth_error row i = Some v ->
  Py.truthy v = true ->
  fromtimestamp v = Ok dt ->
  let short := strftime_HM dt
               ++ (if second_of dt =? 30 then half_mark else "") in
  let width := if (i <? 3)%nat then 5 else 4 in
  exists header,
    header_cell schema (tag ++ "/short") = Ok (header, AInt 0)
    /\ PyStr.len header = width
    /\ body_cell hook schema x (tag ++ "/short")
       = Ok (PyStr.ljust short width,
             AInt (if (i <? 3)%nat then 0 else 3))
    /\ PyStr.len (PyStr.ljust short width)
       = (if negb (i <? 3)%nat && (second_of dt =? 30) then 5 else width).
Proof.
  intros H Hview Htag Hv Htruthy Hdt short width.
  assert (Hlen : PyStr.len short = if second_of dt =? 30 then 5 else 4).
  { subst short. rewrite len_append, len_strftime_HM.
    now destruct (second_of dt =? 30). }
  unfold shape_row in H.
  destruct (pop_times fromtimestamp time_tags row) as [[times rest]|e] eqn:Et;
    [|discriminate H].
  cbn [bind] in H. repeat bound H. injection H as <-.
  destruct (pop_times_nth _ _ _ _ _ _ _ _ Et Htag Hv) as (g & Hg & Hnth).
  unfold process_time in Hg. rewrite Htruthy, Hdt in Hg. cbn [bind] in Hg.
  injection Hg as Hg. subst g. fold short in Hnth.
  apply pop_times_ok in Et. destruct Et as (vals & _ & _ & Hk & _).
  unfold time_tags in Hk, Htag. keyed Hk.
  clearbody short. subst width.
  destruct i as [|[|[|[|[|i]]]]]; cbn [nth_error] in Htag, Hnth;
    [..|destruct i; discriminate Htag];
    injection Htag as <-; injection Hnth as ->;
    (eexists; split;
     [destruct Hview as [[-> ->] | [-> ->]]; lazy; reflexivity|];
     split; [reflexivity|]; split;
     [destruct Hview as [[-> ->] | [-> ->]]; lazy; reflexivity|];
     rewrite len_ljust, Hlen; cbn [Nat.ltb Nat.leb negb andb];
     destruct (second_of dt =? 30); reflexivity).
Qed.

(** *** Live views: building and refreshing *)

(** X23. A refresh of a live view is the view built anew, but for the
    scroll offset and the stamp. For a buffer with the view and the
    format of its class, [refresh] returns exactly when the constructor
    with the same parameters and the same provider does, and the buffer
    it leaves is the newly built one with the old offset and the old
    stamp put back; if the constructor raises, so does the refresh. The
    newly built view itself starts at offset 0 and is stamped with the
    clock of its construction. *)
Theorem refresh_is_rebuild (now : datetime) (db : Provider) (b : Buffer) :
  let kept fresh :=
    set_line_offset (set_last_refreshed fresh (last_refreshed b))
                    (line_offset b) in
  (forall dt_start duration location_code,
      view_of b = BoardView dt_start duration location_code ->
      format b = Board_format ->
      match BoardBuffer now db dt_start duration location_code with
      | Ok fresh =>
          refresh db b = (kept fresh, None)
          /\ line_offset fresh = 0 /\ last_refreshed fresh = now
          /\ title fresh = Board_title location_code dt_start duration
      | Raise e => snd (refresh db b) = Some e
      end)
  /\ (forall date_start service_code,
         view_of b = ServiceView date_start service_code ->
         format b = Service_format ->
         match ServiceBuffer now db date_start service_code with
         | Ok fresh =>
             refresh db b = (kept fresh, None)
             /\ line_offset fresh = 0 /\ last_refreshed fresh = now
             /\ title fresh = Service_title service_code date_start
         | Raise e => snd (refresh db b) = Some e
         end).
Proof.
  destruct b as [v d f t o l c s h bo]. cbn [view_of format last_refreshed
                                            line_offset].
  split.
  - intros dt dur loc -> ->.
    unfold BoardBuffer, refresh, Buffer_init, with_view.
    cbn [view_of set_title set_data data format title line_offset lines
         col_names last_refreshed headers_outstanding body_outstanding].
    destruct (Board_get_board db dt dur loc) as [d'|e]; [|reflexivity].
    unfold renew.
    cbn [view_of set_title set_data set_lines set_col_names data format title
         line_offset lines col_names last_refreshed headers_outstanding
         body_outstanding].
    destruct (collect (header_cell _) _) as [names [e|]]; [reflexivity|].
    destruct (collect (body_line _ _ _) _) as [ls [e|]]; [reflexivity|].
    cbn. now repeat split.
  - intros date code -> ->.
    unfold ServiceBuffer, refresh, Buffer_init, with_view.
    cbn [view_of set_title set_data data format title line_offset lines
         col_names last_refreshed headers_outstanding body_outstanding].
    destruct (Service_get_board db date code) as [d'|e]; [|reflexivity].
    unfold renew.
    cbn [view_of set_title set_data set_lines set_col_names data format title
         line_offset lines col_names last_refreshed headers_outstanding
         body_outstanding].
    destruct (collect (header_cell _) _) as [names [e|]]; [reflexivity|].
    destruct (collect (body_line _ _ _) _) as [ls [e|]]; [reflexivity|].
    cbn. now repeat split.
Qed.

(** *** Colours on the way to [render] *)

Lemma body_cell_hook (substitute : hook) (schema row : pyval) (col : string)
      (c : cell) :
  body_cell substitute schema row col = Ok c ->
  exists (name pad justify colour : atom) (text0 : string) (text : pyval),
    resolve schema col = Ok (name, pad, justify, colour)
    /\ substitute row col (text0, colour) = Ok (text, snd c).
Proof.
  unfold body_cell, cell_before_justify, resolve. intros H.
  destruct (walk_row (PyStr.split "/" col) nothing_inherited row schema)
    as [[[inh current_cell] reached]|e] eqn:Ew; [|discriminate H].
  rewrite (walk_row_schema _ _ _ _ _ _ _ Ew). cbn [bind] in H |- *.
  destruct inh as [[[iname ipad] ijustify] icolor].
  destruct (leaf_attrs (iname, ipad, ijustify, icolor) reached)
    as [[[p jf] cs]|e] eqn:El; [|discriminate H].
  cbn [bind] in H.
  assert (Hname : exists n, Py.index reached 0 = Ok n).
  { unfold leaf_attrs in El.
    destruct (Py.index reached 1) as [a|e] eqn:E1; [|discriminate El].
    now apply (index_one_then_zero reached a). }
  destruct Hname as [n ->]. cbn [bind].
  destruct (substitute row col (py_str current_cell, cs)) as [[t fc]|e] eqn:Es;
    [|discriminate H].
  cbn [bind] in H.
  destruct (call_justify _ _ p) as [out|e]; [|discriminate H].
  cbn [bind] in H. injection H as <-. cbn [snd].
  exists (Py.atom_or n iname), p, jf, cs, (py_str current_cell), t.
  split; [reflexivity | exact Es].
Qed.

Lemma hook_colour (v : view) (x : pyval) (y text0 : string) (n : Z)
      (text : pyval) (colour : atom) :
  substitute_fn v x y (text0, AInt n) = Ok (text, colour) ->
  exists m, colour = AInt m.
Proof.
  assert (Hvar : forall r, variation_cell x = Ok r -> snd r = AInt 5).
  { unfold variation_cell. intros r H.
    repeat match type of H with
           | bind ?c _ = Ok _ =>
               destruct c; [cbn [bind] in H | discriminate H]
           | (if ?c then _ else _) = Ok _ => destruct c
           end; now injection H as <-. }
  assert (Hlive : forall r, live_platform_cell x = Ok r -> snd r = AInt 3).
  { unfold live_platform_cell. intros r H.
    repeat match type of H with
           | bind ?c _ = Ok _ =>
               destruct c; [cbn [bind] in H | discriminate H]
           | (if ?c then _ else _) = Ok _ => destruct c
           end; now injection H as <-. }
  destruct v as [| dt dur loc | date code]; cbn [substitute_fn].
  - unfold Buffer_substitute_fn. intros H; injection H as _ <-. eauto.
  - unfold Board_substitute_fn. cbn [fst snd]. intros H.
    repeat match type of H with
           | bind ?c _ = Ok _ =>
               destruct c as [[|]|?]; [cbn [bind] in H ..| discriminate H]
           end;
      try (injection H as _ <-; eauto; fail);
      try (apply Hvar in H; cbn [snd] in H; eauto; fail);
      try (apply Hlive in H; cbn [snd] in H; eauto; fail).
    all: destruct (field x "service" "actual_signalling_id");
      [cbn [bind] in H; injection H as _ <-; eauto | discriminate H].
  - unfold Service_substitute_fn. cbn [fst snd]. intros H.
    repeat match type of H with
           | bind ?c _ = Ok _ =>
               destruct c as [[|]|?]; [cbn [bind] in H ..| discriminate H]
           | (if ?c then _ else _) = Ok _ => destruct c
           end;
      try (injection H as _ <-; eauto; fail);
      try (apply Hvar in H; cbn [snd] in H; eauto; fail);
      try (apply Hlive in H; cbn [snd] in H; eauto; fail).
Qed.
Lemma for_each_all {A B : Type} (f : A -> result B) (l : list A) :
  forall ys, for_each f l = Ok ys ->
             Forall (fun y => exists x, In x l /\ f x = Ok y) ys.
Proof.
  induction l as [|x l IH]; simpl; intros ys H.
  - injection H as <-. constructor.
  - destruct (f x) as [y|e] eqn:Ex; [|discriminate H]. cbn [bind] in H.
    destruct (for_each f l) as [ys'|e]; [|discriminate H]. cbn [bind] in H.
    injection H as <-. constructor; [exists x; split; [now left | exact Ex]|].
    apply (Forall_impl _ (P := fun y => exists x0, In x0 l /\ f x0 = Ok y));
      [|exact (IH ys' eq_refl)].
    intros y' (x' & Hin & Hy). exists x'. split; [now right | exact Hy].
Qed.

Lemma resolved_colours (schema : pyval) (fmt : list string) (col : string)
      (name pad justify colour : atom) :
  (schema = Board_schema /\ fmt = Board_format)
  \/ (schema = Service_schema /\ fmt = Service_format) ->
  In col fmt ->
  resolve schema col = Ok (name, pad, justify, colour) ->
  exists n, colour = AInt n.
Proof.
  intros [[-> ->] | [-> ->]] Hin H;
    unfold Board_format, Service_format in Hin; cbn [In] in Hin;
    repeat (destruct Hin as [<- | Hin];
            [vm_compute in H; injection H as _ _ _ <-; eauto|]);
    contradiction.
Qed.

Lemma render_cells_returns (w : window) (i : Z) (row : list cell) :
  Forall has_colour_pair row ->
  forall x, snd (render_cells w i x row) = None.
Proof.
  induction 1 as [|[column attr] row [n Hn] Hrow IH]; intros x;
    [reflexivity|].
  cbn [snd] in Hn. subst attr. cbn [render_cells].
  specialize (IH (x + PyStr.len column + 1)).
  now destruct (render_cells w i (x + PyStr.len column + 1) row).
Qed.

Lemma render_header_cells_returns (w : window) (cells : list cell) :
  Forall has_colour_pair cells ->
  forall x, snd (render_header_cells w x cells) = None.
Proof.
  induction 1 as [|[column attr] row [n Hn] Hrow IH]; intros x;
    [reflexivity|].
  cbn [snd] in Hn. subst attr. cbn [render_header_cells].
  specialize (IH (x + PyStr.len column + 1)).
  now destruct (render_header_cells w (x + PyStr.len column + 1) row).
Qed.

Lemma render_rows_returns (w : window) (rows : list (list cell)) :
  Forall (Forall has_colour_pair) rows ->
  forall i, snd (render_rows w i rows) = None.
Proof.
  induction 1 as [|row rows Hrow Hrows IH]; intros i; [reflexivity|].
  cbn [render_rows].
  pose proof (render_cells_returns w i row Hrow 0) as Hr.
  destruct (render_cells w i 0 row) as [calls r]. cbn [snd] in Hr. subst r.
  specialize (IH (i + 1)). now destruct (render_rows w (i + 1) rows).
Qed.

Lemma Forall_slice {A : Type} (P : A -> Prop) (l : list A) (i j : Z) :
  Forall P l -> Forall P (slice_list l i j).
Proof.
  intros H. unfold slice_list.
  assert (Hskip : forall n, Forall P (skipn n l)).
  { intros n. revert l H. induction n as [|n IH]; intros l H; [exact H|].
    destruct H; [constructor | now apply IH]. }
  generalize (Hskip (PyStr.clamp_index (Z.of_nat (List.length l)) i)).
  generalize (skipn (PyStr.clamp_index (Z.of_nat (List.length l)) i) l).
  generalize (PyStr.clamp_index (Z.of_nat (List.length l)) j
              - PyStr.clamp_index (Z.of_nat (List.length l)) i)%nat.
  intros n. induction n as [|n IH]; intros l' H'; [constructor|].
  destruct H'; [constructor|]. cbn [firstn]. constructor; [assumption|].
  now apply IH.
Qed.

(** X24. Drawing a live view never fails on a colour. Over the schema and
    the format of the board view or of the service view, every cell that
    a completed [renew] caches has an integer colour pair, whatever the
    rows hold and whichever hook is in place, and so has every header
    cell; [curses.color_pair] is then never given anything else, and
    neither [render] nor [render_headers] stops on a colour. *)
Theorem live_view_draws
        (b b' : Buffer) (dim_lines dim_cols : Z)
        (title_window cols_window body_window : window) :
  (Data.schema (data b) = Board_schema /\ format b = Board_format)
  \/ (Data.schema (data b) = Service_schema /\ format b = Service_format) ->
  renew b = (b', None) ->
  Forall (Forall (fun c => exists n, snd c = AInt n)) (lines b')
  /\ Forall (fun c => exists n, snd c = AInt n) (col_names b')
  /\ snd (render body_window dim_lines dim_cols b') = None
  /\ snd (render_headers dim_lines dim_cols title_window cols_window b')
     = None.
Proof.
  intros Hlive H.
  assert (Hcache : lines b' = fst (collect
                                     (body_line (substitute_fn (view_of b))
                                        (Data.schema (data b)) (format b))
                                     (Data.data (data b)))
                   /\ snd (collect
                             (body_line (substitute_fn (view_of b))
                                (Data.schema (data b)) (format b))
                             (Data.data (data b))) = None
                   /\ col_names b'
                      = fst (collect (header_cell (Data.schema (data b)))
                                     (format b))
                   /\ snd (collect (header_cell (Data.schema (data b)))
                                   (format b)) = None).
  { unfold renew in H.
    cbn [data format view_of set_lines set_col_names] in H.
    destruct (collect (header_cell _) _) as [names [e|]]; [discriminate H|].
    destruct (collect (body_line _ _ _) _) as [ls [e|]]; [discriminate H|].
    injection H as <-. now repeat split. }
  destruct Hcache as (Hl & Hlr & Hc & Hcr).
  assert (Hlines : Forall (Forall has_colour_pair) (lines b')).
  { rewrite Hl. destruct (collect_all _ _ Hlr) as [_ Hall].
    apply (Forall_impl _ (P := fun y => exists x,
                                 In x (Data.data (data b))
                                 /\ body_line (substitute_fn (view_of b))
                                      (Data.schema (data b)) (format b) x
                                    = Ok y)); [|exact Hall].
    intros line (x & _ & Hline). unfold body_line in Hline.
    apply for_each_all in Hline.
    apply (Forall_impl _ (P := fun y => exists col,
                                 In col (format b)
                                 /\ body_cell (substitute_fn (view_of b))
                                      (Data.schema (data b)) x col = Ok y));
      [|exact Hline].
    intros c (col & Hcol & Hcell).
    destruct (body_cell_hook _ _ _ _ _ Hcell)
      as (name & pad & justify & colour & text0 & text & Hres & Hhook).
    destruct (resolved_colours (Data.schema (data b)) (format b) col
                name pad justify colour Hlive Hcol Hres) as [n ->].
    exact (hook_colour _ _ _ _ _ _ _ Hhook). }
  assert (Hnames : Forall has_colour_pair (col_names b')).
  { rewrite Hc. destruct (collect_all _ _ Hcr) as [_ Hall].
    apply (Forall_impl _ (P := fun y => exists x,
                                 In x (format b)
                                 /\ header_cell (Data.schema (data b)) x
                                    = Ok y)); [|exact Hall].
    intros c (x & _ & Hx). exists 0. exact (header_cell_colour _ _ _ Hx). }
  split; [exact Hlines|]. split; [exact Hnames|]. split.
  - unfold render.
    pose proof (render_rows_returns body_window _
                  (Forall_slice _ _ (line_offset b')
                     (line_offset b' + dim_lines) Hlines) 0) as Hr.
    destruct (render_rows body_window 0 _) as [calls r]. cbn [snd] in Hr.
    now subst r.
  - unfold render_headers.
    pose proof (render_header_cells_returns cols_window _ Hnames 0) as Hr.
    destruct (render_header_cells cols_window 0 _) as [calls r].
    cbn [snd] in Hr. now subst r.
Qed.

(** *** The station of the query and the "as required" mark *)

(** X25. The board view plays down the station that was asked for: the
    cell of "origin/name" is the name left-justified to width 30, blank
    for a name of [None], in colour pair 5 when the row's own location
    has the timing point of the origin and in colour pair 0 otherwise;
    likewise for "destination/name". Two timing points that are both
    [None] count as the same. *)
Theorem query_station_deemphasised
        (x here there name : pyval) (group : string) :
  group = "origin" \/ group = "destination" ->
  field x "here" "tiploc" = Ok here ->
  field x group "tiploc" = Ok there ->
  field x group "name" = Ok name ->
  body_cell Board_substitute_fn Board_schema x (group ++ "/name")
  = Ok (PyStr.ljust (if Py.eqb name VNone then "" else py_str name) 30,
        AInt (if Py.eqb here there then COLOR_DEEMPHASIS else 0)).
Proof.
  intros Hgroup Hhere Hthere Hname.
  assert (Hplace : same_place x (group ++ "/name") group
                   = Ok (Py.eqb here there)).
  { unfold same_place.
    replace (PyStr.startswith (group ++ "/name") group) with true
      by (destruct Hgroup as [-> | ->]; reflexivity).
    rewrite Hhere. cbn [bind]. rewrite Hthere. reflexivity. }
  unfold field in Hname, Hthere.
  destruct (Py.getitem x group) as [g|e] eqn:Eg; [|discriminate Hname].
  cbn [bind] in Hname, Hthere.
  unfold body_cell, cell_before_justify.
  assert (Hwalk : walk_row (PyStr.split "/" (group ++ "/name"))
                           nothing_inherited x Board_schema
                  = Ok ((AStr group, ANone, ANone, ANone), name,
                        leaf [ANone; AInt 30])).
  { destruct Hgroup as [-> | ->];
      (change (PyStr.split "/" ("origin" ++ "/name"))
         with ["origin"; "name"]
       || change (PyStr.split "/" ("destination" ++ "/name"))
            with ["destination"; "name"]);
      cbn [walk_row];
      change (inherit nothing_inherited Board_schema)
        with (Ok nothing_inherited);
      cbn [bind]; rewrite Eg; cbn [bind];
      (change (Py.getitem Board_schema "origin")
         with (Ok (VDict (("_", VTuple [AStr "origin"]) :: location_schema)))
       || change (Py.getitem Board_schema "destination")
            with (Ok (VDict (("_", VTuple [AStr "destination"])
                             :: location_schema))));
      cbn [bind];
      (change (inherit nothing_inherited
                 (VDict (("_", VTuple [AStr "origin"]) :: location_schema)))
         with (Ok (AStr "origin", ANone, ANone, ANone))
       || change (inherit nothing_inherited
                    (VDict (("_", VTuple [AStr "destination"])
                            :: location_schema)))
            with (Ok (AStr "destination", ANone, ANone, ANone)));
      cbn [bind]; rewrite Hname; reflexivity. }
  rewrite Hwalk. cbn [bind].
  change (leaf_attrs (AStr group, ANone, ANone, ANone) (leaf [ANone; AInt 30]))
    with (Ok (AInt 30, ANone, AInt 0)).
  cbn [bind]. unfold Board_substitute_fn.
  destruct Hgroup as [-> | ->].
  - rewrite Hplace. cbn [bind].
    destruct (Py.eqb here there); cbn [bind fst snd].
    + destruct (Py.eqb name VNone); reflexivity.
    + change (same_place x ("origin" ++ "/name") "destination")
        with (@Ok bool false).
      cbn [bind].
      change (("origin" ++ "/name" =? "service/current_variation")%string)
        with false.
      change (("origin" ++ "/name" =? "service/signalling_id")%string)
        with false.
      change (("origin" ++ "/name" =? "platform")%string) with false.
      change (("origin" ++ "/name"
               =? "service/operating_characteristics")%string) with false.
      cbv iota. cbn [bind fst snd].
      destruct (Py.eqb name VNone); reflexivity.
  - change (same_place x ("destination" ++ "/name") "origin")
      with (@Ok bool false).
    cbn [bind]. rewrite Hplace. cbn [bind].
    destruct (Py.eqb here there); cbn [bind fst snd].
    + destruct (Py.eqb name VNone); reflexivity.
    + change (("destination" ++ "/name"
               =? "service/current_variation")%string) with false.
      change (("destination" ++ "/name" =? "service/signalling_id")%string)
        with false.
      change (("destination" ++ "/name" =? "platform")%string) with false.
      change (("destination" ++ "/name"
               =? "service/operating_characteristics")%string) with false.
      cbv iota. cbn [bind fst snd].
      destruct (Py.eqb name VNone); reflexivity.
Qed.

Lemma shaped_characteristics
      (fromtimestamp : clock_reading) (row : list pyval) (x : pyval) :
  shape_row fromtimestamp row = Ok x ->
  exists s, nth_error row 35 = Some (VStr s)
            /\ field x "service" "operating_characteristics"
               = Ok (VStr (rstrip s)).
Proof.
  intros H. shape_inversion H.
  do 5 (destruct vals as [|? vals]; [discriminate Hlen|]).
  destruct vals; [clear Hlen | discriminate Hlen].
  repeat match goal with
         | E : Py.getitem (VDict _) _ = Ok _ |- _ =>
             cbn in E; injection E as <-
         end.
  match goal with
  | E : call_rstrip ?c = Ok ?r, E' : (if _ then _ else _) = Ok ?plain |- _ =>
      unfold call_rstrip in E;
      destruct c as [[| s | z | g] | t | d]; try discriminate E;
      injection E as <-; exists s; split; [reflexivity|];
      generalize (rstrip s); intros stripped;
      destruct (Py.truthy _);
      [destruct (call_rstrip _); [cbn [bind] in E' | discriminate E']|];
      injection E' as <-; reflexivity
  end.
Qed.

(** X26. The board view marks a service that runs as required: for a row
    whose operating characteristics are a string, the cell of that column
    is the string left-justified to width 4, in colour pair 7 when it has
    a "Q" in it and in colour pair 0 when not. A row that [get_board] has
    shaped always has a string there, the column of the cursor without
    its trailing white space, so the test for the "Q" does not raise on
    such a row. *)
Theorem as_required_mark
        (fromtimestamp : clock_reading) (row : list pyval) (x : pyval) :
  (forall s,
      field x "service" "operating_characteristics" = Ok (VStr s) ->
      body_cell Board_substitute_fn Board_schema x
                "service/operating_characteristics"
      = Ok (PyStr.ljust s 4,
            AInt (if PyStr.contains "Q" s then COLOR_EMPHASIS else 0)))
  /\ (shape_row fromtimestamp row = Ok x ->
      exists s,
        nth_error row 35 = Some (VStr s)
        /\ body_cell Board_substitute_fn Board_schema x
                     "service/operating_characteristics"
           = Ok (PyStr.ljust (rstrip s) 4,
                 AInt (if PyStr.contains "Q" (rstrip s)
                       then COLOR_EMPHASIS else 0))).
Proof.
  assert (Hcell : forall s,
             field x "service" "operating_characteristics" = Ok (VStr s) ->
             body_cell Board_substitute_fn Board_schema x
                       "service/operating_characteristics"
             = Ok (PyStr.ljust s 4,
                   AInt (if PyStr.contains "Q" s then COLOR_EMPHASIS
                         else 0))).
  { intros s Hs. unfold body_cell, cell_before_justify.
    change (PyStr.split "/" "service/operating_characteristics")
      with ["service"; "operating_characteristics"].
    rewrite (walk_service_field Board_schema x (VStr s)
               "operating_characteristics" (leaf [AStr "oc."; AInt 4])
               (or_introl eq_refl) Hs eq_refl).
    cbn [bind].
    change (leaf_attrs nothing_inherited (leaf [AStr "oc."; AInt 4]))
      with (Ok (AInt 4, ANone, AInt 0)).
    cbn [bind]. unfold Board_substitute_fn.
    change (same_place x "service/operating_characteristics" "origin")
      with (@Ok bool false).
    change (same_place x "service/operating_characteristics" "destination")
      with (@Ok bool false).
    cbn [bind].
    change ("service/operating_characteristics"
            =? "service/current_variation")%string with false.
    change ("service/operating_characteristics"
            =? "service/signalling_id")%string with false.
    change ("service/operating_characteristics" =? "platform")%string
      with false.
    change ("service/operating_characteristics"
            =? "service/operating_characteristics")%string with true.
    cbv iota. cbn [bind]. rewrite Hs. cbn [bind]. unfold VStr.
    cbn [Py.contains bind py_str fst snd].
    destruct (PyStr.contains "Q" s); cbn [bind]; reflexivity. }
  split; [exact Hcell|].
  intros H. destruct (shaped_characteristics _ _ _ H) as (s & Hrow & Hfield).
  exists s. split; [exact Hrow | exact (Hcell _ Hfield)].
Qed.

(** *** Lines of shaped rows *)

Lemma last_char_some (c : ascii) (s : string) :
  exists l, PyStr.last_char (String c s) = Some l.
Proof.
  revert c. induction s as [|c' s IH]; intros c; [now exists c|].
  destruct (IH c') as [l Hl]. exists l.
  change (PyStr.last_char (String c (String c' s)))
    with (PyStr.last_char (String c' s)). exact Hl.
Qed.

Lemma platform_justify_returns (s : string) :
  exists out, platform_justify (VStr s) (AInt 3) = Ok out.
Proof.
  unfold platform_justify. cbn [Py.atom_eqb Z.eqb Pos.eqb negb].
  destruct s as [|c s]; [cbn; eauto|].
  change (Py.truthy (VStr (String c s))) with true.
  unfold VStr. cbn [negb Py.len bind].
  destruct (PyStr.len (String c s) =? 1); [eauto|].
  destruct (last_char_some c s) as [l ->]. cbn [PyStr.first_char].
  destruct (PyStr.isalpha_char l && PyStr.isnumeric_char c); eauto.
Qed.

Lemma call_justify_returns (justify pad : atom) (s : string) :
  justifies justify pad ->
  exists out,
    call_justify (Py.atom_or justify (AFun str_ljust)) (VStr s) pad = Ok out.
Proof.
  intros (w & -> & [-> | [-> | [-> | [-> | [-> ->]]]]]);
    cbn [Py.atom_or Py.atom_truthy call_justify str_method VStr]; eauto.
  apply platform_justify_returns.
Qed.

Lemma body_cell_returns (substitute : hook) (schema x : pyval) (col : string)
      (inh : inherited) (value reached : pyval) (pad justify colour : atom) :
  walk_row (PyStr.split "/" col) nothing_inherited x schema
  = Ok (inh, value, reached) ->
  leaf_attrs inh reached = Ok (pad, justify, colour) ->
  justifies justify pad ->
  (exists t c, substitute x col (py_str value, colour) = Ok (VStr t, c)) ->
  exists c, body_cell substitute schema x col = Ok c.
Proof.
  intros Hw Hl Hj (t & c & Hs). unfold body_cell, cell_before_justify.
  rewrite Hw. cbn [bind]. rewrite Hl. cbn [bind]. rewrite Hs. cbn [bind].
  destruct (Py.eqb value VNone);
    [destruct (call_justify_returns justify pad "" Hj) as [out Ho]
    |destruct (call_justify_returns justify pad t Hj) as [out Ho]];
    rewrite Ho; cbn [bind]; eauto.
Qed.

Lemma for_each_returns {A B : Type} (f : A -> result B) (l : list A) :
  Forall (fun a => exists y, f a = Ok y) l -> exists ys, for_each f l = Ok ys.
Proof.
  induction 1 as [|a l [y Hy] Hl [ys IH]]; [now exists []|].
  exists (y :: ys). cbn [for_each]. rewrite Hy. cbn [bind]. now rewrite IH.
Qed.
Lemma process_time_ut (fromtimestamp : clock_reading) (v g : pyval) :
  process_time fromtimestamp v = Ok g ->
  exists ut, Py.getitem g "ut" = Ok ut /\ Py.truthy ut = Py.truthy v.
Proof.
  unfold process_time. destruct (Py.truthy v) eqn:Et.
  - destruct (fromtimestamp v); [|discriminate]. cbn [bind].
    intros H; injection H as <-. exists v. now split.
  - intros H; injection H as <-. exists VNone. now split.
Qed.

Lemma variation_hook_returns
      (v : view) (x departure arrival departure_status arrival_status
       departure_variation arrival_variation : pyval) (ran : bool)
      (z : string * atom) :
  has_actual_time x = Ok ran ->
  Py.getitem x "trust_departure" = Ok departure ->
  Py.getitem x "trust_arrival" = Ok arrival ->
  Py.getitem departure "variation_status" = Ok departure_status ->
  Py.getitem arrival "variation_status" = Ok arrival_status ->
  Py.getitem departure "variation" = Ok departure_variation ->
  Py.getitem arrival "variation" = Ok arrival_variation ->
  (ran = true ->
   exists s, (if Py.truthy departure_status then departure_status
              else arrival_status) = VStr s) ->
  exists t c,
    substitute_fn v x "service/current_variation" z = Ok (VStr t, c).
Proof.
  intros Hran Hd Ha Hds Has Hdv Hav Hstatus.
  assert (Hvar : Py.getitem (if Py.truthy departure_status then departure
                             else arrival) "variation"
                 = Ok (if Py.truthy departure_status
                       then departure_variation else arrival_variation))
    by now destruct (Py.truthy departure_status).
  destruct v as [| dt dur loc | date code]; cbn [substitute_fn].
  - unfold Buffer_substitute_fn. eauto.
  - unfold Board_substitute_fn.
    change (same_place x "service/current_variation" "origin")
      with (@Ok bool false).
    change (same_place x "service/current_variation" "destination")
      with (@Ok bool false).
    cbn [bind].
    change ("service/current_variation"
            =? "service/current_variation")%string with true.
    cbv iota. rewrite Hran. cbn [bind]. destruct ran.
    + destruct (Hstatus eq_refl) as [s Hs].
      rewrite (variation_cell_spec x departure arrival departure_status
                 arrival_status _ s Hd Ha Hds Has Hs Hvar).
      eauto.
    + change ("service/current_variation"
              =? "service/signalling_id")%string with false.
      change ("service/current_variation" =? "platform")%string with false.
      change ("service/current_variation"
              =? "service/operating_characteristics")%string with false.
      cbv iota. cbn [bind]. eauto.
  - unfold Service_substitute_fn.
    change ("service/current_variation"
            =? "service/current_variation")%string with true.
    cbv iota. rewrite Hran. cbn [bind]. destruct ran.
    + destruct (Hstatus eq_refl) as [s Hs].
      rewrite (variation_cell_spec x departure arrival departure_status
                 arrival_status _ s Hd Ha Hds Has Hs Hvar).
      eauto.
    + eauto.
Qed.

Ltac justified :=
  eexists; split; [reflexivity|];
  first [ left; reflexivity
        | right; left; reflexivity
        | right; right; left; reflexivity
        | right; right; right; left; reflexivity
        | right; right; right; right; split; reflexivity ].

Ltac stuck_cases :=
  repeat match goal with
         | |- context [if ?c then _ else _] => destruct c
         | |- context [match ?c with Ok _ => _ | Raise _ => _ end] =>
             destruct c
         end.

(** X27. A shaped row gives a line in both live views when its live
    columns are NULL or text: if the platforms of the two movements and
    the live signalling id each are [None] or a string, and if, once the
    row has an actual arrival or departure time, the variation status
    that the hook picks is a string, then every cell of the board view's
    format and of the service view's format is built and none of the
    walk, the hook and the justifier raises, whatever the other columns
    of the cursor hold. *)
Theorem shaped_line_returns
        (fromtimestamp : clock_reading) (row : list pyval) (x : pyval)
        (arrived departed arrival_platform departure_platform
         arrival_status departure_status live_id : pyval) :
  shape_row fromtimestamp row = Ok x ->
  nth_error row 3 = Some arrived ->
  nth_error row 4 = Some departed ->
  nth_error row 14 = Some arrival_platform ->
  nth_error row 17 = Some arrival_status ->
  nth_error row 21 = Some departure_platform ->
  nth_error row 24 = Some departure_status ->
  nth_error row 44 = Some live_id ->
  text_or_none arrival_platform ->
  text_or_none departure_platform ->
  text_or_none live_id ->
  (Py.truthy arrived || Py.truthy departed = true ->
   exists s, (if Py.truthy departure_status then departure_status
              else arrival_status) = VStr s) ->
  (exists line,
      body_line Board_substitute_fn Board_schema Board_format x = Ok line)
  /\ (exists line,
         body_line Service_substitute_fn Service_schema Service_format x
         = Ok line).
Proof.
  intros H H3 H4 H14 H17 H21 H24 H44 Hap Hdp Hid Hstatus.
  unfold shape_row in H.
  destruct (pop_times fromtimestamp time_tags row) as [[times rest]|e] eqn:Et;
    [|discriminate H].
  cbn [bind] in H.
  destruct (pop_times_nth _ _ _ _ _ 3%nat "arrival_actual" _ Et eq_refl H3)
    as (ga & Hga & Hna).
  destruct (pop_times_nth _ _ _ _ _ 4%nat "departure_actual" _ Et eq_refl H4)
    as (gd & Hgd & Hnd).
  apply process_time_ut in Hga, Hgd.
  destruct Hga as (uta & Huta & Hta). destruct Hgd as (utd & Hutd & Htd).
  rewrite <- Hta, <- Htd in Hstatus. clear Hta Htd H3 H4.
  apply pop_times_ok in Et. destruct Et as (vals & Hrow & Hlen & Hk & Hg).
  unfold time_tags in Hk, Hlen. keyed Hk.
  cbn [nth_error] in Hna, Hnd. injection Hna as <-. injection Hnd as <-.
  grouped Hg.
  do 5 (destruct vals as [|? vals]; [discriminate Hlen|]).
  destruct vals; [clear Hlen | discriminate Hlen].
  repeat bound H. injection H as <-.
  repeat match goal with
         | E : pop_fields _ _ = Ok _ |- _ => fields_of E
         end.
  subst. cbn in H14, H17, H21, H24, H44, Huta, Hutd.
  injection H14 as ->. injection H17 as ->. injection H21 as ->.
  injection H24 as ->. injection H44 as ->.
  injection Huta as ->. injection Hutd as ->.
  repeat match goal with
         | E : Py.getitem (VDict _) _ = Ok _ |- _ =>
             cbn in E; injection E as <-
         end.
  match goal with
  | E : call_rstrip ?c = Ok _ |- _ =>
      unfold call_rstrip in E;
      destruct c as [[| s | z | g] | t | d]; try discriminate E;
      injection E as <-; generalize (rstrip s);
      intros characteristics
  end.
  match type of E6 with
  | (if _ then _ else Ok ?plain) = _ =>
      assert (Hq : exists booked, x23 = dict_set plain "platform" booked)
  end.
  { destruct (Py.truthy v54).
    - destruct (call_rstrip v54) as [stripped|]; [|discriminate E6].
      cbn [bind] in E6. injection E6 as <-. now exists stripped.
    - injection E6 as <-. now exists v54. }
  clear E6. destruct Hq as [booked ->].
  assert (Hran : forall x,
             Py.getitem x "arrival_actual"
             = Ok (VDict [("ut", uta); ("iso", x13); ("date", x14);
                          ("short", x15)]) ->
             Py.getitem x "departure_actual"
             = Ok (VDict [("ut", utd); ("iso", x17); ("date", x18);
                          ("short", x19)]) ->
             has_actual_time x = Ok (Py.truthy uta || Py.truthy utd)).
  { intros x Ha Hd. unfold has_actual_time, field. rewrite Ha. cbn.
    destruct (Py.truthy uta); [reflexivity|]. rewrite Hd. reflexivity. }
  split; apply for_each_returns; unfold Board_format, Service_format;
    repeat (apply Forall_cons; [|]); try apply Forall_nil;
    (eapply body_cell_returns;
     [lazy; reflexivity | lazy; reflexivity | justified |]);
    try (do 2 eexists; lazy; reflexivity).
  all: try match goal with
           | |- context [Board_substitute_fn ?x "service/current_variation" ?z]
             => change (Board_substitute_fn x "service/current_variation" z)
                  with (substitute_fn (BoardView 0 0 "") x
                                      "service/current_variation" z)
           | |- context [Service_substitute_fn ?x "service/current_variation"
                                               ?z]
             => change (Service_substitute_fn x "service/current_variation" z)
                  with (substitute_fn (ServiceView (mkDate 0 0 0) "") x
                                      "service/current_variation" z)
           end.
  all: try (eapply variation_hook_returns;
            [apply Hran; lazy; reflexivity
            |lazy; reflexivity | lazy; reflexivity | lazy; reflexivity
            |lazy; reflexivity | lazy; reflexivity | lazy; reflexivity
            |exact Hstatus]).
  all: try match goal with
           | |- context [Board_substitute_fn _ "service/signalling_id" _] =>
               destruct Hid as [-> | [[|c s'] ->]]; lazy; do 2 eexists;
               reflexivity
           | |- context [_ _ "platform" _] =>
               destruct Hap as [-> | [[|c s'] ->]];
               destruct Hdp as [-> | [[|c' s''] ->]];
               lazy; do 2 eexists; reflexivity
           end.
  all: lazy; stuck_cases; do 2 eexists; reflexivity.
Qed.

End Client.

(** ** The properties on concrete runs *)

(** C4 at two inputs: a longer platform code that starts with a digit and
    ends with a letter, and a call with width 4. *)
Lemma platform_justify_spec_witness :
  (2 <= PyStr.len "12A"
   /\ platform_justify plain_repr (VStr "12A") (AInt 3) = Ok "12A")
  /\ (AInt 4 <> AInt 3
      /\ platform_justify plain_repr (VStr "3R") (AInt 4) = Raise ValueError).
Proof.
  split.
  - split; [vm_compute; discriminate|].
    apply (proj1 (proj2 (proj2 (platform_justify_spec plain_repr)))
                 "12A" "1"%char "A"%char);
      [vm_compute; discriminate | reflexivity | reflexivity].
  - split; [discriminate|].
    apply (proj2 (proj2 (proj2 (proj2 (proj2 (proj2
             (platform_justify_spec plain_repr))))))).
    discriminate.
Defined.

(** C8 on the welcome buffer of 79 rows: scrolling by 1000, -3 and 2 keeps
    the offset in range; a further -1000 shows rows 1 to 20 of 79. *)
Lemma scroll_clamped_witness :
  let b := welcome_buffer plain_repr in
  0 <= line_offset b <= Z.of_nat (List.length (lines b))
  /\ line_offset (scroll 1000 b) = 79
  /\ position_summary 20
       (scroll (-1000) (fold_left (fun b d => scroll d b) [1000; -3; 2] b))
     = "[1..20/79]".
Proof.
  assert (H : 0 <= line_offset (welcome_buffer plain_repr)
              <= Z.of_nat (List.length (lines (welcome_buffer plain_repr))))
    by (vm_compute; split; discriminate).
  pose proof (proj1 (proj2 (proj2 (proj2
                (scroll_clamped (welcome_buffer plain_repr) [] 20 H))))
                1000 ltac:(vm_compute; discriminate)) as Hdown.
  pose proof (proj2 (proj2 (proj2 (proj2 (proj2
                (scroll_clamped (welcome_buffer plain_repr) [1000; -3; 2]
                                20 H))))
                (-1000) ltac:(vm_compute; discriminate))) as Hup.
  vm_compute in Hdown. vm_compute in Hup.
  split; [exact H|]. split; vm_compute; assumption.
Defined.

(** C10 on a board of three rows scrolled to its end, then refreshed to one
    row: the offset stays 3, beyond the single row, and the next scroll down
    brings it to 1. *)
Lemma rebuild_keeps_scroll_offset_witness :
  let row := late_departure (VInt 1) in
  let b := scroll_down 3 (sample_board plain_repr [row; row; row]) in
  let b' := fst (refresh plain_repr (fixed_provider [row]) b) in
  line_offset b = 3
  /\ Z.of_nat (List.length (lines b')) = 1
  /\ line_offset b' = 3
  /\ line_offset (scroll_down 1 b') = 1.
Proof.
  pose (row := late_departure (VInt 1)).
  pose (b := scroll_down 3 (sample_board plain_repr [row; row; row])).
  pose proof (rebuild_keeps_scroll_offset plain_repr (fixed_provider [row])
                b 0 0 1) as (_ & Hkeep & _ & Hbeyond).
  assert (Hrows : Z.of_nat
                    (List.length
                       (lines (fst (refresh plain_repr (fixed_provider [row])
                                            b)))) = 1)
    by (vm_compute; reflexivity).
  cbv zeta in Hbeyond. rewrite Hrows in Hbeyond.
  destruct (Hbeyond ltac:(vm_compute; reflexivity)
                    ltac:(vm_compute; discriminate)) as [_ Hdown].
  cbv zeta. fold row. fold b.
  split; [reflexivity|]. split; [exact Hrows|].
  split; [exact Hkeep | exact Hdown].
Defined.

(** C1 on the board of the late departure: the variation cell is the text
    "1L" of the hook, right-justified to the resolved width 3. *)
Lemma renew_cell_width_witness :
  let b := sample_board plain_repr [late_departure (VInt 1)] in
  exists line,
    nth_error (lines (fst (renew plain_repr b))) 0 = Some line
    /\ nth_error line 10 = Some (" 1L", AInt 5)
    /\ exists w text,
         call_justify plain_repr (AFun str_rjust) text (AInt w) = Ok " 1L"
         /\ (forall s, text = VStr s ->
                       PyStr.len " 1L" = Z.max w (PyStr.len s)).
Proof.
  cbv zeta.
  set (b := sample_board plain_repr [late_departure (VInt 1)]).
  destruct (nth_error (lines (fst (renew plain_repr b))) 0) as [line|] eqn:El;
    [|vm_compute in El; discriminate El].
  assert (Hc : nth_error line 10 = Some (" 1L", AInt 5))
    by (vm_compute in El; injection El as <-; reflexivity).
  exists line. split; [reflexivity|]. split; [exact Hc|].
  destruct (renew_cell_width plain_repr b 0 10 line (" 1L", AInt 5) El Hc)
    as (row & col & name & justify & color & w & text
        & Hrow & Hcol & Hres & _ & Hj & Hs & _).
  vm_compute in Hcol. injection Hcol as <-.
  vm_compute in Hres. injection Hres as _ _ <- _.
  exists w, text. split; [exact Hj | exact Hs].
Defined.

(** C1 fails on the welcome buffer that [main] starts with: its only column
    resolves to width 4, and its cells are six or seven characters long. It
    fails on the board too: the actual departure at 12:01:30 reads "1201"
    and the half-minute mark, five characters in a column of width 4. *)
Lemma welcome_cells_wider_than_column :
  main_init plain_repr 0 = Ok (mkMain "" 0 false (welcome_buffer plain_repr))
  /\ resolve (Data.schema welcome_data) "body"
     = Ok (AStr "Body", AInt 4, ANone, AInt 0)
  /\ nth_error (lines (welcome_buffer plain_repr)) 0
     = Some [("line 1", AInt 0)]
  /\ PyStr.len "line 1" = 6
  /\ nth_error (lines (welcome_buffer plain_repr)) 78
     = Some [("line 79", AInt 0)]
  /\ resolve Board_schema "departure_actual/short"
     = Ok (AStr "departure", AInt 4, ANone, AInt 3)
  /\ body_cell plain_repr (Board_substitute_fn plain_repr) Board_schema
               (late_departure (VInt 1)) "departure_actual/short"
     = Ok ("1201" ++ half_mark, AInt 3)
  /\ PyStr.len ("1201" ++ half_mark) = 5.
Proof. conjunctions; evaluate. Qed.

(** C2 at 31 seconds after the stamp: the buffer is refreshed and stamped
    with the second reading of the clock. *)
Lemma consider_refresh_cadence_witness :
  let b := sample_board plain_repr [late_departure (VInt 1)] in
  let db := fixed_provider [] in
  0 <= 31000000 - last_refreshed b < Time.MICROS_PER_DAY
  /\ consider_refresh plain_repr 31000000 31000007 db b
     = refresh plain_repr db (set_last_refreshed b 31000007)
  /\ last_refreshed (fst (consider_refresh plain_repr 31000000 31000007 db b))
     = 31000007.
Proof.
  cbv zeta.
  set (b := sample_board plain_repr [late_departure (VInt 1)]).
  assert (Hday : 0 <= 31000000 - last_refreshed b < Time.MICROS_PER_DAY)
    by (vm_compute; split; [discriminate | reflexivity]).
  split; [exact Hday|].
  exact (proj1 (consider_refresh_cadence plain_repr 31000000 31000007
                  (fixed_provider []) b Hday)
               ltac:(vm_compute; discriminate)).
Defined.

(** C2 fails half a second past the thirtieth: more than 30 seconds have
    gone by, and the board is neither refreshed nor stamped. The same holds
    a day and five seconds after the stamp. *)
Lemma refresh_skipped_past_thirty_seconds :
  let b := sample_board plain_repr [late_departure (VInt 1)] in
  let db := fixed_provider [] in
  30 * Time.MICROS_PER_SECOND < 30500000 - last_refreshed b
  /\ consider_refresh plain_repr 30500000 30500000 db b = (b, None)
  /\ consider_refresh plain_repr (Time.MICROS_PER_DAY + 5000000)
                      (Time.MICROS_PER_DAY + 5000000) db b = (b, None)
  /\ refresh plain_repr db (set_last_refreshed b 30500000) <> (b, None).
Proof. cbv zeta. conjunctions; evaluate. Qed.

(** C3 on the widths of the design document: the outer default 5 wins over
    the inner default 9 for a leaf that names no width. *)
Lemma inheritance_precedence_witness :
  let ds := [ [ANone; ANone; ANone; ANone]; [ANone; AInt 5; ANone; ANone];
              [ANone; AInt 9; ANone; ANone] ] in
  defaults_along (PyStr.split "/" "a/b/leaf")
                 (nested_widths (AInt 5) (AInt 9))
  = Ok (ds, VTuple [AStr "L"; ANone])
  /\ resolve (nested_widths (AInt 5) (AInt 9)) "a/b/leaf"
     = Ok (AStr "L", AInt 5, ANone, AInt 0).
Proof.
  cbv zeta. split; [reflexivity|].
  destruct (inheritance_precedence
              (nested_widths (AInt 5) (AInt 9)) "a/b/leaf"
              [ [ANone; ANone; ANone; ANone]; [ANone; AInt 5; ANone; ANone];
                [ANone; AInt 9; ANone; ANone] ]
              [AStr "L"; ANone] eq_refl ltac:(vm_compute; reflexivity))
    as (name & pad & justify & color & Hres & _).
  rewrite Hres. vm_compute in Hres. symmetry. exact Hres.
Defined.

(** The other two cases of the design document: with the outer width unset
    the inner 9 is used, and a leaf's own colour 7 wins over the group's 3. *)
Example inner_width_used_when_outer_unset :
  resolve (nested_widths ANone (AInt 9)) "a/b/leaf"
  = Ok (AStr "L", AInt 9, ANone, AInt 0).
Proof. reflexivity. Qed.

Example leaf_colour_wins :
  resolve (coloured_leaf (AInt 7)) "times/short"
  = Ok (AStr "arrival", AInt 4, ANone, AInt 7).
Proof. reflexivity. Qed.

(** C3 fails for a value that Python counts as false: a leaf that names
    colour 0 itself, under a group that asks for colour 3, resolves to 3. *)
Lemma explicit_colour_zero_gives_way :
  defaults_along (PyStr.split "/" "times/short") (coloured_leaf (AInt 0))
  = Ok ([ [ANone; ANone; ANone; ANone];
          [AStr "arrival"; ANone; ANone; AInt 3] ],
        VTuple [ANone; AInt 4; ANone; AInt 0])
  /\ resolve (coloured_leaf (AInt 0)) "times/short"
     = Ok (AStr "arrival", AInt 4, ANone, AInt 3)
  /\ AInt 0 <> ANone.
Proof. conjunctions; evaluate. Qed.

(** X28 on "TRJD cdf", submitted at noon of 2024-03-01: the active buffer
    becomes the board for "CDF" from 11:50 for 120 minutes. *)
Lemma submit_commands_witness :
  let t := tick_at sample_noon 80 10 [late_departure (VInt 1)] in
  let st := mkMain "TRJD cdf" 8 true (welcome_buffer plain_repr) in
  (k t = KEY_ENTER \/ k t = 10)
  /\ exists b,
       entry_key plain_repr t st = Continue (mkMain "" 0 false b) false
       /\ view_of b = BoardView (sample_noon - 600000000) 120 "CDF"
       /\ title b
          = "STATION DEPARTURE BOARD ENQUIRY - CDF 2024-03-01 11:50:00 - 120 MINUTES".
Proof.
  cbv zeta.
  set (t := tick_at sample_noon 80 10 [late_departure (VInt 1)]).
  set (st := mkMain "TRJD cdf" 8 true (welcome_buffer plain_repr)).
  split; [right; reflexivity|].
  destruct (submit_commands plain_repr t st (or_intror eq_refl))
    as (Htrjd & _ & _).
  destruct (Htrjd eq_refl) as (code & Hcode & Hkey & Hview).
  vm_compute in Hcode. injection Hcode as <-.
  destruct (BoardBuffer plain_repr (now_init t) (db_submit t)
                        (now_submit t - 600000000) 120 (PyStr.upper "cdf"))
    as [b|e] eqn:Eb; [|vm_compute in Eb; discriminate Eb].
  exists b. split; [exact Hkey|]. split; [exact (Hview b eq_refl)|].
  vm_compute in Eb. injection Eb as <-. vm_compute. reflexivity.
Defined.

(** C5. The code at a compose string that is no whole command: "uid x",
    typed from the first turn of [main] on and submitted, raises
    [IndexError] where the third field is taken, and the exception leaves
    [main]; the string is not discarded quietly, and the editor, which
    held "uid x" with the cursor at 5 in text-entry mode before the
    submit, is not reset. A third field that is no date does the same
    with a [ValueError]. Neither depends on the clock, the provider or the
    buffer of the turn. *)
Lemma uid_without_date_ends_main :
  main_loop plain_repr (typed 80 [116; 117; 105; 100; 32; 120; 10])
            (mkMain "" 0 false (welcome_buffer plain_repr))
  = Uncaught IndexError
  /\ main_loop plain_repr (typed 80 [116; 117; 105; 100; 32; 120])
               (mkMain "" 0 false (welcome_buffer plain_repr))
     = Continue (mkMain "uid x" 5 true (render_pass (welcome_buffer plain_repr)))
                false
  /\ entry_key plain_repr (tick_at 0 80 10 [])
               (mkMain "uid x soon" 10 true (welcome_buffer plain_repr))
     = Uncaught ValueError
  /\ (forall (t : Tick) (b : Buffer),
        k t = 10 ->
        entry_key plain_repr t (mkMain "uid x" 5 true b) = Uncaught IndexError
        /\ entry_key plain_repr t (mkMain "uid x soon" 10 true b)
           = Uncaught ValueError).
Proof.
  conjunctions; try evaluate.
  intros t b Hk.
  rewrite !(entry_key_enter plain_repr t _ (or_intror Hk)).
  split; lazy; reflexivity.
Qed.

(** C6 on the scenario of the design document: a departure due at 12:00:00
    that left at 12:01:30, variation "1", status "L"; and on a row without
    actual times whose service is estimated 2 late. *)
Lemma variation_display_witness :
  let x := late_departure (VInt 1) in
  let due := VDict [ ("arrival_actual", time_group VNone "");
                     ("departure_actual", time_group VNone "");
                     ("service", VDict [ ("current_variation", VInt 2) ]) ] in
  has_actual_time x = Ok true
  /\ Board_substitute_fn plain_repr x "service/current_variation" ("1", AInt 3)
     = Ok (VStr "1L", AInt 5)
  /\ body_cell plain_repr (Board_substitute_fn plain_repr) Board_schema x
               "service/current_variation"
     = Ok (" 1L", AInt 5)
  /\ has_actual_time due = Ok false
  /\ body_cell plain_repr (Board_substitute_fn plain_repr) Board_schema due
               "service/current_variation"
     = Ok ("  2", AInt 3)
  /\ body_cell plain_repr (Service_substitute_fn plain_repr) Service_schema due
               "service/current_variation"
     = Ok ("   ", AInt 0).
Proof.
  cbv zeta.
  set (due := VDict [ ("arrival_actual", time_group VNone "");
                      ("departure_actual", time_group VNone "");
                      ("service", VDict [ ("current_variation", VInt 2) ]) ]).
  destruct (variation_display
              plain_repr (BoardView 0 120 "CDF") (late_departure (VInt 1))
              (movement (VStr "2") (VStr "L") (VStr "1"))
              (movement VNone VNone VNone) ("1", AInt 3)
              (VStr "L") VNone (VStr "1") (VInt 1) "L"
              ltac:(discriminate) eq_refl) as [Hran _].
  destruct (Hran eq_refl eq_refl eq_refl eq_refl eq_refl eq_refl eq_refl)
    as [Hhook Hcell].
  destruct (variation_display
              plain_repr (BoardView 0 120 "CDF") due VNone VNone
              ("2", AInt 3) VNone VNone VNone (VInt 2) ""
              ltac:(discriminate) eq_refl) as [_ Hboard].
  destruct (variation_display
              plain_repr (ServiceView (mkDate 2024 3 1) "W12345") due VNone
              VNone ("2", AInt 3) VNone VNone VNone (VInt 2) ""
              ltac:(discriminate) eq_refl) as [_ Hservice].
  split; [reflexivity|]. split; [exact Hhook|].
  split; [exact (Hcell Board_schema (or_introl eq_refl))|].
  split; [reflexivity|]. split.
  - etransitivity;
      [exact (proj2 (Hboard eq_refl) Board_schema (or_introl eq_refl))|].
    vm_compute. reflexivity.
  - exact (proj2 (Hservice eq_refl) Service_schema (or_intror eq_refl)).
Defined.

(** C6 fails on that scenario: the cell reads " 1L", but in colour pair 5,
    which [main] sets up for de-emphasis, and not in pair 3, the one for
    live data. With no variation of the service's own the cell is blank.
    It fails, too, on a row of the board view that has no actual time: a
    value is shown all the same, the service's own estimate. *)
Lemma variation_cell_is_deemphasised :
  body_cell plain_repr (Board_substitute_fn plain_repr) Board_schema
            (late_departure (VInt 1)) "service/current_variation"
  = Ok (" 1L", AInt COLOR_DEEMPHASIS)
  /\ AInt COLOR_DEEMPHASIS <> AInt COLOR_LIVE_DATA
  /\ body_cell plain_repr (Board_substitute_fn plain_repr) Board_schema
               (late_departure VNone) "service/current_variation"
     = Ok ("   ", AInt COLOR_DEEMPHASIS)
  /\ (let due :=
        VDict [ ("arrival_actual", time_group VNone "");
                ("departure_actual", time_group VNone "");
                ("service", VDict [ ("current_variation", VInt 2) ]) ] in
      has_actual_time due = Ok false
      /\ body_cell plain_repr (Board_substitute_fn plain_repr) Board_schema
                   due "service/current_variation"
         = Ok ("  2", AInt COLOR_LIVE_DATA)).
Proof. cbv zeta. conjunctions; evaluate. Qed.

(** C7 on a format whose second path is not in the schema. *)
Lemma resolution_failure_raises_witness :
  let b := set_data (with_view (Buffer_init 0) TextView ["body"; "nobody"])
                    welcome_data in
  header_cell (Data.schema (data b)) "nobody" = Raise KeyError
  /\ snd (renew plain_repr b) = Some KeyError
  /\ lines (fst (renew plain_repr b)) = []
  /\ finish (renew plain_repr b) = Raise KeyError.
Proof.
  cbv zeta.
  set (b := set_data (with_view (Buffer_init 0) TextView ["body"; "nobody"])
                     welcome_data).
  assert (Hbefore : forall c, In c ["body"] ->
                              exists h, header_cell (Data.schema (data b)) c
                                        = Ok h).
  { intros c [<- | []]. eexists. reflexivity. }
  destruct (resolution_failure_raises plain_repr b ["body"] [] "nobody"
              KeyError eq_refl Hbefore eq_refl)
    as (Hraise & Hlines & _ & Hfinish & _).
  split; [reflexivity|]. split; [exact Hraise|].
  split; [exact Hlines | exact Hfinish].
Defined.

(** C7 fails: the exception is a [KeyError], or a [TypeError] for a leaf
    without a width; the constructor raises it; and when a timed refresh
    meets a row in which a path does not resolve, the turn ends [main]. *)
Lemma unresolved_path_is_uncaught :
  TextBuffer plain_repr 0 "Welcome" welcome_data ["nobody"] = Raise KeyError
  /\ TextBuffer plain_repr 0 "Welcome"
                (Data.make (VDict [ ("body", leaf [AStr "Body"; ANone]) ]) [])
                ["body"]
     = Raise TypeError
  /\ main_iteration plain_repr (tick_at 31000000 80 (-1) [VDict []])
                    (mkMain "" 0 false
                            (sample_board plain_repr [late_departure (VInt 1)]))
     = Uncaught KeyError.
Proof. conjunctions; evaluate. Qed.



(** ** Further properties on concrete runs *)

(** X2 on the sample cursor row, which has exactly 67 columns. *)
Lemma shape_row_needs_witness :
  (exists x, shape_row utc_clock cursor_row = Ok x)
  /\ (67 <= List.length cursor_row)%nat
  /\ nth_error cursor_row 35 = Some (VStr "Q   ")
  /\ nth_error cursor_row 7 = Some (VStr "2 ").
Proof.
  destruct (shape_row utc_clock cursor_row) as [x|e] eqn:E;
    [|vm_compute in E; discriminate E].
  destruct (shape_row_needs utc_clock cursor_row x E) as (Hlen & _ & _).
  split; [now exists x|]. split; [exact Hlen|]. split; reflexivity.
Defined.

(** X3 on the sample cursor row. *)
Lemma shaped_row_resolves_witness :
  exists x,
    shape_row utc_clock cursor_row = Ok x
    /\ Forall (fun col => exists r,
                 walk_row (PyStr.split "/" col) nothing_inherited x
                          Board_schema = Ok r) Board_format.
Proof.
  destruct (shape_row utc_clock cursor_row) as [x|e] eqn:E;
    [|vm_compute in E; discriminate E].
  exists x. split; [reflexivity|].
  exact (proj1 (shaped_row_resolves utc_clock cursor_row x E)).
Defined.

(** X4 on the sample cursor row: the characteristics "Q   " come out as
    "Q" and the platform "2 " as "2". *)
Lemma shape_row_succeeds_witness :
  exists x,
    shape_row utc_clock cursor_row = Ok x
    /\ field x "service" "operating_characteristics" = Ok (VStr "Q")
    /\ Py.getitem x "platform" = Ok (VStr "2").
Proof.
  assert (Htimes : forall i v,
             (i < 5)%nat -> nth_error cursor_row i = Some v ->
             Py.truthy v = true -> exists dt, utc_clock v = Ok dt).
  { intros i v Hi Hv Ht.
    do 5 (destruct i as [|i];
          [cbn in Hv; injection Hv as <-; try discriminate Ht;
           eexists; reflexivity|]).
    lia. }
  destruct (shape_row_succeeds utc_clock cursor_row "Q   " (VStr "2 ")
              ltac:(vm_compute; lia) Htimes eq_refl eq_refl
              (or_intror (ex_intro _ "2 " eq_refl)))
    as (x & Hx & Hc & Hp).
  exists x. split; [exact Hx|]. split; [exact Hc | exact Hp].
Defined.

(** X5 on the board of the late departure: fifteen header cells and one
    line. *)
Lemma renew_table_witness :
  let b := sample_board plain_repr [late_departure (VInt 1)] in
  let b' := fst (renew plain_repr b) in
  renew plain_repr b = (b', None)
  /\ List.length (col_names b') = 15%nat
  /\ List.length (lines b') = 1%nat
  /\ Forall (fun line => List.length line = List.length (format b))
            (lines b').
Proof.
  cbv zeta.
  set (b := sample_board plain_repr [late_departure (VInt 1)]).
  assert (E : renew plain_repr b = (fst (renew plain_repr b), None))
    by (vm_compute; reflexivity).
  destruct (renew_table plain_repr b _ None E) as [Hok _].
  destruct (Hok eq_refl) as (Hn & _ & Hl & Hw & _).
  split; [exact E|]. split; [|split; [|exact Hw]].
  - transitivity (List.length (format b)); [exact Hn|].
    vm_compute. reflexivity.
  - transitivity (List.length (Data.data (data b))); [exact Hl|].
    vm_compute. reflexivity.
Defined.

(** X7 on the scheduled arrival of the board: the name "arrival" of the
    group, cut to the width 5 of the leaf. *)
Lemma header_cell_width_witness :
  header_cell Board_schema "arrival_scheduled/short" = Ok ("arriv", AInt 0)
  /\ resolve Board_schema "arrival_scheduled/short"
     = Ok (AStr "arrival", AInt 5, ANone, AInt 0)
  /\ PyStr.len "arriv" = 5.
Proof.
  assert (E : header_cell Board_schema "arrival_scheduled/short"
              = Ok ("arriv", AInt 0)) by (vm_compute; reflexivity).
  destruct (header_cell_width Board_schema "arrival_scheduled/short" _ E)
    as (name & w & justify & color & Hres & _ & Hlen).
  split; [exact E|]. split; [vm_compute; reflexivity|].
  vm_compute in Hres. injection Hres as _ <- _ _.
  exact (Hlen ltac:(lia)).
Defined.

(** X8 on the late departure, booked for platform 2 and reported at
    platform 2 on departure. *)
Lemma live_platform_display_witness :
  let x := late_departure (VInt 1) in
  Py.getitem x "platform" = Ok (VStr "2")
  /\ field x "trust_departure" "platform" = Ok (VStr "2")
  /\ field x "trust_arrival" "platform" = Ok VNone
  /\ body_cell plain_repr (substitute_fn plain_repr (BoardView 0 120 "CDF"))
               Board_schema x "platform"
     = Ok (" 2 ", AInt 3).
Proof.
  cbv zeta.
  destruct (live_platform_display plain_repr (BoardView 0 120 "CDF")
              Board_schema (late_departure (VInt 1)) (VStr "2") (VStr "2")
              VNone ltac:(discriminate) (or_introl eq_refl)
              eq_refl eq_refl eq_refl eq_refl) as [H _].
  split; [reflexivity|]. split; [reflexivity|]. split; [reflexivity|].
  rewrite H. vm_compute. reflexivity.
Defined.

(** X10 on a row without actual times whose service is estimated 2 late. *)
Lemma variation_before_running_witness :
  let x := VDict [ ("arrival_actual", time_group VNone "");
                   ("departure_actual", time_group VNone "");
                   ("service", VDict [ ("current_variation", VInt 2) ]) ] in
  has_actual_time x = Ok false
  /\ body_cell plain_repr (Service_substitute_fn plain_repr) Service_schema x
               "service/current_variation" = Ok ("   ", AInt 0)
  /\ body_cell plain_repr (Board_substitute_fn plain_repr) Board_schema x
               "service/current_variation" = Ok ("  2", AInt 3).
Proof.
  cbv zeta.
  set (x := VDict [ ("arrival_actual", time_group VNone "");
                    ("departure_actual", time_group VNone "");
                    ("service", VDict [ ("current_variation", VInt 2) ]) ]).
  split; [reflexivity|].
  destruct (variation_before_running plain_repr Service_schema x (VInt 2)
              (or_intror eq_refl) eq_refl eq_refl) as [Hs _].
  destruct (variation_before_running plain_repr Board_schema x (VInt 2)
              (or_introl eq_refl) eq_refl eq_refl) as [_ Hb].
  split; [exact Hs|]. rewrite Hb. vm_compute. reflexivity.
Defined.

(** X11 on a board whose only row has departed but carries no variation
    status. *)
Lemma missing_status_raises_witness :
  let x := VDict [ ("arrival_actual", time_group VNone "");
                   ("departure_actual", time_group (VInt 1709294490) "1201");
                   ("trust_arrival", movement VNone VNone VNone);
                   ("trust_departure", movement (VStr "2") VNone VNone);
                   ("service", VDict [ ("current_variation", VInt 2) ]) ] in
  let b := sample_board plain_repr [x] in
  has_actual_time x = Ok true
  /\ body_cell plain_repr (substitute_fn plain_repr (view_of b)) Board_schema
               x "service/current_variation" = Raise TypeError
  /\ exists e, snd (renew plain_repr b) = Some e.
Proof.
  cbv zeta.
  set (x := VDict [ ("arrival_actual", time_group VNone "");
                    ("departure_actual", time_group (VInt 1709294490) "1201");
                    ("trust_arrival", movement VNone VNone VNone);
                    ("trust_departure", movement (VStr "2") VNone VNone);
                    ("service", VDict [ ("current_variation", VInt 2) ]) ]).
  set (b := sample_board plain_repr [x]).
  assert (Hview : view_of b <> TextView)
    by (intros E; vm_compute in E; discriminate E).
  assert (Hschema : Data.schema (data b) = Board_schema
                    \/ Data.schema (data b) = Service_schema)
    by (left; vm_compute; reflexivity).
  destruct (missing_status_raises plain_repr b x
              (movement (VStr "2") VNone VNone) (movement VNone VNone VNone)
              VNone VNone (VInt 2) Hview Hschema eq_refl eq_refl eq_refl
              eq_refl eq_refl eq_refl
              ltac:(intros s E; discriminate E) eq_refl)
    as (_ & Hcell & Hrenew).
  split; [reflexivity|]. split.
  - replace Board_schema with (Data.schema (data b))
      by (vm_compute; reflexivity).
    exact Hcell.
  - apply Hrenew; vm_compute; tauto.
Defined.

(** X12 on the welcome buffer: down by 5 and by 3 is down by 8. *)
Lemma scroll_composition_witness :
  let b := welcome_buffer plain_repr in
  0 <= 3 /\ 0 <= 5
  /\ scroll_down 3 (scroll_down 5 b) = scroll_down 8 b
  /\ line_offset (scroll_up 5 (scroll_down 5 b)) = line_offset b.
Proof.
  cbv zeta.
  assert (H3 : 0 <= 3) by lia. assert (H5 : 0 <= 5) by lia.
  destruct (scroll_composition (welcome_buffer plain_repr) 3 5 H3 H5)
    as (Hdown & _ & _).
  destruct (scroll_composition (welcome_buffer plain_repr) 5 5 H5 H5)
    as (_ & _ & Hback & _).
  split; [exact H3|]. split; [exact H5|]. split; [exact Hdown|].
  apply Hback; vm_compute; discriminate.
Defined.

(** X14 on the welcome buffer scrolled to row 71: the first row of the
    window reads "line 71". *)
Lemma render_page_witness :
  let b := scroll_down 70 (welcome_buffer plain_repr) in
  0 <= line_offset b /\ 0 <= 20
  /\ In (0, "line 71")
        (addstr_texts (fst (fst (render window_body 20 80 b)))).
Proof.
  cbv zeta.
  set (b := scroll_down 70 (welcome_buffer plain_repr)).
  assert (Ho : 0 <= line_offset b) by (vm_compute; discriminate).
  assert (Hd : 0 <= 20) by lia.
  assert (E : render window_body 20 80 b
              = (fst (fst (render window_body 20 80 b)),
                 snd (fst (render window_body 20 80 b)), None))
    by (vm_compute; reflexivity).
  destruct (render_page window_body 20 80 b _ _ None Ho Hd E) as [_ Hall].
  split; [exact Ho|]. split; [exact Hd|].
  apply (Hall eq_refl 0 [("line 71", AInt 0)] ("line 71", AInt 0));
    [lia | vm_compute; reflexivity | now left].
Defined.

(** X15 on two header cells and a line of two cells of the same lengths,
    drawn on an odd row. *)
Lemma columns_line_up_witness :
  let headers := [ ("ab", AInt 0); ("cde", AInt 0) ] in
  let line := [ ("12", AInt 5); ("345", AInt 3) ] in
  addstr_columns (fst (render_cells window_body 1 0 line)) = [0; 3]
  /\ addstr_columns (fst (render_header_cells window_subheader 0 headers))
     = [0; 3].
Proof.
  cbv zeta.
  set (headers := [ ("ab", AInt 0); ("cde", AInt 0) ]).
  set (line := [ ("12", AInt 5); ("345", AInt 3) ]).
  destruct (columns_line_up window_subheader window_body 1 headers line
              (fst (render_header_cells window_subheader 0 headers))
              (fst (render_cells window_body 1 0 line))
              ltac:(vm_compute; reflexivity) ltac:(vm_compute; reflexivity)
              ltac:(vm_compute; reflexivity))
    as [Hsame Hcols].
  split.
  - rewrite Hsame, Hcols. vm_compute. reflexivity.
  - rewrite Hcols. vm_compute. reflexivity.
Defined.

(** X16 on the welcome buffer of 79 rows, scrolled down by 100. *)
Lemma scrolled_past_the_end_witness :
  let b := scroll_down 100 (welcome_buffer plain_repr) in
  line_offset b = 79
  /\ fst (fst (render window_body 20 80 b)) = [refresh_window window_body]
  /\ position_summary 20 b = "[80..79/79]".
Proof.
  cbv zeta.
  destruct (scrolled_past_the_end window_body 20 80 100
              (welcome_buffer plain_repr) ltac:(lia)
              ltac:(vm_compute; split; discriminate)
              ltac:(vm_compute; discriminate))
    as (Ho & Hr & Hs).
  split; [exact Ho|]. split; [now rewrite Hr|]. rewrite Hs.
  vm_compute. reflexivity.
Defined.

(** X17 on the welcome buffer, which [renew] has left with both flags
    up. *)
Lemma drawn_once_witness :
  let b := welcome_buffer plain_repr in
  exists header_calls b1 body_calls b2,
    render_headers 20 80 window_header window_subheader b
    = (header_calls, b1, None)
    /\ render window_body 20 80 b1 = (body_calls, b2, None)
    /\ b2 = render_pass b
    /\ snd (fst (render window_body 20 80 b2)) = b2.
Proof.
  cbv zeta. set (b := welcome_buffer plain_repr).
  set (r := render_headers 20 80 window_header window_subheader b).
  set (r' := render window_body 20 80 (snd (fst r))).
  assert (E : r = (fst (fst r), snd (fst r), None))
    by (vm_compute; reflexivity).
  assert (E' : r' = (fst (fst r'), snd (fst r'), None))
    by (vm_compute; reflexivity).
  destruct (drawn_once 20 80 window_header window_subheader window_body
              b _ _ _ _ E E') as (Hpass & heads & rows & _ & _ & _ & Hagain).
  exists (fst (fst r)), (snd (fst r)), (fst (fst r')), (snd (fst r')).
  split; [exact E|]. split; [exact E'|]. split; [exact Hpass|].
  now rewrite Hagain.
Defined.

(** X18 after "t", "a", "b" and the left arrow, typed from the start of
    [main]: the compose string is "ab" with the cursor at 1. *)
Lemma editor_invariant_witness :
  exists st0 st beeped,
    main_init plain_repr 0 = Ok st0
    /\ main_loop plain_repr (typed 80 [116; 97; 98; KEY_LEFT]) st0
       = Continue st beeped
    /\ compose st = "ab"
    /\ printable (compose st) = true
    /\ 0 <= cursor_pos st <= PyStr.len (compose st).
Proof.
  destruct (main_init plain_repr 0) as [st0|e] eqn:E0;
    [|vm_compute in E0; discriminate E0].
  destruct (main_loop plain_repr (typed 80 [116; 97; 98; KEY_LEFT]) st0)
    as [st beeped | | e] eqn:E.
  2: { vm_compute in E0. injection E0 as <-. vm_compute in E.
       discriminate E. }
  2: { vm_compute in E0. injection E0 as <-. vm_compute in E.
       discriminate E. }
  destruct (editor_invariant plain_repr 0 _ st0 st beeped E0 E)
    as (Hp & Hc & _).
  exists st0, st, beeped. split; [reflexivity|]. split; [exact E|].
  split; [|split; [exact Hp | exact Hc]].
  vm_compute in E0. injection E0 as <-. vm_compute in E.
  injection E as <- _. reflexivity.
Defined.

(** X20 on "abc" with the cursor after the "a": an "x" goes in and a
    backspace takes it out. *)
Lemma insert_then_backspace_witness :
  let st := mkMain "abc" 1 true (welcome_buffer plain_repr) in
  let t1 := tick_at 0 80 120 [] in
  let t2 := tick_at 0 80 KEY_BACKSPACE [] in
  exists st1,
    entry_key plain_repr t1 st = Continue st1 false
    /\ compose st1 = "axbc"
    /\ entry_key plain_repr t2 st1 = Continue st false.
Proof.
  cbv zeta.
  destruct (insert_then_backspace plain_repr (tick_at 0 80 120 [])
              (tick_at 0 80 KEY_BACKSPACE [])
              (mkMain "abc" 1 true (welcome_buffer plain_repr))
              ltac:(vm_compute; split; discriminate)
              ltac:(vm_compute; split; discriminate)
              ltac:(vm_compute; reflexivity) eq_refl)
    as (st1 & H1 & _ & _ & H2).
  exists st1. split; [exact H1|]. split; [|exact H2].
  vm_compute in H1. injection H1 as <-. reflexivity.
Defined.


(** X22 on the sample cursor row: the departure at 12:01:30 gives a cell
    of five characters under a header of four. *)
Lemma short_time_cell_witness :
  exists x header,
    shape_row utc_clock cursor_row = Ok x
    /\ header_cell Board_schema "departure_actual/short"
       = Ok (header, AInt 0)
    /\ PyStr.len header = 4
    /\ body_cell plain_repr (Board_substitute_fn plain_repr) Board_schema x
                 "departure_actual/short"
       = Ok ("1201" ++ half_mark, AInt 3)
    /\ PyStr.len ("1201" ++ half_mark) = 5.
Proof.
  destruct (shape_row utc_clock cursor_row) as [x|e] eqn:E;
    [|vm_compute in E; discriminate E].
  destruct (short_time_cell plain_repr utc_clock cursor_row x
              (VInt 1709294490) ((1709294490 + 62135596800) * 1000000)
              4 "departure_actual" (Board_substitute_fn plain_repr)
              Board_schema E (or_introl (conj eq_refl eq_refl))
              eq_refl eq_refl eq_refl eq_refl)
    as (header & Hh & Hw & Hcell & Hlen).
  exists x, header. split; [reflexivity|]. split; [exact Hh|].
  split; [exact Hw|]. split; [exact Hcell|]. vm_compute. reflexivity.
Defined.

(** X24 on the board of the late departure. *)
Lemma live_view_draws_witness :
  let b := sample_board plain_repr [late_departure (VInt 1)] in
  let b' := fst (renew plain_repr b) in
  renew plain_repr b = (b', None)
  /\ snd (render window_body 20 80 b') = None
  /\ snd (render_headers 20 80 window_header window_subheader b') = None.
Proof.
  cbv zeta.
  set (b := sample_board plain_repr [late_departure (VInt 1)]).
  assert (E : renew plain_repr b = (fst (renew plain_repr b), None))
    by (vm_compute; reflexivity).
  assert (Hlive : (Data.schema (data b) = Board_schema
                   /\ format b = Board_format)
                  \/ (Data.schema (data b) = Service_schema
                      /\ format b = Service_format))
    by (left; split; vm_compute; reflexivity).
  destruct (live_view_draws plain_repr b _ 20 80 window_header
              window_subheader window_body Hlive E) as (_ & _ & Hr & Hh).
  split; [exact E|]. split; [exact Hr | exact Hh].
Defined.

(** X25 on the late departure, which starts from the station asked for. *)
Lemma query_station_deemphasised_witness :
  let x := late_departure (VInt 1) in
  body_cell plain_repr (Board_substitute_fn plain_repr) Board_schema x
            "origin/name"
  = Ok (PyStr.ljust "Cardiff Central" 30, AInt 5)
  /\ body_cell plain_repr (Board_substitute_fn plain_repr) Board_schema x
               "destination/name"
     = Ok (PyStr.ljust "London Paddington" 30, AInt 0).
Proof.
  cbv zeta.
  pose proof (query_station_deemphasised plain_repr (late_departure (VInt 1))
                (VStr "CRDFCEN") (VStr "CRDFCEN") (VStr "Cardiff Central")
                "origin" (or_introl eq_refl) eq_refl eq_refl eq_refl) as Ho.
  pose proof (query_station_deemphasised plain_repr (late_departure (VInt 1))
                (VStr "CRDFCEN") (VStr "PADTON") (VStr "London Paddington")
                "destination" (or_intror eq_refl) eq_refl eq_refl eq_refl)
    as Hd.
  change ("origin" ++ "/name") with "origin/name" in Ho.
  change ("destination" ++ "/name") with "destination/name" in Hd.
  split; [rewrite Ho | rewrite Hd]; vm_compute; reflexivity.
Defined.

(** X27 on the sample cursor row. *)
Lemma shaped_line_returns_witness :
  exists x board_line service_line,
    shape_row utc_clock cursor_row = Ok x
    /\ body_line plain_repr (Board_substitute_fn plain_repr) Board_schema
                 Board_format x = Ok board_line
    /\ body_line plain_repr (Service_substitute_fn plain_repr) Service_schema
                 Service_format x = Ok service_line.
Proof.
  destruct (shape_row utc_clock cursor_row) as [x|e] eqn:E;
    [|vm_compute in E; discriminate E].
  destruct (shaped_line_returns plain_repr utc_clock cursor_row x
              VNone (VInt 1709294490) VNone (VStr "2") VNone (VStr "L") VNone
              E eq_refl eq_refl eq_refl eq_refl eq_refl eq_refl eq_refl
              (or_introl eq_refl) (or_intror (ex_intro _ "2" eq_refl))
              (or_introl eq_refl)
              (fun _ => ex_intro _ "L" eq_refl))
    as [[board_line Hb] [service_line Hs]].
  exists x, board_line, service_line.
  split; [reflexivity|]. split; [exact Hb | exact Hs].
Defined.
